(** * Movie recommendation trainer: the convolution, the checkpoint
      utilities and the training driver, embedded from [model.py],
      [utils.py] and [train.py].

    Tensors are lists (row lists for matrices) of extended real values:
    arithmetic is exact and unbounded, so rounding and overflow of the
    machine formats are not modelled, while the special values that the
    code tests for (infinity, not-a-number) are.  The statements about
    tensors are therefore about which entries are combined and how, and
    about the special values; where the rounded value matters, the
    normalisation of the convolution is evaluated in IEEE binary32 as well
    (module [ElementArith]).  Python exceptions are the
    [Raise] results of an error type; code that mutates files or objects
    runs in a state-and-exception monad over an explicit world.  Devices,
    the autocast mode, console output and progress bars carry no value of
    the run and are left out. *)

From Stdlib Require Import Reals Lra Lia List Arith ZArith String Ascii Bool.
From Stdlib Require Import DecimalString.
From Stdlib Require SpecFloat.
Import ListNotations.

Set Warnings "-register-all".

(* ===================================================================== *)
(** * Part I. Definitions                                                  *)
(* ===================================================================== *)

(** ** Exceptions and results *)

Inductive exn : Type :=
| RuntimeError      (* torch: index out of bounds, shape mismatch *)
| IndexError
| TypeError
| ValueError
| KeyError
| AttributeError
| FileNotFoundError
| ZeroDivisionError
| UnpicklingError
| ExternalError.    (* raised inside a collaborator that is not modelled *)

Inductive result (A : Type) : Type :=
| Ok (a : A)
| Raise (e : exn).
Arguments Ok {A} a.
Arguments Raise {A} e.

Definition rbind {A B} (r : result A) (k : A -> result B) : result B :=
  match r with
  | Ok a => k a
  | Raise e => Raise e
  end.

Declare Scope result_scope.
Delimit Scope result_scope with res.
Notation "x <- c ;; k" := (rbind c (fun x => k))
  (at level 61, c at next level, right associativity) : result_scope.
Notation "' pat <- c ;; k" := (rbind c (fun x => match x with pat => k end))
  (at level 61, pat pattern, c at next level, right associativity) : result_scope.

Fixpoint rmapM {A B} (f : A -> result B) (l : list A) : result (list B) :=
  match l with
  | [] => Ok []
  | a :: t => rbind (f a) (fun b => rbind (rmapM f t) (fun bs => Ok (b :: bs)))
  end.

(** ** Tensor elements *)

Module Float.

(** A tensor element: a real, one of the two infinities, or not-a-number. *)
Inductive fval : Type :=
| Fin (r : R)
| PInf
| NInf
| NaN.

Definition fzero : fval := Fin 0.
Definition fone : fval := Fin 1.

Definition fadd (a b : fval) : fval :=
  match a, b with
  | NaN, _ | _, NaN => NaN
  | Fin x, Fin y => Fin (x + y)
  | PInf, NInf | NInf, PInf => NaN
  | PInf, _ | _, PInf => PInf
  | NInf, _ | _, NInf => NInf
  end.

(** The sign of a real scales an infinity; zero times infinity is NaN. *)
Definition scale_inf (x : R) (pos neg : fval) : fval :=
  if Rlt_dec 0 x then pos else if Rlt_dec x 0 then neg else NaN.

Definition fmul (a b : fval) : fval :=
  match a, b with
  | NaN, _ | _, NaN => NaN
  | Fin x, Fin y => Fin (x * y)
  | Fin x, PInf | PInf, Fin x => scale_inf x PInf NInf
  | Fin x, NInf | NInf, Fin x => scale_inf x NInf PInf
  | PInf, PInf | NInf, NInf => PInf
  | PInf, NInf | NInf, PInf => NInf
  end.

(** [t.pow(-0.5)], elementwise the reciprocal square root: infinite at
    zero, undefined below it. *)
Definition pow_neg_half (a : fval) : fval :=
  match a with
  | Fin x => if Rlt_dec 0 x then Fin (/ sqrt x)
             else if Rlt_dec x 0 then NaN else PInf
  | PInf => Fin 0
  | NInf => NaN
  | NaN => NaN
  end.

(** [a == float('inf')] *)
Definition eq_inf (a : fval) : bool :=
  match a with
  | PInf => true
  | _ => false
  end.

(** [a < b]: false as soon as one side is NaN. *)
Definition flt (a b : fval) : bool :=
  match a, b with
  | NaN, _ | _, NaN => false
  | Fin x, Fin y => if Rlt_dec x y then true else false
  | NInf, NInf => false
  | NInf, _ => true
  | _, NInf => false
  | PInf, _ => false
  | Fin _, PInf => true
  end.

Definition finite (a : fval) : Prop :=
  match a with
  | Fin _ => True
  | _ => False
  end.

Definition nonneg (a : fval) : Prop :=
  match a with
  | Fin x => (0 <= x)%R
  | PInf => True
  | _ => False
  end.

(** [-a] *)
Definition fneg (a : fval) : fval :=
  match a with
  | Fin x => Fin (- x)
  | PInf => NInf
  | NInf => PInf
  | NaN => NaN
  end.

(** [a - b] *)
Definition fsub (a b : fval) : fval := fadd a (fneg b).

(** [a / b] on tensor elements: a zero divisor raises nothing, it gives
    the infinity with the sign of the dividend, and not-a-number for zero
    over zero.  The sign of a zero is not modelled; a zero divisor counts
    as positive. *)
Definition fdiv (a b : fval) : fval :=
  match a, b with
  | NaN, _ | _, NaN => NaN
  | Fin x, Fin y => if Req_dec_T y 0 then scale_inf x PInf NInf else Fin (x / y)
  | Fin _, PInf | Fin _, NInf => Fin 0
  | PInf, Fin y => if Rlt_dec y 0 then NInf else PInf
  | NInf, Fin y => if Rlt_dec y 0 then PInf else NInf
  | PInf, PInf | PInf, NInf | NInf, PInf | NInf, NInf => NaN
  end.

End Float.
Import Float.

(** ** Tensor operations used by the convolution *)

Module Tensor.

Definition vector := list fval.

(** A two-dimensional tensor: [size(1)] and the rows. *)
Record matrix : Type := Matrix { width : nat; rows : list vector }.

Definition size0 (m : matrix) : nat := List.length (rows m).


Definition zeros (n : nat) : vector := repeat fzero n.
Definition ones (n : nat) : vector := repeat fone n.
Definition zeros2 (n d : nat) : list vector := repeat (zeros d) n.

(** Elementwise sum of two rows of one width. *)
Fixpoint vadd (u v : vector) : vector :=
  match u, v with
  | a :: u', b :: v' => fadd a b :: vadd u' v'
  | _, _ => []
  end.

(** [l[i] = f(l[i])]; nothing to update past the end. *)
Fixpoint update_at {A} (l : list A) (i : nat) (f : A -> A) : option (list A) :=
  match l, i with
  | [], _ => None
  | a :: t, O => Some (f a :: t)
  | a :: t, S i' => option_map (cons a) (update_at t i' f)
  end.

(** [out.scatter_add_(0, index, src)] along the first dimension:
    [out[index[k]] += src[k]] for each position [k] in turn.  An index
    outside [out] is an error, and so is an index tensor whose length
    differs from the source's. *)
Fixpoint scatter_add_ {A} (add : A -> A -> A) (out : list A)
  (index : list nat) (src : list A) : result (list A) :=
  match index, src with
  | [], [] => Ok out
  | i :: index', s :: src' =>
      match update_at out i (fun o => add o s) with
      | Some out' => scatter_add_ add out' index' src'
      | None => Raise RuntimeError
      end
  | _, _ => Raise RuntimeError
  end.

(** [torch_geometric.utils.degree(index, num_nodes, dtype)]:
    [zeros(N).scatter_add_(0, index, ones(index.size(0)))]. *)
Definition degree (index : list nat) (num_nodes : nat) : result vector :=
  scatter_add_ fadd (zeros num_nodes) index (ones (List.length index)).

(** [t[index]] with an index tensor. *)
Definition index_select {A} (t : list A) (index : list nat) : result (list A) :=
  rmapM (fun i => match nth_error t i with
                  | Some a => Ok a
                  | None => Raise IndexError
                  end) index.

(** [t[t == float('inf')] = 0] *)
Definition mask_inf_to_zero (t : vector) : vector :=
  map (fun a => if eq_inf a then fzero else a) t.

(** Elementwise product of two vectors of one length. *)
Fixpoint vmul (u v : vector) : vector :=
  match u, v with
  | a :: u', b :: v' => fmul a b :: vmul u' v'
  | _, _ => []
  end.

End Tensor.
Import Tensor.

(** ** [model.py] *)

(** An edge index is a 2 x E integer tensor: the list of its columns
    [(from, to)]. *)
Definition edge_index_t := list (nat * nat).

Definition flip0 (edge_index : edge_index_t) : edge_index_t :=
  map (fun e => (snd e, fst e)) edge_index.

Module BipartiteLightGCN.

(** [message(x_j, norm)]: [norm.view(-1, 1) * x_j], row [k] of [x_j]
    scaled by [norm[k]]. *)
Fixpoint message (x_j : list vector) (norm : vector) : list vector :=
  match x_j, norm with
  | row :: x_j', n :: norm' => map (fmul n) row :: message x_j' norm'
  | _, _ => []
  end.

(** [update(aggr_out)] *)
Definition update (aggr_out : list vector) : list vector := aggr_out.

(** [propagate(edge_index, size, x=(x_src, x_dst), norm)] of a
    [MessagePassing] layer built with [aggr='add'] and the default flow:
    gather the source rows along [edge_index[0]], form the messages, add
    each into the row [edge_index[1]] of a zero tensor with [size[1]] rows,
    and pass the sum through [update]. *)
Definition propagate (edge_index : edge_index_t) (size : nat * nat)
  (x_src : matrix) (norm : vector) : result matrix :=
  rbind (index_select (rows x_src) (map fst edge_index)) (fun x_j =>
  let msgs := message x_j norm in
  rbind (scatter_add_ vadd (zeros2 (snd size) (width x_src))
           (map snd edge_index) msgs) (fun aggr_out =>
  Ok (Matrix (width x_src) (update aggr_out)))).

(** The masked reciprocal square roots of the degrees of one side
    (lines 16-25 of [forward], for either side). *)
Definition deg_inv_sqrt (index : list nat) (num_nodes : nat) : result vector :=
  rbind (degree index num_nodes) (fun deg =>
  Ok (mask_inf_to_zero (map pow_neg_half deg))).

(** The per-edge normalisation [norm] of [forward] (lines 14-32). *)
Definition edge_norm (x y : matrix) (edge_index : edge_index_t) : result vector :=
  let from_ := map fst edge_index in
  let to_ := map snd edge_index in
  rbind (deg_inv_sqrt from_ (size0 x)) (fun deg_x_inv_sqrt =>
  rbind (deg_inv_sqrt to_ (size0 y)) (fun deg_y_inv_sqrt =>
  rbind (index_select deg_x_inv_sqrt from_) (fun norm_x =>
  rbind (index_select deg_y_inv_sqrt to_) (fun norm_y =>
  Ok (vmul norm_x norm_y))))).

(** [forward(x, y, edge_index)], returning [(y2x, x2y)]. *)
Definition forward (x y : matrix) (edge_index : edge_index_t)
  : result (matrix * matrix) :=
  rbind (edge_norm x y edge_index) (fun norm =>
  rbind (propagate edge_index (size0 x, size0 y) x norm) (fun x2y =>
  rbind (propagate (flip0 edge_index) (size0 y, size0 x) y norm) (fun y2x =>
  Ok (y2x, x2y)))).

End BipartiteLightGCN.

(** ** The normalisation in the arithmetic of the element type *)

Module ElementArith.

(** The operations of a tensor's element type that lines 14-32 of
    [forward] use. *)
Record arith : Type := Arith {
  elt : Type;
  zero : elt;
  one : elt;
  add : elt -> elt -> elt;
  mul : elt -> elt -> elt;
  inv_sqrt : elt -> elt;          (* [pow(-0.5)] *)
  is_inf : elt -> bool            (* [== float('inf')] *)
}.

(** The extended reals of this development. *)
Definition extended_reals : arith :=
  Arith fval fzero fone fadd fmul pow_neg_half eq_inf.

(** IEEE binary32, the default element type of torch: 24 bits of
    precision, every operation rounded to nearest, ties to even.
    [pow(-0.5)] is computed as the reciprocal of the square root. *)
Definition prec : Z := 24.
Definition emax : Z := 128.

Definition b32_zero : SpecFloat.spec_float := SpecFloat.S754_zero false.
Definition b32_one : SpecFloat.spec_float := SpecFloat.S754_finite false 8388608 (-23).
Definition b32_half : SpecFloat.spec_float := SpecFloat.S754_finite false 8388608 (-24).

Definition b32_inv_sqrt (a : SpecFloat.spec_float) : SpecFloat.spec_float :=
  SpecFloat.SFdiv prec emax b32_one (SpecFloat.SFsqrt prec emax a).

Definition b32_is_inf (a : SpecFloat.spec_float) : bool :=
  match a with
  | SpecFloat.S754_infinity false => true
  | _ => false
  end.

Definition binary32 : arith :=
  Arith SpecFloat.spec_float b32_zero b32_one
    (SpecFloat.SFadd prec emax) (SpecFloat.SFmul prec emax) b32_inv_sqrt b32_is_inf.

Section Generic.
Variable A : arith.

Definition degree (index : list nat) (num_nodes : nat) : result (list (elt A)) :=
  scatter_add_ (add A) (repeat (zero A) num_nodes) index
    (repeat (one A) (List.length index)).

Definition mask_inf_to_zero (t : list (elt A)) : list (elt A) :=
  map (fun a => if is_inf A a then zero A else a) t.

Fixpoint vmul (u v : list (elt A)) : list (elt A) :=
  match u, v with
  | a :: u', b :: v' => mul A a b :: vmul u' v'
  | _, _ => []
  end.

Definition deg_inv_sqrt (index : list nat) (num_nodes : nat) : result (list (elt A)) :=
  rbind (degree index num_nodes) (fun deg =>
  Ok (mask_inf_to_zero (map (inv_sqrt A) deg))).

(** [norm] for feature tensors of [n_x] and [n_y] rows. *)
Definition edge_norm (n_x n_y : nat) (edge_index : edge_index_t)
  : result (list (elt A)) :=
  let from_ := map fst edge_index in
  let to_ := map snd edge_index in
  rbind (deg_inv_sqrt from_ n_x) (fun deg_x_inv_sqrt =>
  rbind (deg_inv_sqrt to_ n_y) (fun deg_y_inv_sqrt =>
  rbind (index_select deg_x_inv_sqrt from_) (fun norm_x =>
  rbind (index_select deg_y_inv_sqrt to_) (fun norm_y =>
  Ok (vmul norm_x norm_y))))).

End Generic.

(** The element that stands for a degree: [d] ones added up. *)
Definition of_count (A : arith) (d : nat) : elt A :=
  Nat.iter d (fun a => add A a (one A)) (zero A).

(** The entry that [deg.pow(-0.5)] holds, after the mask, for a node of
    degree [d]. *)
Definition node_entry (A : arith) (d : nat) : elt A :=
  let v := inv_sqrt A (of_count A d) in
  if is_inf A v then zero A else v.

End ElementArith.

(** ** Python values *)

Module Py.

(** The values that flow through the training driver.  A tensor (or
    numpy array) is its shape and its elements in row-major order; an
    instance of a class is the class name and its attribute dictionary;
    dictionary keys are strings. *)
Inductive pyval : Type :=
| PyNone
| PyBool (b : bool)
| PyInt (z : Z)
| PyFloat (a : fval)
| PyStr (s : string)
| PyTensor (shape : list nat) (data : list fval)
| PyTuple (items : list pyval)
| PyList (items : list pyval)
| PyDict (items : list (string * pyval))
| PyObject (cls : string) (attrs : list (string * pyval)).

Definition dict := list (string * pyval).

Fixpoint dict_lookup (d : dict) (k : string) : option pyval :=
  match d with
  | [] => None
  | (k', v) :: d' => if String.eqb k' k then Some v else dict_lookup d' k
  end.

(** [v[k]] *)
Definition getitem (v : pyval) (k : string) : result pyval :=
  match v with
  | PyDict d => match dict_lookup d k with
                | Some x => Ok x
                | None => Raise KeyError
                end
  | _ => Raise TypeError
  end.

(** [k in v] *)
Definition contains (k : string) (v : pyval) : result bool :=
  match v with
  | PyDict d => Ok (match dict_lookup d k with Some _ => true | None => false end)
  | _ => Raise TypeError
  end.

(** [v.get(k, default)] *)
Definition get (v : pyval) (k : string) (default : pyval) : result pyval :=
  match v with
  | PyDict d => Ok (match dict_lookup d k with Some x => x | None => default end)
  | _ => Raise AttributeError
  end.

Definition is_zero (a : fval) : bool :=
  match a with
  | Fin x => if Req_dec_T x 0 then true else false
  | _ => false
  end.

(** [bool(v)], as an [if] takes it. *)
Definition truthy (v : pyval) : result bool :=
  match v with
  | PyNone => Ok false
  | PyBool b => Ok b
  | PyInt z => Ok (negb (Z.eqb z 0))
  | PyFloat a => Ok (negb (is_zero a))
  | PyStr s => Ok (negb (String.eqb s ""))
  | PyTensor _ [a] => Ok (negb (is_zero a))
  | PyTensor _ _ => Raise RuntimeError
  | PyTuple l | PyList l => Ok (match l with [] => false | _ => true end)
  | PyDict d => Ok (match d with [] => false | _ => true end)
  | PyObject _ _ => Ok true
  end.

(** [a, b = v]: the value is iterated and must yield two items.  [None],
    numbers and plain instances are not iterable. *)
Definition unpack2 (v : pyval) : result (pyval * pyval) :=
  match v with
  | PyTuple [a; b] | PyList [a; b] => Ok (a, b)
  | PyTuple _ | PyList _ => Raise ValueError
  | PyDict [(k1, _); (k2, _)] => Ok (PyStr k1, PyStr k2)
  | PyDict _ => Raise ValueError
  | PyStr (String c1 (String c2 EmptyString)) =>
      Ok (PyStr (String c1 EmptyString), PyStr (String c2 EmptyString))
  | PyStr _ => Raise ValueError
  | PyTensor [] _ => Raise TypeError
  | PyTensor (2 :: shape') data =>
      let n := fold_right Nat.mul 1 shape' in
      Ok (PyTensor shape' (firstn n data), PyTensor shape' (skipn n data))
  | PyTensor _ _ => Raise ValueError
  | PyNone | PyBool _ | PyInt _ | PyFloat _ | PyObject _ _ => Raise TypeError
  end.

(** The number a value stands for in a comparison or a sum: a Python
    number or a one-element tensor. *)
Definition as_scalar (v : pyval) : result fval :=
  match v with
  | PyFloat a => Ok a
  | PyInt z => Ok (Fin (IZR z))
  | PyBool b => Ok (Fin (if b then 1 else 0))
  | PyTensor _ [a] => Ok a
  | PyTensor _ _ => Raise RuntimeError
  | _ => Raise TypeError
  end.

(** [if a < b:] *)
Definition py_lt (a b : pyval) : result bool :=
  (x <- as_scalar a ;; y <- as_scalar b ;; Ok (flt x y))%res.

(** [t.detach().cpu().numpy()] *)
Definition detach_cpu_numpy (t : pyval) : result pyval :=
  match t with
  | PyTensor shape data => Ok (PyTensor shape data)
  | _ => Raise AttributeError
  end.

(** [t.item()] *)
Definition item (t : pyval) : result pyval :=
  match t with
  | PyTensor _ [a] => Ok (PyFloat a)
  | PyTensor _ _ => Raise RuntimeError
  | _ => Raise AttributeError
  end.

(** [(tloss * i + loss_items) / (i + 1)] on two tensors of one shape. *)
Definition running_mean (tloss : pyval) (i : nat) (loss_items : pyval)
  : result pyval :=
  match tloss, loss_items with
  | PyTensor sh1 d1, PyTensor sh2 d2 =>
      if list_eq_dec Nat.eq_dec sh1 sh2
      then Ok (PyTensor sh1
                 (map (fun a => fmul a (Fin (/ INR (i + 1))))
                      (vadd (map (fun a => fmul a (Fin (INR i))) d1) d2)))
      else Raise RuntimeError
  | _, _ => Raise TypeError
  end.

(** [str(n)] for a non-negative integer. *)
Definition str_of_nat (n : nat) : string :=
  NilZero.string_of_uint (Nat.to_uint n).

End Py.
Import Py.

(** A heterogeneous mini-batch, by the part the code reads: the store of
    the [("movie", "ratedby", "user")] relation, and the other stores kept
    as they are.  [pos] and [weight] may be missing (or [None]); a
    per-edge attribute is the list of its entries along the first
    dimension. *)
Record edge_store : Type := EdgeStore {
  edge_index : edge_index_t;
  edge_label_index : edge_index_t;
  edge_label : pyval;
  pos : option (list pyval);
  rating : list pyval;
  weight : option (list pyval);
  e_id : list pyval;
  other_attrs : list (string * pyval)    (* what else the store holds *)
}.

Record batch : Type := Batch {
  movie_ratedby_user : edge_store;
  other_stores : list (string * pyval)
}.

(** ** The world of the training driver *)

(** [os.path.join(a, b)] for POSIX paths. *)
Definition ends_with_slash (a : string) : bool :=
  match String.get (String.length a - 1) a with
  | Some c => Ascii.eqb c "/"
  | None => false
  end.

Definition os_path_join (a b : string) : string :=
  if String.prefix "/" b then b
  else if String.eqb a "" then b
  else if ends_with_slash a then a ++ b
  else a ++ "/" ++ b.

(** The name of [p] when it lies directly inside directory [d]. *)
Definition child_name (d p : string) : option string :=
  let pre := os_path_join d "" in
  if String.prefix pre p then
    let name := String.substring (String.length pre)
                  (String.length p - String.length pre) p in
    if String.eqb name "" then None
    else match String.index 0 "/" name with
         | None => Some name
         | Some _ => None
         end
  else None.

Declare Scope io_scope.
Delimit Scope io_scope with io.

Section World.

(** The serialised form of an object, as [torch.save] writes it. *)
Variable blob : Type.

Inductive node : Type :=
| Dir
| PickleFile (data : blob)
| YamlFile (doc : pyval)           (* by the document [yaml.safe_load] reads *)
| PlotFile (train_losses val_losses : list pyval).

(** What the collaborators observe of a run, oldest first. *)
Inductive event : Type :=
| EvConstruct (cls : string)                     (* an optimizer, scheduler or scaler built *)
| EvTorchSave (path : string) (obj : pyval)
| EvTorchLoad (path : string)
| EvSummaryWriter (log_dir : string)
| EvAddScalar (log_dir tag : string) (value : pyval) (step : Z)
| EvSavePlot (path : string).

Record world : Type := World {
  files : list (string * node);
  trace : list event
}.

Fixpoint fs_lookup (fs : list (string * node)) (path : string) : option node :=
  match fs with
  | [] => None
  | (p, n) :: fs' => if String.eqb p path then Some n else fs_lookup fs' path
  end.

Definition fs_write (fs : list (string * node)) (path : string) (n : node)
  : list (string * node) :=
  (path, n) :: filter (fun e => negb (String.eqb (fst e) path)) fs.

(** [path.rsplit("/", 1)]: the text before the last slash and the text
    after it, when there is a slash. *)
Fixpoint rsplit_slash (path : string) : option (string * string) :=
  match path with
  | EmptyString => None
  | String c rest =>
      match rsplit_slash rest with
      | Some (dir, name) => Some (String c dir, name)
      | None => if Ascii.eqb c "/" then Some (EmptyString, rest) else None
      end
  end.

(** The directory that holds [path], when the path names one. *)
Definition dirname (path : string) : option string :=
  option_map fst (rsplit_slash path).

(** A directory exists when it is recorded, or when something recorded
    lies inside it; the root does. *)
Definition dir_exists (fs : list (string * node)) (d : string) : bool :=
  String.eqb d "" ||
  existsb (fun e => match snd e with
                    | Dir => String.eqb (fst e) d
                    | _ => false
                    end || String.prefix (d ++ "/") (fst e)) fs.

(** Whether a file can be created at [path]: a bare name goes to the
    working directory, any other path needs its directory. *)
Definition parent_exists (fs : list (string * node)) (path : string) : bool :=
  match dirname path with
  | Some d => dir_exists fs d
  | None => true
  end.

(** Code with effects on the world: it returns or raises, and the world
    keeps what was done before an exception. *)
Definition M (A : Type) : Type := world -> result A * world.

Definition mret {A} (a : A) : M A := fun w => (Ok a, w).
Definition mraise {A} (e : exn) : M A := fun w => (Raise e, w).
Definition mbind {A B} (c : M A) (k : A -> M B) : M B :=
  fun w => match c w with
           | (Ok a, w') => k a w'
           | (Raise e, w') => (Raise e, w')
           end.
Definition lift {A} (r : result A) : M A := fun w => (r, w).
Definition emit (ev : event) : M unit :=
  fun w => (Ok tt, World (files w) (trace w ++ [ev])).
Definition write_file (path : string) (n : node) : M unit :=
  fun w => (Ok tt, World (fs_write (files w) path n) (trace w)).

Notation "x <- c ;; k" := (mbind c (fun x => k))
  (at level 61, c at next level, right associativity) : io_scope.
Notation "' pat <- c ;; k" := (mbind c (fun x => match x with pat => k end))
  (at level 61, pat pattern, c at next level, right associativity) : io_scope.

Fixpoint for_each {A S} (body : S -> A -> M S) (l : list A) (s : S) : M S :=
  match l with
  | [] => mret s
  | a :: l' => (s' <- body s a ;; for_each body l' s')%io
  end.

(** [os.makedirs(path, exist_ok=True)]; only the directory itself is
    recorded, not the parents it may create on the way. *)
Definition os_makedirs (path : string) : M unit :=
  fun w => match fs_lookup (files w) path with
           | None => (Ok tt, World ((path, Dir) :: files w) (trace w))
           | Some Dir => (Ok tt, w)
           | Some _ => (Raise ExternalError, w)
           end.

(** [os.listdir(path)] *)
Definition os_listdir (path : string) : M (list string) :=
  fun w => match fs_lookup (files w) path with
           | Some Dir =>
               (Ok (flat_map (fun e => match child_name path (fst e) with
                                       | Some name => [name]
                                       | None => []
                                       end) (files w)), w)
           | Some _ => (Raise ExternalError, w)
           | None => (Raise FileNotFoundError, w)
           end.

(** A [SummaryWriter]: the object keeps its [log_dir]; creating one makes
    the directory.  The event file that the writer keeps inside that
    directory is not a file of this file system: what is written to it is
    the [EvAddScalar] events of the trace. *)
Record summary_writer : Type := Writer { log_dir : string }.

Definition SummaryWriter (log_dir : string) : M summary_writer :=
  (_ <- os_makedirs log_dir ;;
   _ <- emit (EvSummaryWriter log_dir) ;;
   mret (Writer log_dir))%io.

Definition add_scalar (writer : summary_writer) (tag : string) (value : pyval)
  (step : Z) : M unit :=
  emit (EvAddScalar (log_dir writer) tag value step).

(** The four objects a training step mutates. *)
Record trainer : Type := Trainer {
  model : pyval;
  optimizer : pyval;
  scheduler : pyval;
  scaler : pyval
}.

(** What [MyHeteroData] offers the driver once its loaders are built. *)
Record dataset : Type := Dataset {
  trainloader : list batch;
  valloader : list batch;
  get_metadata : pyval
}.

(** The collaborators that are not part of these three files: the
    serialiser of [torch.save]/[torch.load], the import system and the
    classes it finds, the dataset builder of [dataloader.py], the loss of
    [loss.py], the evaluation of [eval.py], and the framework's operations
    on the model, the optimizer, the scheduler and the scaler.  Each is a
    function of its arguments that returns or raises. *)
Record collab : Type := Collab {
  pickle : pyval -> blob;
  unpickle : blob -> result pyval;
  import_module : string -> result pyval;
  py_getattr : pyval -> string -> result pyval;
  py_call : pyval -> list pyval -> pyval -> result pyval;
  GradScaler : result pyval;
  MyHeteroData : pyval -> result dataset;
  nn_Embedding : pyval -> pyval -> result pyval;
  foreign_forward : pyval -> batch -> result pyval;
  bce : pyval -> pyval -> result pyval;
  train_eval : pyval -> list batch -> result (pyval * pyval * pyval);
  zero_grad : trainer -> result trainer;
  backward : pyval -> trainer -> result trainer;
  scaled_backward : pyval -> trainer -> result trainer;
  clip_grad_norm_ : R -> trainer -> result trainer;
  optimizer_step : trainer -> result trainer;
  scaler_step : trainer -> result trainer;
  scaler_update : trainer -> result trainer;
  scheduler_step : trainer -> result trainer
}.

Variable E : collab.

(** [torch.save(obj, path)] opens the file for writing, which fails when
    the directory that is to hold it is missing.  Other failures of the
    operating system (permissions, a full disk, a path that names a
    directory) are not modelled. *)
Definition torch_save (obj : pyval) (path : string) : M unit :=
  fun w =>
    if parent_exists (files w) path
    then (_ <- write_file path (PickleFile (pickle E obj)) ;;
          emit (EvTorchSave path obj))%io w
    else (Raise RuntimeError, w).

(** [torch.load(path)], called with the defaults of the installed torch:
    what the unpickler accepts is the [unpickle] of the collaborators. *)
Definition torch_load (path : string) : M pyval :=
  (_ <- emit (EvTorchLoad path) ;;
   fun w => match fs_lookup (files w) path with
            | Some (PickleFile data) => (unpickle E data, w)
            | Some _ => (Raise UnpicklingError, w)
            | None => (Raise FileNotFoundError, w)
            end)%io.

End World.

Arguments Dir {blob}.
Arguments YamlFile {blob} doc.
Arguments PlotFile {blob} train_losses val_losses.
Arguments PickleFile {blob} data.
Arguments World {blob} files trace.
Arguments files {blob} w.
Arguments trace {blob} w.
Arguments fs_lookup {blob} fs path.
Arguments fs_write {blob} fs path n.
Arguments dir_exists {blob} fs d.
Arguments parent_exists {blob} fs path.
Arguments mret {blob A} a.
Arguments mraise {blob A} e.
Arguments mbind {blob A B} c k.
Arguments lift {blob A} r.
Arguments emit {blob} ev.
Arguments write_file {blob} path n.
Arguments for_each {blob A S} body l s.
Arguments os_makedirs {blob} path.
Arguments os_listdir {blob} path.
Arguments SummaryWriter {blob} log_dir.
Arguments add_scalar {blob} writer tag value step.
Arguments torch_save {blob} E obj path.
Arguments torch_load {blob} E path.
Arguments pickle {blob} c _.
Arguments unpickle {blob} c _.
Arguments import_module {blob} c _.
Arguments py_getattr {blob} c _ _.
Arguments py_call {blob} c _ _ _.
Arguments GradScaler {blob} c.
Arguments MyHeteroData {blob} c _.
Arguments nn_Embedding {blob} c _ _.
Arguments foreign_forward {blob} c _ _.
Arguments bce {blob} c _ _.
Arguments train_eval {blob} c _ _.
Arguments zero_grad {blob} c _.
Arguments backward {blob} c _ _.
Arguments scaled_backward {blob} c _ _.
Arguments clip_grad_norm_ {blob} c _ _.
Arguments optimizer_step {blob} c _.
Arguments scaler_step {blob} c _.
Arguments scaler_update {blob} c _.
Arguments scheduler_step {blob} c _.

Notation "x <- c ;; k" := (mbind c (fun x => k))
  (at level 61, c at next level, right associativity) : io_scope.
Notation "' pat <- c ;; k" := (mbind c (fun x => match x with pat => k end))
  (at level 61, pat pattern, c at next level, right associativity) : io_scope.

(** ** [utils.py] *)

Module Utils.

Definition edge_eqb (e l : nat * nat) : bool :=
  Nat.eqb (fst e) (fst l) && Nat.eqb (snd e) (snd l).

(** [(edges == edge_label_set).all(dim=2)], of shape [n, m]: row [i],
    column [j] tells whether edge [j] is labelled edge [i]. *)
Definition match_matrix (edge_index edge_label_index : edge_index_t)
  : list (list bool) :=
  map (fun l => map (fun e => edge_eqb e l) edge_index) edge_label_index.

(** [matches.any(dim=0)], of shape [m]. *)
Definition any_dim0 (m : nat) (matches : list (list bool)) : list bool :=
  map (fun j => existsb (fun row => nth j row false) matches) (seq 0 m).

Fixpoint select {A} (mask : list bool) (t : list A) : list A :=
  match mask, t with
  | b :: mask', a :: t' => if b then a :: select mask' t' else select mask' t'
  | _, _ => []
  end.

(** [t[mask]] (and [t[:, mask]] on the columns): the mask must be as long
    as the indexed dimension. *)
Definition mask_select {A} (mask : list bool) (t : list A) : result (list A) :=
  if Nat.eqb (List.length mask) (List.length t) then Ok (select mask t)
  else Raise IndexError.

Definition mask_select_opt {A} (mask : list bool) (t : option (list A))
  : result (option (list A)) :=
  match t with
  | Some l => (l' <- mask_select mask l ;; Ok (Some l'))%res
  | None => Ok None
  end.

Definition remove_label_edges (b : batch) : result batch :=
  let movie_user_edge := movie_ratedby_user b in
  let matches := match_matrix (edge_index movie_user_edge)
                              (edge_label_index movie_user_edge) in
  let mask := map negb (any_dim0 (List.length (edge_index movie_user_edge)) matches) in
  (edge_index' <- mask_select mask (edge_index movie_user_edge) ;;
   pos' <- mask_select_opt mask (pos movie_user_edge) ;;
   rating' <- mask_select mask (rating movie_user_edge) ;;
   weight' <- mask_select_opt mask (weight movie_user_edge) ;;
   e_id' <- mask_select mask (e_id movie_user_edge) ;;
   Ok (Batch (EdgeStore edge_index' (edge_label_index movie_user_edge)
                (edge_label movie_user_edge) pos' rating' weight' e_id'
                (other_attrs movie_user_edge))
             (other_stores b)))%res.

(** An edge index as the int64 tensor it is, before its entries are
    known to be positions. *)
Definition int_edge_index_t := list (Z * Z).

(** The position that index [i] names in a tensor of [n] entries: an
    index from [-n] to [-1] counts from the end. *)
Definition index_position (n : nat) (i : Z) : option nat :=
  if ((0 <=? i) && (i <? Z.of_nat n))%Z then Some (Z.to_nat i)
  else if ((- Z.of_nat n <=? i) && (i <? 0))%Z then Some (Z.to_nat (Z.of_nat n + i))
  else None.

(** [t[index]] with an int64 index tensor. *)
Definition index_select_int {A} (t : list A) (index : list Z) : result (list A) :=
  rmapM (fun i => match index_position (List.length t) i with
                  | Some k => match nth_error t k with
                              | Some a => Ok a
                              | None => Raise IndexError
                              end
                  | None => Raise IndexError
                  end) index.

(** [map_edge_index_to_original_with_list(edge_index, node_id1, node_id2)]:
    the two rows of [edge_index] looked up in the two identifier tensors
    and stacked again. *)
Definition map_edge_index_to_original_with_list (edge_index : int_edge_index_t)
  (node_id1 node_id2 : list nat) : result edge_index_t :=
  (ids1 <- index_select_int node_id1 (map fst edge_index) ;;
   ids2 <- index_select_int node_id2 (map snd edge_index) ;;
   Ok (combine ids1 ids2))%res.

(** One split of the graph, by what [check_overlap] reads of it: the
    [edge_label_index] of the [("movie", "ratedby", "user")] store and the
    [node_id] of the ["movie"] and ["user"] stores. *)
Record hetero_data : Type := HeteroData {
  label_index : int_edge_index_t;
  movie_node_id : list nat;
  user_node_id : list nat
}.

Definition edge_eq_dec (a b : nat * nat) : {a = b} + {a <> b}.
Proof. decide equality; apply Nat.eq_dec. Defined.

(** [set(map(tuple, edges.T.tolist()))]: a set is a list without
    repetition; the order of its elements carries no meaning. *)
Definition edge_set (edges : edge_index_t) : edge_index_t :=
  nodup edge_eq_dec edges.

(** [a.intersection(b)] *)
Definition intersection (a b : edge_index_t) : edge_index_t :=
  filter (fun e => existsb (edge_eqb e) b) a.

(** A line that [check_overlap] prints: the number of overlapping edges
    of the training split and the named split, or the overlapping edges
    themselves. *)
Inductive printed : Type :=
| NumberOfOverlapping (other : string) (n : nat)
| OverlappingEdges (other : string) (edges : edge_index_t).

(** [check_overlap(train_data, val_data, test_data)]; the function
    returns nothing, its result is what it prints. *)
Definition check_overlap (train_data val_data test_data : hetero_data)
  : result (list printed) :=
  (train_edges <- map_edge_index_to_original_with_list (label_index train_data)
                    (movie_node_id train_data) (user_node_id train_data) ;;
   val_edges <- map_edge_index_to_original_with_list (label_index val_data)
                  (movie_node_id val_data) (user_node_id val_data) ;;
   test_edges <- map_edge_index_to_original_with_list (label_index test_data)
                   (movie_node_id test_data) (user_node_id test_data) ;;
   let train_edges_set := edge_set train_edges in
   let val_edges_set := edge_set val_edges in
   let test_edges_set := edge_set test_edges in
   let val_overlap := intersection train_edges_set val_edges_set in
   let test_overlap := intersection train_edges_set test_edges_set in
   Ok ([NumberOfOverlapping "val"%string (List.length val_overlap);
        NumberOfOverlapping "test"%string (List.length test_overlap)]
       ++ (match val_overlap with
           | [] => []
           | _ => [OverlappingEdges "val"%string val_overlap]
           end)
       ++ (match test_overlap with
           | [] => []
           | _ => [OverlappingEdges "test"%string test_overlap]
           end)))%res.

(** [min_max_scale(x, min_val, max_val)], elementwise on the entries of
    [x]. *)
Definition min_max_scale (x : vector) (min_val max_val : fval) : vector :=
  map (fun a => fdiv (fsub a min_val) (fsub max_val min_val)) x.

Section WithCollab.
Variable blob : Type.
Variable E : collab blob.
Local Open Scope string_scope.

Definition load_config (path : string) : M blob pyval :=
  fun w => match fs_lookup (files w) path with
           | Some (YamlFile config_yaml) => (Ok config_yaml, w)
           | Some _ => (Raise ExternalError, w)
           | None => (Raise FileNotFoundError, w)
           end.

(** [path.rsplit(".", 1)]: the text before the last dot and the text
    after it, when there is a dot. *)
Fixpoint rsplit_dot (path : string) : option (string * string) :=
  match path with
  | EmptyString => None
  | String c rest =>
      match rsplit_dot rest with
      | Some (module_path, obj_name) => Some (String c module_path, obj_name)
      | None => if Ascii.eqb c "." then Some (EmptyString, rest) else None
      end
  end.

Definition import_object (path : pyval) : result pyval :=
  match path with
  | PyStr p =>
      match rsplit_dot p with
      | Some (module_path, obj_name) =>
          (module <- import_module E module_path ;;
           py_getattr E module obj_name)%res
      | None => Raise ValueError
      end
  | _ => Raise AttributeError
  end.

(** The class name an [EvConstruct] event records. *)
Definition path_text (path : pyval) : string :=
  match path with
  | PyStr p => p
  | _ => ""
  end.

(** The optimizer class is called on [model.parameters()], which the
    model stands for here, and the scheduler class on the optimizer. *)
Definition create_optimizer_scheduler_scaler (config_yaml model : pyval)
  : M blob (pyval * pyval * pyval) :=
  (training_config <- lift (getitem config_yaml "train") ;;
   optimizer_config <- lift (getitem training_config "optimizer") ;;
   optimizer_type <- lift (getitem optimizer_config "type") ;;
   optimizer_class <- lift (import_object optimizer_type) ;;
   optimizer_config <- lift (getitem training_config "optimizer") ;;
   optimizer_params <- lift (getitem optimizer_config "params") ;;
   optimizer <- lift (py_call E optimizer_class [model] optimizer_params) ;;
   _ <- emit (EvConstruct (path_text optimizer_type)) ;;
   has_scheduler <- lift (contains "scheduler" training_config) ;;
   scheduler <-
     (if has_scheduler : bool then
        scheduler_config <- lift (getitem training_config "scheduler") ;;
        scheduler_type <- lift (getitem scheduler_config "type") ;;
        scheduler_class <- lift (import_object scheduler_type) ;;
        scheduler_config <- lift (getitem training_config "scheduler") ;;
        scheduler_params <- lift (getitem scheduler_config "params") ;;
        scheduler <- lift (py_call E scheduler_class [optimizer] scheduler_params) ;;
        _ <- emit (EvConstruct (path_text scheduler_type)) ;;
        mret scheduler
      else mret PyNone) ;;
   use_amp <- lift (get training_config "amp" (PyBool false)) ;;
   amp_on <- lift (truthy use_amp) ;;
   scaler <-
     (if amp_on : bool then
        scaler <- lift (GradScaler E) ;;
        _ <- emit (EvConstruct "torch.amp.GradScaler") ;;
        mret scaler
      else mret PyNone) ;;
   mret (optimizer, scheduler, scaler))%io.

(** The record [save_checkpoint] serialises. *)
Definition checkpoint_record
  (model optimizer scheduler scaler epoch end_epoch train_loss val_loss
   val_acc val_f1 config log_dir train_losses val_losses : pyval) : pyval :=
  PyDict [ ("model", model);
           ("optimizer", optimizer);
           ("scheduler", scheduler);
           ("scaler", scaler);
           ("epoch", epoch);
           ("end_epoch", end_epoch);
           ("train_loss", train_loss);
           ("val_loss", val_loss);
           ("val_acc", val_acc);
           ("val_f1", val_f1);
           ("config", config);
           ("log_dir", log_dir);
           ("train_losses", train_losses);
           ("val_losses", val_losses) ].

Definition save_checkpoint
  (model optimizer scheduler scaler epoch end_epoch train_loss val_loss
   val_acc val_f1 : pyval) (model_path : string)
  (config log_dir train_losses val_losses : pyval) : M blob unit :=
  let checkpoint :=
    checkpoint_record model optimizer scheduler scaler epoch end_epoch
      train_loss val_loss val_acc val_f1 config log_dir train_losses val_losses in
  torch_save E checkpoint model_path.

Definition load_checkpoint (save_path : string) : M blob pyval :=
  torch_load E save_path.

(** [save_loss_plot(train_losses, val_losses, file_path)]: the figure is
    drawn from the two lists, and [plt.savefig] fails when the directory
    that is to hold the file is missing. *)
Definition save_loss_plot (train_losses val_losses : pyval) (file_path : string)
  : M blob unit :=
  match train_losses, val_losses with
  | PyList tl, PyList vl =>
      fun w =>
        if parent_exists (files w) file_path
        then (_ <- write_file file_path (PlotFile tl vl) ;;
              emit (EvSavePlot file_path))%io w
        else (Raise FileNotFoundError, w)
  | _, _ => mraise TypeError
  end.

(** The record [save_checkpoint2] serialises. *)
Definition checkpoint_record2
  (model optimizer scheduler scaler epoch end_epoch train_loss val_loss
   rank_k f1_k precision_k recall_k nDCG_k config log_dir
   train_losses val_losses : pyval) : pyval :=
  PyDict [ ("model", model);
           ("optimizer", optimizer);
           ("scheduler", scheduler);
           ("scaler", scaler);
           ("epoch", epoch);
           ("end_epoch", end_epoch);
           ("train_loss", train_loss);
           ("val_loss", val_loss);
           ("rank@k", rank_k);
           ("val_f1@k", f1_k);
           ("precision@k", precision_k);
           ("recall@k", recall_k);
           ("val_nDCG@k", nDCG_k);
           ("config", config);
           ("log_dir", log_dir);
           ("train_losses", train_losses);
           ("val_losses", val_losses) ].

Definition save_checkpoint2
  (model optimizer scheduler scaler epoch end_epoch train_loss val_loss
   rank_k f1_k precision_k recall_k nDCG_k : pyval) (model_path : string)
  (config log_dir train_losses val_losses : pyval) : M blob unit :=
  let checkpoint :=
    checkpoint_record2 model optimizer scheduler scaler epoch end_epoch
      train_loss val_loss rank_k f1_k precision_k recall_k nDCG_k
      config log_dir train_losses val_losses in
  torch_save E checkpoint model_path.

End WithCollab.

End Utils.

(** ** [model.py]: the model *)

Module HeteroLightGCN.

Definition class_name : string := "HeteroLightGCN".

(** [v[n]] on a tuple or a list. *)
Definition py_index (v : pyval) (n : nat) : result pyval :=
  match v with
  | PyTuple l | PyList l => match nth_error l n with
                            | Some x => Ok x
                            | None => Raise IndexError
                            end
  | _ => Raise TypeError
  end.

(** [for key in v] *)
Definition py_iter (v : pyval) : result (list pyval) :=
  match v with
  | PyTuple l | PyList l => Ok l
  | PyDict d => Ok (map (fun kv => PyStr (fst kv)) d)
  | _ => Raise TypeError
  end.

(** [hash(v)] is defined: a list or a dictionary has no hash, and a tuple
    has one when its items have. *)
Fixpoint hashable (v : pyval) : bool :=
  match v with
  | PyList _ | PyDict _ => false
  | PyTuple items => forallb hashable items
  | _ => true
  end.

Definition is_str (v : pyval) : bool :=
  match v with
  | PyStr _ => true
  | _ => false
  end.

(** The keys [HeteroConv] takes: an edge type is a string or a tuple of
    strings that is not empty. *)
Definition is_edge_type (v : pyval) : bool :=
  match v with
  | PyStr _ => true
  | PyTuple [] => false
  | PyTuple items => forallb is_str items
  | _ => false
  end.

Definition str_eqb (a b : pyval) : bool :=
  match a, b with
  | PyStr s, PyStr t => String.eqb s t
  | _, _ => false
  end.

Fixpoint all2 {A} (f : A -> A -> bool) (l m : list A) : bool :=
  match l, m with
  | [], [] => true
  | a :: l', b :: m' => f a b && all2 f l' m'
  | _, _ => false
  end.

(** [a == b] on two edge types. *)
Definition key_eqb (a b : pyval) : bool :=
  match a, b with
  | PyStr s, PyStr t => String.eqb s t
  | PyTuple l, PyTuple m => all2 str_eqb l m
  | _, _ => false
  end.

(** The keys of [{key: ... for key in keys}], in the order a dictionary
    keeps: a key that comes again leaves the first one in its place. *)
Definition dict_keys (keys : list pyval) : list pyval :=
  fold_left (fun seen key => if existsb (key_eqb key) seen then seen
                             else seen ++ [key]) keys [].

(** The keys of the dictionary of layers that [HeteroConv] is built on.
    The comprehension raises on a key without hash; [HeteroConv], a
    collaborator, joins the parts of each key into the name of its layer
    and raises on a key that is no edge type. *)
Definition conv_keys (keys : list pyval) : result (list pyval) :=
  if negb (forallb hashable keys) then Raise TypeError
  else if negb (forallb is_edge_type keys) then Raise ExternalError
  else Ok (dict_keys keys).

Section WithCollab.
Variable blob : Type.
Variable E : collab blob.
Local Open Scope string_scope.

(** [__init__(self, hetero_metadata, model_config, exclude_node)]: one
    embedding table per node type that is not excluded, and the
    [HeteroConv] over a dictionary with one [BipartiteLightGCN] per edge
    type, by the pairs of key and layer of that dictionary. *)
Definition init (hetero_metadata model_config : pyval) (exclude_node : list string)
  : result pyval :=
  (node_types <- py_index hetero_metadata 0 ;;
   edge_types <- py_index hetero_metadata 1 ;;
   counts <- match node_types with
             | PyDict d => Ok d
             | _ => Raise TypeError
             end ;;
   embs <- rmapM (fun kv : string * pyval =>
                    num_dim <- getitem model_config "num_dim" ;;
                    emb <- nn_Embedding E (snd kv) num_dim ;;
                    Ok (fst kv, emb))
                 (filter (fun kv => negb (existsb (String.eqb (fst kv)) exclude_node))
                         counts) ;;
   keys <- py_iter edge_types ;;
   layer_keys <- conv_keys keys ;;
   Ok (PyObject class_name
         [ ("node_types", node_types);
           ("edge_types", edge_types);
           ("embs", PyDict embs);
           ("lightgcn",
            PyList (map (fun key => PyTuple [key; PyObject "BipartiteLightGCN" []])
                        layer_keys)) ]))%res.

End WithCollab.

(** [forward(self, data)]: the body is a bare [return]. *)
Definition forward (self : pyval) (data : batch) : pyval := PyNone.

End HeteroLightGCN.

(** ** [train.py] *)

Module Train.

(** The parsed command line: [--config] (default [config.yaml]),
    [--checkpoint] (default [None]) and [--resume] (default [False]). *)
Record namespace : Type := Namespace {
  args_config : string;
  args_checkpoint : option string;
  args_resume : bool
}.

(** The local variables of [train] once training is set up. *)
Record run : Type := Run {
  config : pyval;
  data : dataset;
  objs : trainer;
  writer : summary_writer;
  epoch : pyval;
  end_epoch : pyval;
  train_losses : pyval;
  val_losses : pyval
}.

Definition as_str (v : pyval) : result string :=
  match v with
  | PyStr s => Ok s
  | _ => Raise TypeError
  end.

(** [l.append(x)] *)
Definition py_append (l x : pyval) : result pyval :=
  match l with
  | PyList items => Ok (PyList (items ++ [x]))
  | _ => Raise AttributeError
  end.

(** [epoch + 1], to be used as a bound of [range]. *)
Definition py_succ (v : pyval) : result Z :=
  match v with
  | PyInt z => Ok (z + 1)%Z
  | PyBool b => Ok (Z.b2z b + 1)%Z
  | _ => Raise TypeError
  end.

(** [range(start, stop)] with an integer [start]. *)
Definition py_range (start : Z) (stop : pyval) : result (list Z) :=
  match stop with
  | PyInt z => Ok (map (fun k => (start + Z.of_nat k)%Z) (seq 0 (Z.to_nat (z - start))))
  | PyBool b =>
      Ok (map (fun k => (start + Z.of_nat k)%Z) (seq 0 (Z.to_nat (Z.b2z b - start))))
  | _ => Raise TypeError
  end.

(** [sum(val_f1.values()) / len(val_f1)] *)
Definition f1_average (val_f1 : dict) : result pyval :=
  (total <- fold_left (fun acc kv => a <- acc ;; x <- as_scalar (snd kv) ;; Ok (fadd a x))
                      val_f1 (Ok (Fin 0)) ;;
   match val_f1 with
   | [] => Raise ZeroDivisionError
   | _ => Ok (PyFloat (fmul total (Fin (/ INR (List.length val_f1)))))
   end)%res.

Section WithCollab.
Variable blob : Type.
Variable E : collab blob.
Local Open Scope string_scope.

Definition load_myheterodata (data_config : pyval) : result dataset :=
  MyHeteroData E data_config.

Definition init (config_dir : option string) : M blob run :=
  let config_dir := match config_dir with
                    | None => "config.yaml"
                    | Some d => d
                    end in
  (config <- Utils.load_config blob "config.yaml" ;;
   data_config <- lift (getitem config "data") ;;
   dataset <- lift (load_myheterodata data_config) ;;
   model_config <- lift (getitem config "model") ;;
   model <- lift (HeteroLightGCN.init blob E (get_metadata dataset) model_config []) ;;
   '(optimizer, scheduler, scaler) <-
     Utils.create_optimizer_scheduler_scaler blob E config model ;;
   logdir <- lift (logdir <- getitem config "logdir" ;; as_str logdir)%res ;;
   _ <- os_makedirs logdir ;;
   entries <- os_listdir logdir ;;
   let num_train := List.length entries in
   writer <- SummaryWriter (os_path_join logdir ("train_" ++ str_of_nat num_train)) ;;
   end_epoch <- lift (train_config <- getitem config "train" ;;
                      getitem train_config "epochs")%res ;;
   mret (Run config dataset (Trainer model optimizer scheduler scaler) writer
             (PyInt 0) end_epoch (PyList []) (PyList [])))%io.

Definition init_from_checkpoint (checkpoint : string) : M blob run :=
  (ckpt <- Utils.load_checkpoint blob E checkpoint ;;
   config <- lift (getitem ckpt "config") ;;
   dataset <- lift (data_config <- getitem config "data" ;;
                    load_myheterodata data_config)%res ;;
   model <- lift (getitem ckpt "model") ;;
   optimizer <- lift (getitem ckpt "optimizer") ;;
   scheduler <- lift (getitem ckpt "scheduler") ;;
   scaler <- lift (getitem ckpt "scaler") ;;
   log_dir <- lift (log_dir <- getitem ckpt "log_dir" ;; as_str log_dir)%res ;;
   writer <- SummaryWriter log_dir ;;
   epoch <- lift (getitem ckpt "epoch") ;;
   end_epoch <- lift (getitem ckpt "end_epoch") ;;
   train_losses <- lift (getitem ckpt "train_losses") ;;
   val_losses <- lift (getitem ckpt "val_losses") ;;
   mret (Run config dataset (Trainer model optimizer scheduler scaler) writer
             epoch end_epoch train_losses val_losses))%io.

(** [model(batch)]: the call runs the [forward] of the object's class.
    [GNN.forward] takes two tensors and [BipartiteLightGCN.forward] three,
    so the one-argument call is a type error for both; a class that is not
    defined in [model.py] is a collaborator. *)
Definition call_model (model : pyval) (b : batch) : result pyval :=
  match model with
  | PyObject cls _ =>
      if String.eqb cls HeteroLightGCN.class_name
      then Ok (HeteroLightGCN.forward model b)
      else if String.eqb cls "GNN" then Raise TypeError
      else if String.eqb cls "BipartiteLightGCN" then Raise TypeError
      else foreign_forward E model b
  | _ => Raise TypeError
  end.

(** One pass of the loop body of [train_step], on batch number [i]. *)
Definition train_batch (st : pyval * trainer) (ib : nat * batch)
  : result (pyval * trainer) :=
  let '(tloss, t) := st in
  let '(i, b) := ib in
  (t <- zero_grad E t ;;
   let label := edge_label (movie_ratedby_user b) in
   out <- call_model (model t) b ;;
   '(res, res_dict) <- unpack2 out ;;
   loss_items <- bce E res label ;;
   tloss <- match tloss with
            | PyNone => Ok loss_items
            | _ => running_mean tloss i loss_items
            end ;;
   t <- match scaler t with
        | PyNone =>
            t <- backward E loss_items t ;;
            t <- clip_grad_norm_ E 10 t ;;
            optimizer_step E t
        | _ =>
            t <- scaled_backward E loss_items t ;;
            t <- clip_grad_norm_ E 10 t ;;
            t <- scaler_step E t ;;
            scaler_update E t
        end ;;
   _ <- item tloss ;;
   Ok (tloss, t))%res.

Fixpoint enumerate_from {A} (i : nat) (l : list A) : list (nat * A) :=
  match l with
  | [] => []
  | a :: l' => (i, a) :: enumerate_from (S i) l'
  end.

Fixpoint rfold {A S} (body : S -> A -> result S) (l : list A) (s : S) : result S :=
  match l with
  | [] => Ok s
  | a :: l' => (s' <- body s a ;; rfold body l' s')%res
  end.

(** [train_step(model, trainloader, optimizer, scheduler, scaler)]: the
    mean loss, and the four objects as the steps left them. *)
Definition train_step (t : trainer) (trainloader : list batch)
  : result (pyval * trainer) :=
  rfold train_batch (enumerate_from 0 trainloader) (PyNone, t).

(** The start of [train], up to the epoch loop: the run and the first
    epoch. *)
Definition train_setup (args : namespace) : M blob (Z * run) :=
  (loaded <- match args_checkpoint args with
             | Some path => (r <- init_from_checkpoint path ;; mret (Some r))
             | None => mret None
             end ;;
   r <- match loaded with
        | Some r =>
            if negb (args_resume args) then
              '(optimizer, scheduler, scaler) <-
                Utils.create_optimizer_scheduler_scaler blob E (config r) (model (objs r)) ;;
              logdir <- lift (logdir <- getitem (config r) "logdir" ;; as_str logdir)%res ;;
              entries <- os_listdir logdir ;;
              writer <- SummaryWriter
                          (os_path_join logdir
                             ("train_" ++ str_of_nat (List.length entries))) ;;
              end_epoch <- lift (train_config <- getitem (config r) "train" ;;
                                 getitem train_config "epochs")%res ;;
              mret (Run (config r) (data r)
                        (Trainer (model (objs r)) optimizer scheduler scaler) writer
                        (PyInt 0) end_epoch (PyList []) (PyList []))
            else mret r
        | None => init (Some (args_config args))
        end ;;
   start_epoch <-
     (if args_resume args then
        match args_checkpoint args with
        | None => mraise ValueError
        | Some _ => lift (py_succ (epoch r))
        end
      else mret 0%Z) ;;
   mret (start_epoch, r))%io.

(** The variables the epoch loop updates. *)
Record loop_state : Type := LoopState {
  cur : trainer;
  cur_train_losses : pyval;
  cur_val_losses : pyval;
  best_val_loss : pyval
}.

(** The results of one epoch before anything is saved. *)
Record epoch_results : Type := EpochResults {
  train_loss : pyval;
  val_loss : pyval;
  val_acc : pyval;
  val_f1 : pyval
}.

(** Lines 173-177 of the loop body: the training step, the scheduler
    step, the evaluation, and the two history appends. *)
Definition epoch_compute (r : run) (s : loop_state)
  : result (epoch_results * loop_state) :=
  ('(train_loss, t) <- train_step (cur s) (trainloader (data r)) ;;
   t <- match scheduler t with
        | PyNone => Raise AttributeError
        | _ => scheduler_step E t
        end ;;
   '(val_loss, val_acc, val_f1) <- train_eval E (model t) (valloader (data r)) ;;
   tl <- detach_cpu_numpy train_loss ;;
   train_losses <- py_append (cur_train_losses s) tl ;;
   vl <- detach_cpu_numpy val_loss ;;
   val_losses <- py_append (cur_val_losses s) vl ;;
   Ok (EpochResults train_loss val_loss val_acc val_f1,
       LoopState t train_losses val_losses (best_val_loss s)))%res.

Definition save_epoch (r : run) (s : loop_state) (epoch : Z) (res : epoch_results)
  (model_path : string) : M blob unit :=
  Utils.save_checkpoint blob E
    (model (cur s)) (optimizer (cur s)) (scheduler (cur s)) (scaler (cur s))
    (PyInt epoch) (end_epoch r)
    (train_loss res) (val_loss res) (val_acc res) (val_f1 res)
    model_path (config r) (PyStr (log_dir (writer r)))
    (cur_train_losses s) (cur_val_losses s).

(** Lines 179-215: the checkpoint to [last.pt], and to [best.pt] when the
    validation loss is below the best one. *)
Definition epoch_checkpoint (r : run) (s : loop_state) (epoch : Z)
  (res : epoch_results) : M blob loop_state :=
  let last_model_path := os_path_join (log_dir (writer r)) "last.pt" in
  let best_model_path := os_path_join (log_dir (writer r)) "best.pt" in
  (_ <- save_epoch r s epoch res last_model_path ;;
   improved <- lift (py_lt (val_loss res) (best_val_loss s)) ;;
   if improved : bool then
     let s := LoopState (cur s) (cur_train_losses s) (cur_val_losses s) (val_loss res) in
     _ <- save_epoch r s epoch res best_model_path ;;
     mret s
   else mret s)%io.

(** Lines 216-228: the loss plot and the scalars. *)
Definition epoch_report (r : run) (s : loop_state) (epoch : Z)
  (res : epoch_results) : M blob unit :=
  let loss_plot_path := os_path_join (log_dir (writer r)) "loss_plot.png" in
  (_ <- Utils.save_loss_plot blob (cur_train_losses s) (cur_val_losses s) loss_plot_path ;;
   _ <- add_scalar (writer r) "Train/Loss" (train_loss res) epoch ;;
   _ <- add_scalar (writer r) "Validation/Loss" (val_loss res) epoch ;;
   _ <- add_scalar (writer r) "Validation/Accuracy" (val_acc res) epoch ;;
   f1 <- lift (match val_f1 res with
               | PyDict d => Ok d
               | _ => Raise AttributeError
               end) ;;
   _ <- for_each (fun (_ : unit) (kv : string * pyval) =>
                    add_scalar (writer r) ("Validation/F1/Class_" ++ fst kv) (snd kv) epoch)
                 f1 tt ;;
   average <- lift (f1_average f1) ;;
   add_scalar (writer r) "Validation/F1/Average" average epoch)%io.

(** The body of the epoch loop. *)
Definition epoch_body (r : run) (s : loop_state) (epoch : Z) : M blob loop_state :=
  ('(res, s) <- lift (epoch_compute r s) ;;
   s <- epoch_checkpoint r s epoch res ;;
   _ <- epoch_report r s epoch res ;;
   mret s)%io.

(** The epoch loop of [train] (lines 163-230). *)
Definition train_loop (start_epoch : Z) (r : run) : M blob loop_state :=
  (epochs <- lift (py_range start_epoch (end_epoch r)) ;;
   for_each (epoch_body r) epochs
     (LoopState (objs r) (train_losses r) (val_losses r) (PyFloat PInf)))%io.

Definition train (args : namespace) : M blob unit :=
  ('(start_epoch, r) <- train_setup args ;;
   _ <- train_loop start_epoch r ;;
   mret tt)%io.

End WithCollab.

End Train.

(** ** Vocabulary of the statements about the convolution *)

(** The number of edges that have node [j] at the given end. *)
Definition deg_count (index : list nat) (j : nat) : nat :=
  count_occ Nat.eq_dec index j.

(** Every edge joins a row of the first side to a row of the second. *)
Definition edges_in_range (n_x n_y : nat) (edge_index : edge_index_t) : Prop :=
  Forall (fun e => fst e < n_x /\ snd e < n_y) edge_index.

(** The factor of one node: zero for an isolated node, the reciprocal
    square root of its degree otherwise. *)
Definition node_factor (d : nat) : R :=
  match d with
  | O => 0%R
  | S _ => (/ sqrt (INR d))%R
  end.

(** The edges that end in node [j], each as its weight and the feature
    row of the node it starts from, in edge order. *)
Fixpoint neighbours (j : nat) (edge_index : edge_index_t) (norm : vector)
  (x_src : list vector) : list (fval * vector) :=
  match edge_index, norm with
  | (s, t) :: edge_index', w :: norm' =>
      if Nat.eqb t j
      then (w, nth s x_src []) :: neighbours j edge_index' norm' x_src
      else neighbours j edge_index' norm' x_src
  | _, _ => []
  end.

(** [edge_weight * feature_vector(source)] *)
Definition scaled (t : fval * vector) : vector := map (fmul (fst t)) (snd t).

(** The sum of the scaled rows, as a row of width [d]. *)
Definition weighted_sum (d : nat) (terms : list (fval * vector)) : vector :=
  fold_left vadd (map scaled terms) (zeros d).


(** ** Vocabulary of the statements about [remove_label_edges] *)

(** An edge is kept when it equals no labelled edge. *)
Definition keep_edge (edge_label_index : edge_index_t) (e : nat * nat) : bool :=
  negb (existsb (Utils.edge_eqb e) edge_label_index).

(** The entries of a per-edge attribute that belong to kept edges. *)
Definition keep_aligned {A} (edge_label_index edge_index : edge_index_t)
  (t : list A) : list A :=
  map snd (filter (fun p => keep_edge edge_label_index (fst p)) (combine edge_index t)).

(** Every per-edge attribute has one entry per edge. *)
Definition aligned (s : edge_store) : Prop :=
  List.length (rating s) = List.length (edge_index s) /\
  List.length (e_id s) = List.length (edge_index s) /\
  (forall p, pos s = Some p -> List.length p = List.length (edge_index s)) /\
  (forall w, weight s = Some w -> List.length w = List.length (edge_index s)).

(** ** Vocabulary of the statements about the training driver *)

(** The paths that [torch.save] wrote to, in order. *)
Fixpoint saved_paths (evs : list event) : list string :=
  match evs with
  | [] => []
  | EvTorchSave path _ :: evs' => path :: saved_paths evs'
  | _ :: evs' => saved_paths evs'
  end.

(** The classes instantiated while setting the optimizer up, in order. *)
Fixpoint constructed (evs : list event) : list string :=
  match evs with
  | [] => []
  | EvConstruct cls :: evs' => cls :: constructed evs'
  | _ :: evs' => constructed evs'
  end.

(** The validation losses that the epochs between two loop states added
    to the history. *)
Definition history_since (s0 s1 : Train.loop_state) : list pyval :=
  match Train.cur_val_losses s0, Train.cur_val_losses s1 with
  | PyList before, PyList now => skipn (List.length before) now
  | _, _ => []
  end.

(** A piece of code is quiet about a path when it saves no checkpoint and
    leaves every file but this one as it was. *)
Definition quiet {blob} (path : string) (w w' : world blob) : Prop :=
  (exists evs, trace w' = (trace w ++ evs)%list /\ saved_paths evs = []) /\
  forall p, p <> path -> fs_lookup (files w') p = fs_lookup (files w) p.

Definition quiet_code {blob A} (path : string) (c : M blob A) : Prop :=
  forall w, quiet path w (snd (c w)).

(** The record an epoch saves. *)
Definition epoch_record (r : Train.run) (s : Train.loop_state) (epoch : Z)
  (res : Train.epoch_results) : pyval :=
  Utils.checkpoint_record
    (model (Train.cur s)) (optimizer (Train.cur s)) (scheduler (Train.cur s))
    (scaler (Train.cur s)) (PyInt epoch) (Train.end_epoch r)
    (Train.train_loss res) (Train.val_loss res) (Train.val_acc res)
    (Train.val_f1 res) (Train.config r) (PyStr (log_dir (Train.writer r)))
    (Train.cur_train_losses s) (Train.cur_val_losses s).

(** Whether the comparison of the epoch sends it to [best.pt]. *)
Definition improves (res : Train.epoch_results) (s : Train.loop_state) : bool :=
  match py_lt (Train.val_loss res) (Train.best_val_loss s) with
  | Ok b => b
  | Raise _ => false
  end.

Definition with_best (s : Train.loop_state) (best : pyval) : Train.loop_state :=
  Train.LoopState (Train.cur s) (Train.cur_train_losses s)
    (Train.cur_val_losses s) best.

(** The history of a later loop state continues the history of the
    first one. *)
Definition history_extends (s0 s : Train.loop_state) : Prop :=
  s = s0 \/
  exists before items,
    Train.cur_val_losses s0 = PyList before /\
    Train.cur_val_losses s = PyList (before ++ items).

(** The best loss of a loop state is a number, is infinity or one of the
    losses added since the first state, and none of these is below it. *)
Definition best_is_running_min (s0 s : Train.loop_state) : Prop :=
  exists bv, as_scalar (Train.best_val_loss s) = Ok bv /\ bv <> NaN /\
    (bv = PInf \/
     exists x, In x (history_since s0 s) /\ as_scalar x = Ok bv) /\
    (forall x v', In x (history_since s0 s) -> as_scalar x = Ok v' ->
                  flt v' bv = false).

(** ** Vocabulary of the further properties *)

(** Whether a slash occurs in the text. *)
Fixpoint has_slash (s : string) : bool :=
  match s with
  | EmptyString => false
  | String c rest => Ascii.eqb c "/" || has_slash rest
  end.

(** The position that an int64 index names in a tensor of [n] entries,
    as an integer: a negative index counts from the end. *)
Definition wrapped_index (n : nat) (i : Z) : Z :=
  if (i <? 0)%Z then (Z.of_nat n + i)%Z else i.

(** Whether a dot occurs in the text. *)
Fixpoint has_dot (s : string) : bool :=
  match s with
  | EmptyString => false
  | String c rest => Ascii.eqb c "." || has_dot rest
  end.

(** A piece of code confines its writes when every checkpoint it saves
    goes to one of the paths [saves], and every file outside [paths] is
    left as it was. *)
Definition confined {blob} (saves paths : list string) (w w' : world blob) : Prop :=
  (exists evs, trace w' = (trace w ++ evs)%list /\
               Forall (fun p => In p saves) (saved_paths evs)) /\
  forall p, ~ In p paths -> fs_lookup (files w') p = fs_lookup (files w) p.

(** ** The loader that takes weights only *)



(** ** A small run of the driver *)

(** The toy graph of the specification: X = {a, b}, Y = {p, q}, with the
    edges a-p, a-q and b-p. *)
Definition toy_x : matrix := Matrix 2 [[Fin 1; Fin 0]; [Fin 0; Fin 1]].
Definition toy_y : matrix := Matrix 1 [[Fin 3]; [Fin 5]].
Definition toy_edges : edge_index_t := [(0, 0); (0, 1); (1, 0)].

Module Toy.

Local Open Scope string_scope.

Definition scalar_tensor (x : R) : pyval := PyTensor [] [Fin x].

(** A mini-batch with three rated edges, the second of which is the one
    to predict. *)
Definition toy_batch : batch :=
  Batch (EdgeStore [(0, 0); (0, 1); (1, 0)] [(0, 1)] (PyTensor [1] [Fin 1])
           None [PyInt 5; PyInt 4; PyInt 3] None [PyInt 10; PyInt 11; PyInt 12]
           [("time", PyTensor [3] [Fin 1; Fin 2; Fin 3])])
        [("movie", PyDict []); ("user", PyDict [])].

Definition toy_dataset : dataset :=
  Dataset [toy_batch] [toy_batch]
          (PyTuple [PyDict [("movie", PyInt 2); ("user", PyInt 2)];
                    PyList [PyTuple [PyStr "movie"; PyStr "ratedby"; PyStr "user"]]]).

Definition class_of (cls : pyval) : string :=
  match cls with
  | PyObject _ [("name", PyStr n)] => n
  | _ => "object"
  end.

(** Collaborators that always return: objects are built as records of
    their arguments, the framework's steps leave the four objects as they
    are, a model of a class from elsewhere returns a pair, and the loss and
    the evaluation return fixed numbers. *)
Definition toy_collab : collab pyval :=
  Collab pyval
    (fun v => v)
    (fun data => Ok data)
    (fun module_path => Ok (PyObject "module" [("name", PyStr module_path)]))
    (fun module obj_name => Ok (PyObject "type" [("name", PyStr obj_name)]))
    (fun cls args params =>
       Ok (PyObject (class_of cls) [("args", PyList args); ("params", params)]))
    (Ok (PyObject "GradScaler" []))
    (fun data_config => Ok toy_dataset)
    (fun num_embeddings embedding_dim =>
       Ok (PyObject "Embedding" [("num_embeddings", num_embeddings);
                                 ("embedding_dim", embedding_dim)]))
    (fun model b => Ok (PyTuple [edge_label (movie_ratedby_user b); PyDict []]))
    (fun res label => Ok (scalar_tensor (1 / 2)))
    (fun model valloader =>
       Ok (scalar_tensor (1 / 4), PyFloat (Fin (3 / 4)),
           PyDict [("0", PyFloat (Fin (1 / 2))); ("1", PyFloat (Fin 1))]))
    (fun t => Ok t)
    (fun loss t => Ok t)
    (fun loss t => Ok t)
    (fun max_norm t => Ok t)
    (fun t => Ok t)
    (fun t => Ok t)
    (fun t => Ok t)
    (fun t => Ok t).

Definition toy_config (epochs : Z) : pyval :=
  PyDict [ ("data", PyDict []);
           ("model", PyDict [("num_dim", PyInt 8)]);
           ("train",
            PyDict [ ("epochs", PyInt epochs);
                     ("optimizer",
                      PyDict [("type", PyStr "torch.optim.Adam");
                              ("params", PyDict [("lr", PyFloat (Fin (1 / 1000)))])]);
                     ("scheduler",
                      PyDict [("type", PyStr "torch.optim.lr_scheduler.StepLR");
                              ("params", PyDict [("step_size", PyInt 1)])]) ]);
           ("logdir", PyStr "runs") ].

(** A working directory with two configuration files. *)
Definition toy_world : world pyval :=
  World [ ("config.yaml", YamlFile (toy_config 1));
          ("experiment.yaml", YamlFile (toy_config 7)) ]
        [].

(** A model of a class that is not defined in [model.py]. *)
Definition other_model : pyval := PyObject "DotProductModel" [].

Definition toy_trainer (model : pyval) : trainer :=
  Trainer model (PyObject "Adam" []) (PyObject "StepLR" []) PyNone.

(** The checkpoint a run leaves after its epoch 2 of 5. *)
Definition toy_checkpoint (model : pyval) : pyval :=
  Utils.checkpoint_record model (PyObject "Adam" []) (PyObject "StepLR" []) PyNone
    (PyInt 2) (PyInt 5) (scalar_tensor (1 / 2)) (scalar_tensor (1 / 4))
    (PyFloat (Fin (3 / 4))) (PyDict [("0", PyFloat (Fin (1 / 2)))])
    (toy_config 5) (PyStr "runs/train_0")
    (PyList [scalar_tensor 1; scalar_tensor (3 / 4); scalar_tensor (1 / 2)])
    (PyList [scalar_tensor 1; scalar_tensor (1 / 8); scalar_tensor (1 / 4)]).

Definition toy_world_with_checkpoint (model : pyval) : world pyval :=
  World [ ("runs/train_0/last.pt", PickleFile (toy_checkpoint model));
          ("runs/train_0", Dir);
          ("runs", Dir);
          ("config.yaml", YamlFile (toy_config 1)) ]
        [].

Definition toy_run (model : pyval) : Train.run :=
  Train.Run (toy_config 5) toy_dataset (toy_trainer model) (Writer "runs/train_0")
    (PyInt 2) (PyInt 5)
    (PyList [scalar_tensor 1; scalar_tensor (3 / 4); scalar_tensor (1 / 2)])
    (PyList [scalar_tensor 1; scalar_tensor (1 / 8); scalar_tensor (1 / 4)]).

(** The checkpoint a run leaves after its last epoch, 4 of 5. *)
Definition toy_last_checkpoint : pyval :=
  Utils.checkpoint_record other_model (PyObject "Adam" []) (PyObject "StepLR" []) PyNone
    (PyInt 4) (PyInt 5) (scalar_tensor (1 / 2)) (scalar_tensor (1 / 4))
    (PyFloat (Fin (3 / 4))) (PyDict [("0", PyFloat (Fin (1 / 2)))])
    (toy_config 5) (PyStr "runs/train_0")
    (PyList [scalar_tensor 1]) (PyList [scalar_tensor 1]).

Definition toy_world_finished : world pyval :=
  World [ ("runs/train_0/last.pt", PickleFile toy_last_checkpoint);
          ("runs/train_0", Dir);
          ("runs", Dir) ]
        [].

(** A run whose configuration names no scheduler. *)
Definition toy_run_without_scheduler : Train.run :=
  Train.Run (toy_config 5) toy_dataset
    (Trainer other_model (PyObject "Adam" []) PyNone PyNone) (Writer "runs/train_0")
    (PyInt 0) (PyInt 5) (PyList []) (PyList []).

(** The toy collaborators with an evaluation that finds no class. *)
Definition toy_collab_no_class : collab pyval :=
  Collab pyval
    (pickle toy_collab) (unpickle toy_collab) (import_module toy_collab)
    (py_getattr toy_collab) (py_call toy_collab) (GradScaler toy_collab)
    (MyHeteroData toy_collab) (nn_Embedding toy_collab)
    (foreign_forward toy_collab) (bce toy_collab)
    (fun model valloader =>
       Ok (scalar_tensor (1 / 4), PyFloat (Fin (3 / 4)), PyDict []))
    (zero_grad toy_collab) (backward toy_collab) (scaled_backward toy_collab)
    (clip_grad_norm_ toy_collab) (optimizer_step toy_collab)
    (scaler_step toy_collab) (scaler_update toy_collab)
    (scheduler_step toy_collab).

(** The checkpoint a run leaves after its epoch 3 of 5, and the directory
    that holds it. *)
Definition toy_checkpoint_epoch3 : pyval :=
  Utils.checkpoint_record other_model (PyObject "Adam" []) (PyObject "StepLR" []) PyNone
    (PyInt 3) (PyInt 5) (scalar_tensor (1 / 2)) (scalar_tensor (1 / 4))
    (PyFloat (Fin (3 / 4))) (PyDict [("0", PyFloat (Fin (1 / 2)))])
    (toy_config 5) (PyStr "runs/train_0")
    (PyList [scalar_tensor 1]) (PyList [scalar_tensor 1]).

Definition toy_world_epoch3 : world pyval :=
  World [ ("runs/train_0/last.pt", PickleFile toy_checkpoint_epoch3);
          ("runs/train_0", Dir);
          ("runs", Dir) ]
        [].



(** A run whose dataset has no training batch. *)
Definition toy_run_without_batches : Train.run :=
  Train.Run (toy_config 5) (Dataset [] [toy_batch] (get_metadata toy_dataset))
    (toy_trainer other_model) (Writer "runs/train_0")
    (PyInt 0) (PyInt 5) (PyList []) (PyList []).

End Toy.

(* ===================================================================== *)
(** * Part II. Properties                                                  *)
(* ===================================================================== *)

(** ** Results *)

Lemma rbind_ok_inv {A B} (r : result A) (k : A -> result B) (b : B) :
  rbind r k = Ok b -> exists a, r = Ok a /\ k a = Ok b.
Proof.
  destruct r as [a|e]; simpl; intros H; [eauto | discriminate].
Qed.

(** ** Extended reals *)

Lemma fmul_comm (a b : fval) : fmul a b = fmul b a.
Proof.
  destruct a, b; simpl; trivial. f_equal; apply Rmult_comm.
Qed.

Lemma fold_fadd_ones (c : nat) (r : R) :
  fold_left fadd (repeat fone c) (Fin r) = Fin (r + INR c).
Proof.
  revert r; induction c as [|c IH]; intros r.
  - simpl. f_equal. lra.
  - rewrite S_INR. simpl. rewrite IH. f_equal. lra.
Qed.

Lemma pow_neg_half_count (d : nat) :
  pow_neg_half (Fin (INR d)) =
  match d with O => PInf | S _ => Fin (/ sqrt (INR d)) end.
Proof.
  destruct d as [|d].
  - simpl. destruct (Rlt_dec 0 0) as [H|_]; [lra|].
    destruct (Rlt_dec 0 0) as [H|_]; [lra | reflexivity].
  - unfold pow_neg_half.
    assert (H : (0 < INR (S d))%R) by (apply lt_0_INR; lia).
    destruct (Rlt_dec 0 (INR (S d))) as [_|N]; [reflexivity | contradiction].
Qed.

Lemma inv_sqrt_pos (d : nat) : 0 < d -> (0 < / sqrt (INR d))%R.
Proof.
  intros H. apply Rinv_0_lt_compat, sqrt_lt_R0, lt_0_INR, H.
Qed.

(** ** Scatter and gather *)

Section Scatter.
Context {A : Type}.

Lemma update_at_spec (l : list A) (i : nat) (f : A -> A) :
  i < List.length l ->
  exists l', update_at l i f = Some l' /\
    List.length l' = List.length l /\
    forall j, nth_error l' j =
      if Nat.eqb j i then option_map f (nth_error l j) else nth_error l j.
Proof.
  revert i; induction l as [|a t IH]; intros i Hi; simpl in Hi; [lia|].
  destruct i as [|i].
  - exists (f a :: t). repeat split. intros [|j]; reflexivity.
  - destruct (IH i ltac:(lia)) as (t' & E & L & N).
    exists (a :: t'). simpl. rewrite E. repeat split; simpl; [lia|].
    intros [|j]; [reflexivity|]. simpl. apply N.
Qed.

Lemma update_at_none (l : list A) (i : nat) (f : A -> A) :
  List.length l <= i -> update_at l i f = None.
Proof.
  revert i; induction l as [|a t IH]; intros i Hi; [reflexivity|].
  simpl in Hi. destruct i as [|i]; [lia|]. simpl. rewrite IH by lia. reflexivity.
Qed.

(** The sources scattered to position [j], in index order. *)
Fixpoint incident (j : nat) (index : list nat) (src : list A) : list A :=
  match index, src with
  | i :: index', s :: src' =>
      if Nat.eqb i j then s :: incident j index' src' else incident j index' src'
  | _, _ => []
  end.

Lemma scatter_add_spec (add : A -> A -> A) (index : list nat) :
  forall (src out : list A),
  List.length index = List.length src ->
  Forall (fun i => i < List.length out) index ->
  exists out', scatter_add_ add out index src = Ok out' /\
    List.length out' = List.length out /\
    forall j, nth_error out' j =
      option_map (fold_left add (incident j index src)) (nth_error out j).
Proof.
  induction index as [|i index IH]; intros src out L R.
  - destruct src; [|discriminate]. exists out. repeat split.
    intros j. simpl. destruct (nth_error out j); reflexivity.
  - destruct src as [|s src]; [discriminate|]. simpl in L.
    inversion R as [|? ? Hi R']; subst.
    destruct (update_at_spec out i (fun o => add o s) Hi) as (o1 & E & L1 & N1).
    destruct (IH src o1 ltac:(lia)) as (out' & E' & L' & N').
    { rewrite L1. exact R'. }
    exists out'. simpl. rewrite E. repeat split; [exact E' | lia |].
    intros j. rewrite N', N1. rewrite (Nat.eqb_sym i j).
    destruct (Nat.eqb j i); destruct (nth_error out j); reflexivity.
Qed.

Lemma scatter_add_out_of_range (add : A -> A -> A) (index : list nat) :
  forall (src out : list A),
  List.length index = List.length src ->
  Exists (fun i => List.length out <= i) index ->
  scatter_add_ add out index src = Raise RuntimeError.
Proof.
  induction index as [|i index IH]; intros src out L X.
  - inversion X.
  - destruct src as [|s src]; [discriminate|]. simpl in L. simpl.
    destruct (Nat.lt_ge_cases i (List.length out)) as [Hi|Hi].
    + destruct (update_at_spec out i (fun o => add o s) Hi) as (o1 & E & L1 & _).
      rewrite E. apply IH; [lia|]. rewrite L1.
      inversion X; subst; [lia | assumption].
    + rewrite update_at_none by exact Hi. reflexivity.
Qed.

Lemma index_select_spec (t : list A) (index : list nat) :
  Forall (fun i => i < List.length t) index ->
  exists sel, index_select t index = Ok sel /\
    List.length sel = List.length index /\
    forall k i, nth_error index k = Some i -> nth_error sel k = nth_error t i.
Proof.
  induction index as [|i index IH]; intros R.
  - exists []. repeat split. intros [|k] i H; discriminate.
  - inversion R as [|? ? Hi R']; subst.
    destruct (IH R') as (sel & E & L & N).
    destruct (nth_error t i) as [a|] eqn:Ea.
    2:{ apply nth_error_None in Ea. lia. }
    exists (a :: sel). unfold index_select in *. simpl. rewrite Ea. simpl.
    rewrite E. simpl. repeat split; [lia|].
    intros [|k] i' H; simpl in *.
    + injection H as <-. symmetry. exact Ea.
    + apply N, H.
Qed.

End Scatter.

Lemma incident_ones (j : nat) (index : list nat) :
  incident j index (ones (List.length index)) =
  repeat fone (count_occ Nat.eq_dec index j).
Proof.
  induction index as [|i index IH]; [reflexivity|].
  change (ones (List.length (i :: index))) with (fone :: ones (List.length index)).
  cbn [incident count_occ].
  destruct (Nat.eqb_spec i j) as [->|N].
  - destruct (Nat.eq_dec j j) as [_|C]; [|contradiction]. simpl. f_equal. exact IH.
  - destruct (Nat.eq_dec i j) as [C|_]; [contradiction|]. exact IH.
Qed.

(** ** Degrees and normalisation factors *)

Lemma edges_in_range_fst n_x n_y ei :
  edges_in_range n_x n_y ei -> Forall (fun i => i < n_x) (map fst ei).
Proof.
  intros H. apply Forall_map. eapply Forall_impl; [|exact H].
  simpl. intros e [Hx _]. exact Hx.
Qed.

Lemma edges_in_range_snd n_x n_y ei :
  edges_in_range n_x n_y ei -> Forall (fun j => j < n_y) (map snd ei).
Proof.
  intros H. apply Forall_map. eapply Forall_impl; [|exact H].
  simpl. intros e [_ Hy]. exact Hy.
Qed.

Lemma edges_in_range_flip n_x n_y ei :
  edges_in_range n_x n_y ei -> edges_in_range n_y n_x (flip0 ei).
Proof.
  intros H. apply Forall_map. eapply Forall_impl; [|exact H].
  simpl. intros e [Hx Hy]. split; assumption.
Qed.

Lemma nth_error_zeros n j : j < n -> nth_error (zeros n) j = Some fzero.
Proof.
  intros H. unfold zeros. rewrite nth_error_repeat by exact H. reflexivity.
Qed.

Lemma degree_spec (index : list nat) (n : nat) :
  Forall (fun i => i < n) index ->
  exists deg, degree index n = Ok deg /\ List.length deg = n /\
    forall j, j < n -> nth_error deg j = Some (Fin (INR (deg_count index j))).
Proof.
  intros R. unfold degree.
  destruct (scatter_add_spec fadd index (ones (List.length index)) (zeros n))
    as (deg & E & L & N).
  - unfold ones. now rewrite repeat_length.
  - unfold zeros. now rewrite repeat_length.
  - exists deg. split; [exact E|]. split.
    + rewrite L. unfold zeros. apply repeat_length.
    + intros j Hj. rewrite N, nth_error_zeros by exact Hj. simpl.
      rewrite incident_ones. unfold fzero. rewrite fold_fadd_ones.
      unfold deg_count. f_equal. f_equal. lra.
Qed.

Lemma deg_inv_sqrt_spec (index : list nat) (n : nat) :
  Forall (fun i => i < n) index ->
  exists v, BipartiteLightGCN.deg_inv_sqrt index n = Ok v /\
    List.length v = n /\
    forall j, j < n ->
      nth_error v j = Some (Fin (node_factor (deg_count index j))).
Proof.
  intros R. destruct (degree_spec index n R) as (deg & E & L & N).
  unfold BipartiteLightGCN.deg_inv_sqrt. rewrite E. simpl.
  eexists. split; [reflexivity|]. split.
  - unfold mask_inf_to_zero. now rewrite !length_map.
  - intros j Hj. unfold mask_inf_to_zero.
    rewrite !nth_error_map, (N j Hj). cbn [option_map].
    rewrite pow_neg_half_count.
    destruct (deg_count index j); reflexivity.
Qed.

Lemma node_factor_nonneg (d : nat) : (0 <= node_factor d)%R.
Proof.
  destruct d as [|d]; simpl node_factor; [lra|].
  apply Rlt_le, (inv_sqrt_pos (S d)). lia.
Qed.

Lemma nth_error_vmul (u v : vector) (k : nat) :
  nth_error (vmul u v) k =
  match nth_error u k, nth_error v k with
  | Some a, Some b => Some (fmul a b)
  | _, _ => None
  end.
Proof.
  revert v k; induction u as [|a u IH]; intros v k.
  - simpl. destruct k; reflexivity.
  - destruct v as [|b v].
    + simpl. destruct k; simpl; [reflexivity|]. now destruct (nth_error u k).
    + destruct k; simpl; [reflexivity | apply IH].
Qed.

Lemma length_vmul (u v : vector) :
  List.length (vmul u v) = Nat.min (List.length u) (List.length v).
Proof.
  revert v; induction u as [|a u IH]; intros [|b v]; simpl; auto.
Qed.

Lemma deg_count_pos (index : list nat) (k i : nat) :
  nth_error index k = Some i -> 0 < deg_count index i.
Proof.
  intros H. unfold deg_count. apply count_occ_In. eapply nth_error_In, H.
Qed.

(** What [edge_norm] computes on an edge index that is in range: the
    Hadamard product of the two gathered node-factor vectors. *)
Lemma edge_norm_spec (x y : matrix) (ei : edge_index_t) :
  edges_in_range (size0 x) (size0 y) ei ->
  exists norm, BipartiteLightGCN.edge_norm x y ei = Ok norm /\
    List.length norm = List.length ei /\
    forall k i j, nth_error ei k = Some (i, j) ->
      nth_error norm k =
      Some (fmul (Fin (node_factor (deg_count (map fst ei) i)))
                 (Fin (node_factor (deg_count (map snd ei) j)))).
Proof.
  intros R.
  pose proof (edges_in_range_fst _ _ _ R) as Rx.
  pose proof (edges_in_range_snd _ _ _ R) as Ry.
  destruct (deg_inv_sqrt_spec _ _ Rx) as (dx & Ex & Lx & Nx).
  destruct (deg_inv_sqrt_spec _ _ Ry) as (dy & Ey & Ly & Ny).
  destruct (index_select_spec dx (map fst ei)) as (nx & Enx & Lnx & Nnx).
  { rewrite Lx. exact Rx. }
  destruct (index_select_spec dy (map snd ei)) as (ny & Eny & Lny & Nny).
  { rewrite Ly. exact Ry. }
  unfold BipartiteLightGCN.edge_norm. rewrite Ex. simpl. rewrite Ey. simpl.
  rewrite Enx. simpl. rewrite Eny. simpl.
  eexists. split; [reflexivity|]. split.
  - rewrite length_vmul, Lnx, Lny, !length_map. apply Nat.min_id.
  - intros k i j Hk. rewrite nth_error_vmul.
    assert (Hi : nth_error (map fst ei) k = Some i)
      by (rewrite nth_error_map, Hk; reflexivity).
    assert (Hj : nth_error (map snd ei) k = Some j)
      by (rewrite nth_error_map, Hk; reflexivity).
    rewrite (Nnx k i Hi), (Nny k j Hj).
    rewrite Forall_forall in Rx, Ry.
    rewrite Nx by (apply Rx; eapply nth_error_In, Hi).
    rewrite Ny by (apply Ry; eapply nth_error_In, Hj).
    reflexivity.
Qed.

(** The normalisation over the extended reals is the normalisation of
    the layer. *)
Lemma edge_norm_extended_reals (x y : matrix) (ei : edge_index_t) :
  ElementArith.edge_norm ElementArith.extended_reals (size0 x) (size0 y) ei =
  BipartiteLightGCN.edge_norm x y ei.
Proof. reflexivity. Qed.

(** ** The normalisation in any arithmetic *)

Section AnyArith.
Variable A : ElementArith.arith.

Lemma incident_repeat (j : nat) (index : list nat) (a : ElementArith.elt A) :
  incident j index (repeat a (List.length index)) =
  repeat a (count_occ Nat.eq_dec index j).
Proof.
  induction index as [|i index IH]; [reflexivity|].
  cbn [List.length repeat incident count_occ].
  destruct (Nat.eqb_spec i j) as [->|N].
  - destruct (Nat.eq_dec j j) as [_|C]; [|contradiction]. simpl. f_equal. exact IH.
  - destruct (Nat.eq_dec i j) as [C|_]; [contradiction|]. exact IH.
Qed.

Lemma fold_add_repeat (c : nat) (a : ElementArith.elt A) :
  fold_left (ElementArith.add A) (repeat (ElementArith.one A) c) a =
  Nat.iter c (fun b => ElementArith.add A b (ElementArith.one A)) a.
Proof.
  revert a. induction c as [|c IH]; intros a; [reflexivity|].
  cbn [repeat fold_left]. rewrite IH. clear IH.
  induction c as [|c IH]; [reflexivity|].
  change (Nat.iter (S (S c)) ?f ?x) with (f (Nat.iter (S c) f x)).
  rewrite <- IH. reflexivity.
Qed.

Lemma degree_any_spec (index : list nat) (n : nat) :
  Forall (fun i => i < n) index ->
  exists deg, ElementArith.degree A index n = Ok deg /\ List.length deg = n /\
    forall j, j < n ->
      nth_error deg j = Some (ElementArith.of_count A (deg_count index j)).
Proof.
  intros R. unfold ElementArith.degree.
  destruct (scatter_add_spec (ElementArith.add A) index
              (repeat (ElementArith.one A) (List.length index))
              (repeat (ElementArith.zero A) n))
    as (deg & E & L & N).
  - now rewrite repeat_length.
  - now rewrite repeat_length.
  - exists deg. split; [exact E|]. split.
    + rewrite L. apply repeat_length.
    + intros j Hj. rewrite N, nth_error_repeat by exact Hj. cbn [option_map].
      rewrite incident_repeat, fold_add_repeat. reflexivity.
Qed.

Lemma deg_inv_sqrt_any_spec (index : list nat) (n : nat) :
  Forall (fun i => i < n) index ->
  exists v, ElementArith.deg_inv_sqrt A index n = Ok v /\
    List.length v = n /\
    forall j, j < n ->
      nth_error v j = Some (ElementArith.node_entry A (deg_count index j)).
Proof.
  intros R. destruct (degree_any_spec index n R) as (deg & E & L & N).
  unfold ElementArith.deg_inv_sqrt. rewrite E. cbn [rbind].
  eexists. split; [reflexivity|]. split.
  - unfold ElementArith.mask_inf_to_zero. now rewrite !length_map.
  - intros j Hj. unfold ElementArith.mask_inf_to_zero.
    rewrite !nth_error_map, (N j Hj). reflexivity.
Qed.

Lemma nth_error_vmul_any (u v : list (ElementArith.elt A)) (k : nat) :
  nth_error (ElementArith.vmul A u v) k =
  match nth_error u k, nth_error v k with
  | Some a, Some b => Some (ElementArith.mul A a b)
  | _, _ => None
  end.
Proof.
  revert v k; induction u as [|a u IH]; intros v k.
  - simpl. destruct k; reflexivity.
  - destruct v as [|b v].
    + simpl. destruct k; simpl; [reflexivity|]. now destruct (nth_error u k).
    + destruct k; simpl; [reflexivity | apply IH].
Qed.

Lemma length_vmul_any (u v : list (ElementArith.elt A)) :
  List.length (ElementArith.vmul A u v) = Nat.min (List.length u) (List.length v).
Proof.
  revert v; induction u as [|a u IH]; intros [|b v]; simpl; auto.
Qed.

(** What the normalisation computes on an edge index that is in range,
    whatever the arithmetic: for each edge, the product of the entries of
    its two ends. *)
Lemma edge_norm_any_spec (n_x n_y : nat) (ei : edge_index_t) :
  edges_in_range n_x n_y ei ->
  exists norm, ElementArith.edge_norm A n_x n_y ei = Ok norm /\
    List.length norm = List.length ei /\
    forall k i j, nth_error ei k = Some (i, j) ->
      nth_error norm k =
      Some (ElementArith.mul A
              (ElementArith.node_entry A (deg_count (map fst ei) i))
              (ElementArith.node_entry A (deg_count (map snd ei) j))).
Proof.
  intros R.
  pose proof (edges_in_range_fst _ _ _ R) as Rx.
  pose proof (edges_in_range_snd _ _ _ R) as Ry.
  destruct (deg_inv_sqrt_any_spec _ _ Rx) as (dx & Ex & Lx & Nx).
  destruct (deg_inv_sqrt_any_spec _ _ Ry) as (dy & Ey & Ly & Ny).
  destruct (index_select_spec dx (map fst ei)) as (nx & Enx & Lnx & Nnx).
  { rewrite Lx. exact Rx. }
  destruct (index_select_spec dy (map snd ei)) as (ny & Eny & Lny & Nny).
  { rewrite Ly. exact Ry. }
  unfold ElementArith.edge_norm. rewrite Ex. cbn [rbind]. rewrite Ey. cbn [rbind].
  rewrite Enx. cbn [rbind]. rewrite Eny. cbn [rbind].
  eexists. split; [reflexivity|]. split.
  - rewrite length_vmul_any, Lnx, Lny, !length_map. apply Nat.min_id.
  - intros k i j Hk. rewrite nth_error_vmul_any.
    assert (Hi : nth_error (map fst ei) k = Some i)
      by (rewrite nth_error_map, Hk; reflexivity).
    assert (Hj : nth_error (map snd ei) k = Some j)
      by (rewrite nth_error_map, Hk; reflexivity).
    rewrite (Nnx k i Hi), (Nny k j Hj).
    rewrite Forall_forall in Rx, Ry.
    rewrite Nx by (apply Rx; eapply nth_error_In, Hi).
    rewrite Ny by (apply Ry; eapply nth_error_In, Hj).
    reflexivity.
Qed.

End AnyArith.

(** C1 (as the code has it).  On every edge index over the two feature
    matrices the normalisation of [BipartiteLightGCN.forward] is computed.
    Whatever the arithmetic of the element type, binary32 included, both
    ends of an edge have a positive degree, and the factor of the edge is
    the product, formed by the multiplication of that arithmetic, of the
    entries that [deg.pow(-0.5)] holds for its two ends, each the value of
    [pow(-0.5)] at the degree of that end.  Over the extended reals every
    factor is a finite, non-negative number; the per-node entries are
    finite and non-negative numbers too, and the entry of a node of degree
    zero is 0: nothing is infinite or NaN. *)
Theorem edge_norm_product_of_inv_sqrt_degrees (x y : matrix) (ei : edge_index_t) :
  edges_in_range (size0 x) (size0 y) ei ->
  (forall A : ElementArith.arith,
     exists norm,
       ElementArith.edge_norm A (size0 x) (size0 y) ei = Ok norm /\
       List.length norm = List.length ei /\
       forall k i j, nth_error ei k = Some (i, j) ->
         let di := deg_count (map fst ei) i in
         let dj := deg_count (map snd ei) j in
         0 < di /\ 0 < dj /\
         nth_error norm k =
           Some (ElementArith.mul A (ElementArith.node_entry A di)
                                    (ElementArith.node_entry A dj))) /\
  exists dxs dys norm,
    BipartiteLightGCN.deg_inv_sqrt (map fst ei) (size0 x) = Ok dxs /\
    BipartiteLightGCN.deg_inv_sqrt (map snd ei) (size0 y) = Ok dys /\
    BipartiteLightGCN.edge_norm x y ei = Ok norm /\
    List.length norm = List.length ei /\
    (forall k i j, nth_error ei k = Some (i, j) ->
       let di := deg_count (map fst ei) i in
       let dj := deg_count (map snd ei) j in
       0 < di /\ 0 < dj /\
       nth_error dxs i = Some (pow_neg_half (Fin (INR di))) /\
       nth_error dys j = Some (pow_neg_half (Fin (INR dj))) /\
       nth_error norm k =
         Some (fmul (pow_neg_half (Fin (INR di))) (pow_neg_half (Fin (INR dj))))) /\
    Forall (fun a => finite a /\ nonneg a) norm /\
    (forall i, i < size0 x ->
       exists r, nth_error dxs i = Some (Fin r) /\ (0 <= r)%R /\
         (deg_count (map fst ei) i = 0 -> r = 0%R)) /\
    (forall j, j < size0 y ->
       exists r, nth_error dys j = Some (Fin r) /\ (0 <= r)%R /\
         (deg_count (map snd ei) j = 0 -> r = 0%R)).
Proof.
  intros R.
  pose proof (edges_in_range_fst _ _ _ R) as Rx.
  pose proof (edges_in_range_snd _ _ _ R) as Ry.
  split.
  { intros A.
    destruct (edge_norm_any_spec A (size0 x) (size0 y) ei R) as (norm & En & Ln & Nn).
    exists norm. split; [exact En|]. split; [exact Ln|].
    intros k i j Hk di dj.
    split; [apply (deg_count_pos _ k); rewrite nth_error_map, Hk; reflexivity|].
    split; [apply (deg_count_pos _ k); rewrite nth_error_map, Hk; reflexivity|].
    exact (Nn k i j Hk). }
  destruct (deg_inv_sqrt_spec _ _ Rx) as (dx & Ex & Lx & Nx).
  destruct (deg_inv_sqrt_spec _ _ Ry) as (dy & Ey & Ly & Ny).
  destruct (edge_norm_spec x y ei R) as (norm & En & Ln & Nn).
  assert (Edge : forall k i j, nth_error ei k = Some (i, j) ->
    let di := deg_count (map fst ei) i in
    let dj := deg_count (map snd ei) j in
    0 < di /\ 0 < dj /\
    nth_error dx i = Some (pow_neg_half (Fin (INR di))) /\
    nth_error dy j = Some (pow_neg_half (Fin (INR dj))) /\
    nth_error norm k =
      Some (fmul (pow_neg_half (Fin (INR di))) (pow_neg_half (Fin (INR dj))))).
  { intros k i j Hk di dj.
    assert (Hi : 0 < di).
    { apply (deg_count_pos _ k). rewrite nth_error_map, Hk. reflexivity. }
    assert (Hj : 0 < dj).
    { apply (deg_count_pos _ k). rewrite nth_error_map, Hk. reflexivity. }
    assert (Hix : i < size0 x).
    { rewrite Forall_forall in Rx. apply Rx.
      apply (nth_error_In _ k). rewrite nth_error_map, Hk. reflexivity. }
    assert (Hjy : j < size0 y).
    { rewrite Forall_forall in Ry. apply Ry.
      apply (nth_error_In _ k). rewrite nth_error_map, Hk. reflexivity. }
    rewrite (Nx i Hix), (Ny j Hjy), (Nn k i j Hk), !pow_neg_half_count.
    fold di dj. destruct di as [|a]; [lia|]. destruct dj as [|b]; [lia|].
    repeat split; lia. }
  exists dx, dy, norm.
  refine (conj Ex (conj Ey (conj En (conj Ln (conj Edge (conj _ (conj _ _))))))).
  - apply Forall_forall. intros a Ha.
    destruct (In_nth_error _ _ Ha) as (k & Hk).
    assert (Hlt : k < List.length ei).
    { rewrite <- Ln. apply nth_error_Some. congruence. }
    destruct (nth_error ei k) as [[i j]|] eqn:Ee.
    2:{ apply nth_error_None in Ee. lia. }
    rewrite (Nn k i j Ee) in Hk. injection Hk as <-.
    cbn [fmul finite nonneg]. split; [exact I|].
    apply Rmult_le_pos; apply node_factor_nonneg.
  - intros i Hi. eexists. split; [apply Nx, Hi|]. split.
    + apply node_factor_nonneg.
    + intros ->. reflexivity.
  - intros j Hj. eexists. split; [apply Ny, Hj|]. split.
    + apply node_factor_nonneg.
    + intros ->. reflexivity.
Qed.

(** ** Message passing *)

Lemma length_message (x_j : list vector) (norm : vector) :
  List.length x_j = List.length norm ->
  List.length (BipartiteLightGCN.message x_j norm) = List.length norm.
Proof.
  revert norm; induction x_j as [|r x_j IH]; intros [|n norm] H;
    simpl in *; try discriminate; auto.
Qed.

Lemma index_select_cons_inv {A} (t : list A) i index sel :
  index_select t (i :: index) = Ok sel ->
  exists a sel', nth_error t i = Some a /\ index_select t index = Ok sel' /\
    sel = a :: sel'.
Proof.
  unfold index_select. simpl. intros H.
  destruct (nth_error t i) as [a|]; [|discriminate]. simpl in H.
  destruct (rmapM _ index) as [sel'|e]; [|discriminate]. simpl in H.
  injection H as <-. eauto.
Qed.

(** The messages scattered to node [j] are the scaled rows of its
    neighbours. *)
Lemma incident_message (j : nat) (x_src : list vector) (ei : edge_index_t) :
  forall (norm : vector) (x_j : list vector),
  index_select x_src (map fst ei) = Ok x_j ->
  List.length norm = List.length ei ->
  incident j (map snd ei) (BipartiteLightGCN.message x_j norm) =
  map scaled (neighbours j ei norm x_src).
Proof.
  induction ei as [|[s t] ei IH]; intros norm x_j Hsel Hlen.
  - destruct norm; [|discriminate]. reflexivity.
  - destruct norm as [|w norm]; [discriminate|].
    simpl map in Hsel.
    destruct (index_select_cons_inv _ _ _ _ Hsel) as (a & sel' & Ha & Hs & ->).
    simpl in Hlen. cbn [map snd BipartiteLightGCN.message incident neighbours].
    rewrite (IH norm sel' Hs) by lia.
    destruct (Nat.eqb t j); [|reflexivity].
    cbn [map]. unfold scaled at 2. cbn [fst snd].
    now rewrite (nth_error_nth _ _ _ Ha).
Qed.

Lemma propagate_spec (ei : edge_index_t) (n_src n_dst : nat)
  (x_src : matrix) (norm : vector) :
  size0 x_src = n_src ->
  edges_in_range n_src n_dst ei ->
  List.length norm = List.length ei ->
  exists out, BipartiteLightGCN.propagate ei (n_src, n_dst) x_src norm = Ok out /\
    width out = width x_src /\ size0 out = n_dst /\
    forall j, j < n_dst ->
      nth_error (rows out) j =
      Some (weighted_sum (width x_src) (neighbours j ei norm (rows x_src))).
Proof.
  intros Hn R L. unfold BipartiteLightGCN.propagate.
  destruct (index_select_spec (rows x_src) (map fst ei)) as (x_j & Es & Ls & _).
  { apply (edges_in_range_fst _ n_dst). rewrite <- Hn in R. exact R. }
  rewrite Es. cbn [rbind snd].
  rewrite length_map in Ls.
  destruct (scatter_add_spec vadd (map snd ei) (BipartiteLightGCN.message x_j norm)
              (zeros2 n_dst (width x_src))) as (out & Eo & Lo & No).
  { rewrite length_map, length_message; lia. }
  { unfold zeros2. rewrite repeat_length. apply (edges_in_range_snd n_src), R. }
  rewrite Eo. cbn [rbind]. eexists. split; [reflexivity|].
  unfold size0, BipartiteLightGCN.update. cbn [width rows].
  split; [reflexivity|]. split.
  - rewrite Lo. unfold zeros2. apply repeat_length.
  - intros j Hj. rewrite No. unfold zeros2.
    rewrite nth_error_repeat by exact Hj. cbn [option_map].
    rewrite (incident_message j _ _ _ _ Es L). reflexivity.
Qed.

(** *** Componentwise reading of a weighted sum *)






(** *** Failure of the layer *)

Lemma scatter_add_raises (A : Type) (add : A -> A -> A) (index : list nat) :
  forall (src out : list A) (e : exn),
  scatter_add_ add out index src = Raise e -> e = RuntimeError.
Proof.
  induction index as [|i index IH]; intros [|s src] out e H; simpl in H;
    try discriminate; try (injection H as <-; reflexivity).
  destruct (update_at out i _) as [out'|]; [eauto|].
  injection H as <-. reflexivity.
Qed.

Lemma degree_ok_in_range (index : list nat) (n : nat) (deg : vector) :
  degree index n = Ok deg -> Forall (fun i => i < n) index.
Proof.
  intros H.
  destruct (Forall_Exists_dec (fun i => i < n) (fun i => lt_dec i n) index)
    as [F|X]; [exact F|].
  unfold degree in H. rewrite scatter_add_out_of_range in H; [discriminate| |].
  - unfold ones. now rewrite repeat_length.
  - unfold zeros. rewrite repeat_length.
    eapply Exists_impl; [|exact X]. simpl. intros; lia.
Qed.

Lemma deg_inv_sqrt_cases (index : list nat) (n : nat) :
  (Forall (fun i => i < n) index /\
   exists v, BipartiteLightGCN.deg_inv_sqrt index n = Ok v /\ List.length v = n) \/
  BipartiteLightGCN.deg_inv_sqrt index n = Raise RuntimeError.
Proof.
  unfold BipartiteLightGCN.deg_inv_sqrt.
  destruct (degree index n) as [deg|e] eqn:E.
  - left. pose proof (degree_ok_in_range _ _ _ E) as F. split; [exact F|].
    destruct (deg_inv_sqrt_spec index n F) as (v & Ev & Lv & _).
    unfold BipartiteLightGCN.deg_inv_sqrt in Ev. rewrite E in Ev.
    exists v. split; assumption.
  - right. unfold degree in E. apply scatter_add_raises in E. now subst.
Qed.

Lemma vmul_comm (u v : vector) : vmul u v = vmul v u.
Proof.
  revert v; induction u as [|a u IH]; intros [|b v]; simpl; trivial.
  now rewrite fmul_comm, IH.
Qed.

Lemma flip0_involutive (ei : edge_index_t) : flip0 (flip0 ei) = ei.
Proof.
  unfold flip0. rewrite map_map. rewrite <- (map_id ei) at 2.
  apply map_ext. intros [i j]. reflexivity.
Qed.

Lemma map_fst_flip0 (ei : edge_index_t) : map fst (flip0 ei) = map snd ei.
Proof. unfold flip0. rewrite map_map. reflexivity. Qed.

Lemma map_snd_flip0 (ei : edge_index_t) : map snd (flip0 ei) = map fst ei.
Proof. unfold flip0. rewrite map_map. reflexivity. Qed.

Lemma length_flip0 (ei : edge_index_t) : List.length (flip0 ei) = List.length ei.
Proof. unfold flip0. apply length_map. Qed.

(** The normalisation is computed when the edge index is in range, and
    raises the scatter error otherwise. *)
Lemma edge_norm_cases (x y : matrix) (ei : edge_index_t) :
  (edges_in_range (size0 x) (size0 y) ei /\
   exists norm, BipartiteLightGCN.edge_norm x y ei = Ok norm /\
     List.length norm = List.length ei) \/
  BipartiteLightGCN.edge_norm x y ei = Raise RuntimeError.
Proof.
  destruct (deg_inv_sqrt_cases (map fst ei) (size0 x)) as [(Fx & dx & Ex & _)|Ex].
  2:{ right. unfold BipartiteLightGCN.edge_norm. now rewrite Ex. }
  destruct (deg_inv_sqrt_cases (map snd ei) (size0 y)) as [(Fy & _)|Ey].
  2:{ right. unfold BipartiteLightGCN.edge_norm. now rewrite Ex, Ey. }
  left.
  assert (R : edges_in_range (size0 x) (size0 y) ei).
  { unfold edges_in_range. rewrite Forall_map in Fx, Fy.
    rewrite Forall_forall in *. intros e He. split; [apply Fx | apply Fy]; exact He. }
  split; [exact R|].
  destruct (edge_norm_spec x y ei R) as (norm & E & L & _). eauto.
Qed.

Lemma edge_norm_flip (x y : matrix) (ei : edge_index_t) :
  BipartiteLightGCN.edge_norm y x (flip0 ei) = BipartiteLightGCN.edge_norm x y ei.
Proof.
  unfold BipartiteLightGCN.edge_norm.
  rewrite map_fst_flip0, map_snd_flip0.
  destruct (deg_inv_sqrt_cases (map fst ei) (size0 x)) as [(Fx & dx & Ex & Lx)|Ex];
  destruct (deg_inv_sqrt_cases (map snd ei) (size0 y)) as [(Fy & dy & Ey & Ly)|Ey];
    rewrite ?Ex, ?Ey; cbn [rbind]; try reflexivity.
  destruct (index_select_spec dx (map fst ei)) as (nx & Enx & _).
  { now rewrite Lx. }
  destruct (index_select_spec dy (map snd ei)) as (ny & Eny & _).
  { now rewrite Ly. }
  rewrite Enx, Eny. cbn [rbind]. now rewrite vmul_comm.
Qed.

(** The two propagations of [forward] on an edge index in range. *)
Lemma forward_spec (x y : matrix) (ei : edge_index_t) :
  edges_in_range (size0 x) (size0 y) ei ->
  exists norm x2y y2x,
    BipartiteLightGCN.edge_norm x y ei = Ok norm /\
    List.length norm = List.length ei /\
    BipartiteLightGCN.propagate ei (size0 x, size0 y) x norm = Ok x2y /\
    BipartiteLightGCN.propagate (flip0 ei) (size0 y, size0 x) y norm = Ok y2x /\
    BipartiteLightGCN.forward x y ei = Ok (y2x, x2y).
Proof.
  intros R.
  destruct (edge_norm_spec x y ei R) as (norm & En & Ln & _).
  destruct (propagate_spec ei (size0 x) (size0 y) x norm eq_refl R Ln)
    as (x2y & E1 & _).
  destruct (propagate_spec (flip0 ei) (size0 y) (size0 x) y norm eq_refl)
    as (y2x & E2 & _).
  { apply edges_in_range_flip, R. }
  { now rewrite length_flip0. }
  exists norm, x2y, y2x. unfold BipartiteLightGCN.forward.
  rewrite En. cbn [rbind]. rewrite E1. cbn [rbind]. rewrite E2. cbn [rbind].
  repeat split; assumption.
Qed.


(** C3. Running the layer with the two feature matrices swapped and the
    edge index flipped computes the same per-edge normalisation and returns
    the same two tensors in the other order: the [x2y] output of the swapped
    call is the [y2x] output of the original call (and the other way
    round), and the swapped call fails exactly when the original does. *)
Theorem forward_flip_swaps_outputs (x y : matrix) (ei : edge_index_t) :
  BipartiteLightGCN.edge_norm y x (flip0 ei) = BipartiteLightGCN.edge_norm x y ei /\
  BipartiteLightGCN.forward y x (flip0 ei) =
  rbind (BipartiteLightGCN.forward x y ei)
        (fun out => let '(y2x, x2y) := out in Ok (x2y, y2x)).
Proof.
  split; [apply edge_norm_flip|].
  destruct (edge_norm_cases x y ei) as [(R & _)|E].
  - destruct (forward_spec x y ei R) as (norm & x2y & y2x & En & Ln & E1 & E2 & Ef).
    rewrite Ef. cbn [rbind].
    unfold BipartiteLightGCN.forward.
    rewrite edge_norm_flip, En. cbn [rbind].
    rewrite flip0_involutive, E2. cbn [rbind]. rewrite E1. reflexivity.
  - unfold BipartiteLightGCN.forward. rewrite edge_norm_flip, E. reflexivity.
Qed.

(** The normalisation on the toy graph of the specification. *)
Lemma edge_norm_toy_graph :
  edges_in_range (size0 toy_x) (size0 toy_y) toy_edges /\
  (forall A : ElementArith.arith,
     exists norm,
       ElementArith.edge_norm A (size0 toy_x) (size0 toy_y) toy_edges = Ok norm /\
       List.length norm = List.length toy_edges /\
       forall k i j, nth_error toy_edges k = Some (i, j) ->
         let di := deg_count (map fst toy_edges) i in
         let dj := deg_count (map snd toy_edges) j in
         0 < di /\ 0 < dj /\
         nth_error norm k =
           Some (ElementArith.mul A (ElementArith.node_entry A di)
                                    (ElementArith.node_entry A dj))) /\
  exists dxs dys norm,
    BipartiteLightGCN.deg_inv_sqrt (map fst toy_edges) (size0 toy_x) = Ok dxs /\
    BipartiteLightGCN.deg_inv_sqrt (map snd toy_edges) (size0 toy_y) = Ok dys /\
    BipartiteLightGCN.edge_norm toy_x toy_y toy_edges = Ok norm /\
    List.length norm = List.length toy_edges /\
    (forall k i j, nth_error toy_edges k = Some (i, j) ->
       let di := deg_count (map fst toy_edges) i in
       let dj := deg_count (map snd toy_edges) j in
       0 < di /\ 0 < dj /\
       nth_error dxs i = Some (pow_neg_half (Fin (INR di))) /\
       nth_error dys j = Some (pow_neg_half (Fin (INR dj))) /\
       nth_error norm k =
         Some (fmul (pow_neg_half (Fin (INR di))) (pow_neg_half (Fin (INR dj))))) /\
    Forall (fun a => finite a /\ nonneg a) norm /\
    (forall i, i < size0 toy_x ->
       exists r, nth_error dxs i = Some (Fin r) /\ (0 <= r)%R /\
         (deg_count (map fst toy_edges) i = 0 -> r = 0%R)) /\
    (forall j, j < size0 toy_y ->
       exists r, nth_error dys j = Some (Fin r) /\ (0 <= r)%R /\
         (deg_count (map snd toy_edges) j = 0 -> r = 0%R)).
Proof.
  assert (R : edges_in_range (size0 toy_x) (size0 toy_y) toy_edges).
  { unfold edges_in_range, toy_edges, size0. simpl. repeat constructor. }
  split; [exact R|].
  exact (edge_norm_product_of_inv_sqrt_degrees toy_x toy_y toy_edges R).
Defined.

(** On the toy graph the degrees are a = 2, b = 1, p = 2, q = 1, and the
    reciprocal square root of the product of the degrees of the edge a-p is
    one half, a number of binary32.  In binary32 the layer gives that edge
    another factor: [pow(-0.5)] of 2 is rounded, and the rounded product
    of the two entries is 16777215 / 2^25, the number of binary32 next
    below one half. *)
Lemma edge_norm_binary32_toy_graph :
  let A := ElementArith.binary32 in
  let ap := SpecFloat.S754_finite false 16777215 (-25) in
  let inv_sqrt_2 := SpecFloat.S754_finite false 11863283 (-24) in
  nth_error toy_edges 0 = Some (0, 0) /\
  deg_count (map fst toy_edges) 0 = 2 /\
  deg_count (map snd toy_edges) 0 = 2 /\
  ElementArith.edge_norm A (size0 toy_x) (size0 toy_y) toy_edges =
    Ok [ap; inv_sqrt_2; inv_sqrt_2] /\
  ElementArith.inv_sqrt A (ElementArith.of_count A (2 * 2)) = ElementArith.b32_half /\
  SpecFloat.SFeqb ap ElementArith.b32_half = false /\
  SpecFloat.SFltb ap ElementArith.b32_half = true.
Proof. cbv zeta. repeat split; vm_compute; reflexivity. Qed.

(** In binary32 the entry of a node of degree zero is 0, and for the
    degrees up to 16 the entries and their products are finite numbers
    that are not negative. *)
Example node_entry_binary32_small_degrees :
  let A := ElementArith.binary32 in
  let finite_nonneg (a : SpecFloat.spec_float) :=
    match a with
    | SpecFloat.S754_zero _ => true
    | SpecFloat.S754_finite s _ _ => negb s
    | _ => false
    end in
  let entries := map (ElementArith.node_entry A) (seq 0 17) in
  ElementArith.node_entry A 0 = ElementArith.b32_zero /\
  forallb finite_nonneg entries = true /\
  forallb (fun a => forallb (fun b => finite_nonneg (ElementArith.mul A a b)) entries)
          entries = true.
Proof. cbv zeta. repeat split; vm_compute; reflexivity. Qed.


(** ** The model's forward pass *)

(** C4. [HeteroLightGCN.forward] returns [None] on every batch: the value
    holds no mapping from node types to representations (subscripting it
    fails) and no pair of predictions (unpacking it fails). *)
Theorem hetero_forward_returns_none (self : pyval) (data : batch) :
  HeteroLightGCN.forward self data = PyNone /\
  (forall node_type, getitem (HeteroLightGCN.forward self data) node_type
                     = Raise TypeError) /\
  unpack2 (HeteroLightGCN.forward self data) = Raise TypeError.
Proof.
  unfold HeteroLightGCN.forward. split; [reflexivity|].
  split; [intros node_type|]; reflexivity.
Qed.

(** ** The training step *)

Section TrainStep.
Variable blob : Type.
Variable E : collab blob.

Lemma call_model_hetero (attrs : list (string * pyval)) (b : batch) :
  Train.call_model blob E (PyObject HeteroLightGCN.class_name attrs) b = Ok PyNone.
Proof. reflexivity. Qed.

Lemma train_batch_hetero (tloss : pyval) (t t' : trainer) (i : nat) (b : batch)
  (attrs : list (string * pyval)) :
  zero_grad E t = Ok t' ->
  model t' = PyObject HeteroLightGCN.class_name attrs ->
  Train.train_batch blob E (tloss, t) (i, b) = Raise TypeError.
Proof.
  intros Hz Hm. unfold Train.train_batch. rewrite Hz. cbn [rbind].
  rewrite Hm, call_model_hetero. reflexivity.
Qed.

Lemma train_batch_zero_grad_raises (tloss : pyval) (t : trainer) (i : nat)
  (b : batch) (e : exn) :
  zero_grad E t = Raise e ->
  Train.train_batch blob E (tloss, t) (i, b) = Raise e.
Proof.
  intros Hz. unfold Train.train_batch. rewrite Hz. reflexivity.
Qed.

End TrainStep.

(** C9. With a [HeteroLightGCN] as the model, [train_step] fails on its
    first mini-batch: the model call returns [None], unpacking [None] into
    [(res, res_dict)] is a type error, and the step raises it (or the error
    of [optimizer.zero_grad()], when that call itself fails).  No loss is
    computed, nothing is back-propagated, and the only loader on which
    [train_step] returns is the empty one, with no loss. *)
Theorem train_step_fails_at_model_call (blob : Type) (E : collab blob)
  (t : trainer) (b : batch) (rest : list batch) :
  (forall t', zero_grad E t = Ok t' ->
     exists attrs, model t' = PyObject HeteroLightGCN.class_name attrs) ->
  (forall t', zero_grad E t = Ok t' ->
     Train.call_model blob E (model t') b = Ok PyNone) /\
  unpack2 PyNone = Raise TypeError /\
  (exists e, Train.train_step blob E t (b :: rest) = Raise e /\
     (forall t', zero_grad E t = Ok t' -> e = TypeError)) /\
  Train.train_step blob E t [] = Ok (PyNone, t).
Proof.
  intros Hm. split; [|split; [reflexivity|split; [|reflexivity]]].
  - intros t' Hz. destruct (Hm t' Hz) as (attrs & ->). apply call_model_hetero.
  - unfold Train.train_step. cbn [Train.enumerate_from Train.rfold].
    destruct (zero_grad E t) as [t'|e] eqn:Hz.
    + destruct (Hm t' eq_refl) as (attrs & Ha).
      rewrite (train_batch_hetero blob E PyNone t t' 0 b attrs Hz Ha).
      exists TypeError. split; [reflexivity|]. reflexivity.
    + rewrite (train_batch_zero_grad_raises blob E PyNone t 0 b e Hz).
      exists e. split; [reflexivity|]. intros t' H. discriminate H.
Qed.

(** The step of the model that [init] builds, on the toy loader. *)
Lemma train_step_toy_fails :
  (forall t', zero_grad Toy.toy_collab
                (Toy.toy_trainer (PyObject HeteroLightGCN.class_name [])) = Ok t' ->
     exists attrs, model t' = PyObject HeteroLightGCN.class_name attrs) /\
  Train.train_step pyval Toy.toy_collab
    (Toy.toy_trainer (PyObject HeteroLightGCN.class_name [])) [Toy.toy_batch]
  = Raise TypeError.
Proof.
  assert (H : forall t', zero_grad Toy.toy_collab
                (Toy.toy_trainer (PyObject HeteroLightGCN.class_name [])) = Ok t' ->
     exists attrs, model t' = PyObject HeteroLightGCN.class_name attrs).
  { intros t' Ht. simpl in Ht. injection Ht as <-. exists []. reflexivity. }
  split; [exact H|].
  destruct (train_step_fails_at_model_call pyval Toy.toy_collab
              (Toy.toy_trainer (PyObject HeteroLightGCN.class_name []))
              Toy.toy_batch [] H) as (_ & _ & (e & He & Hty) & _).
  rewrite He. f_equal. apply (Hty _ eq_refl).
Defined.

(** ** Removing the labelled edges *)

Lemma map_nth_seq {A B} (g : A -> B) (d : A) (l : list A) :
  map (fun j => g (nth j l d)) (seq 0 (List.length l)) = map g l.
Proof.
  induction l as [|a l IH]; [reflexivity|].
  cbn [List.length seq map nth]. f_equal.
  rewrite <- seq_shift, map_map. exact IH.
Qed.

Lemma edge_eqb_eq (e l : nat * nat) : Utils.edge_eqb e l = true <-> e = l.
Proof.
  destruct e as [a b], l as [c d]. unfold Utils.edge_eqb. cbn [fst snd].
  rewrite andb_true_iff, !Nat.eqb_eq. split.
  - intros [-> ->]. reflexivity.
  - intros H. injection H as -> ->. auto.
Qed.

(** Column [j] of the match matrix has a [True] exactly when edge [j] is a
    labelled edge. *)
Lemma any_dim0_match_matrix (edges labels : edge_index_t) :
  Utils.any_dim0 (List.length edges) (Utils.match_matrix edges labels) =
  map (fun e => existsb (Utils.edge_eqb e) labels) edges.
Proof.
  unfold Utils.any_dim0, Utils.match_matrix.
  rewrite <- (map_nth_seq (fun e => existsb (Utils.edge_eqb e) labels) (0, 0) edges).
  apply map_ext_in. intros j Hj. apply in_seq in Hj.
  induction labels as [|l labels IH]; [reflexivity|].
  cbn [map existsb]. rewrite IH. f_equal.
  rewrite (nth_indep _ false (Utils.edge_eqb (0, 0) l))
    by (rewrite length_map; lia).
  apply (map_nth (fun e => Utils.edge_eqb e l)).
Qed.

Lemma keep_mask (edges labels : edge_index_t) :
  map negb (Utils.any_dim0 (List.length edges) (Utils.match_matrix edges labels)) =
  map (keep_edge labels) edges.
Proof.
  rewrite any_dim0_match_matrix, map_map. reflexivity.
Qed.

Lemma select_map_filter {A} (p : A -> bool) (l : list A) :
  Utils.select (map p l) l = filter p l.
Proof.
  induction l as [|a l IH]; [reflexivity|].
  cbn [map Utils.select filter]. rewrite IH. reflexivity.
Qed.

Lemma select_map_aligned {A B} (p : A -> bool) (l : list A) (t : list B) :
  List.length t = List.length l ->
  Utils.select (map p l) t =
  map snd (filter (fun q => p (fst q)) (combine l t)).
Proof.
  revert t; induction l as [|a l IH]; intros [|b t] H; simpl in H;
    try discriminate; [reflexivity|].
  cbn [map Utils.select combine filter fst]. rewrite IH by lia.
  destruct (p a); reflexivity.
Qed.

Lemma mask_select_aligned {A B} (p : A -> bool) (l : list A) (t : list B) :
  List.length t = List.length l ->
  Utils.mask_select (map p l) t =
  Ok (map snd (filter (fun q => p (fst q)) (combine l t))).
Proof.
  intros H. unfold Utils.mask_select.
  rewrite length_map, <- H, Nat.eqb_refl, select_map_aligned by exact H.
  reflexivity.
Qed.

Lemma mask_select_edges {A} (p : A -> bool) (l : list A) :
  Utils.mask_select (map p l) l = Ok (filter p l).
Proof.
  unfold Utils.mask_select.
  rewrite length_map, Nat.eqb_refl, select_map_filter. reflexivity.
Qed.

Lemma mask_select_opt_aligned {A B} (p : A -> bool) (l : list A)
  (t : option (list B)) :
  (forall v, t = Some v -> List.length v = List.length l) ->
  Utils.mask_select_opt (map p l) t =
  Ok (option_map (fun v => map snd (filter (fun q => p (fst q)) (combine l v))) t).
Proof.
  intros H. destruct t as [v|]; [|reflexivity].
  unfold Utils.mask_select_opt. rewrite mask_select_aligned by (apply H; reflexivity).
  reflexivity.
Qed.

Lemma mask_select_misaligned {A} (mask : list bool) (t : list A) :
  List.length t <> List.length mask ->
  Utils.mask_select mask t = Raise IndexError.
Proof.
  intros H. unfold Utils.mask_select.
  destruct (Nat.eqb_spec (List.length mask) (List.length t)) as [E|_];
    [congruence | reflexivity].
Qed.

(** C10. On a batch whose per-edge attributes are aligned with the edge
    index, [remove_label_edges] returns the batch in which the edge index
    of the movie-ratedby-user relation keeps, in order, the edges that equal
    no column of [edge_label_index] (so an edge is left exactly when it was
    there and is not a labelled edge); [rating] and [e_id], and [pos] and
    [weight] when present, keep the entries of the kept edges; and
    [edge_label_index], [edge_label], the other attributes of the relation
    and every other store are as they were. *)
Theorem remove_label_edges_keeps_unlabelled (b : batch) :
  aligned (movie_ratedby_user b) ->
  let s := movie_ratedby_user b in
  let labels := edge_label_index s in
  exists b', Utils.remove_label_edges b = Ok b' /\
    let s' := movie_ratedby_user b' in
    edge_index s' = filter (keep_edge labels) (edge_index s) /\
    (forall e, In e (edge_index s') <-> In e (edge_index s) /\ ~ In e labels) /\
    rating s' = keep_aligned labels (edge_index s) (rating s) /\
    e_id s' = keep_aligned labels (edge_index s) (e_id s) /\
    pos s' = option_map (keep_aligned labels (edge_index s)) (pos s) /\
    weight s' = option_map (keep_aligned labels (edge_index s)) (weight s) /\
    edge_label_index s' = edge_label_index s /\
    edge_label s' = edge_label s /\
    other_attrs s' = other_attrs s /\
    other_stores b' = other_stores b.
Proof.
  intros (Hr & He & Hp & Hw) s labels.
  unfold Utils.remove_label_edges. fold s. fold labels.
  rewrite keep_mask, mask_select_edges. cbn [rbind].
  rewrite (mask_select_opt_aligned _ _ _ Hp). cbn [rbind].
  rewrite (mask_select_aligned _ _ _ Hr). cbn [rbind].
  rewrite (mask_select_opt_aligned _ _ _ Hw). cbn [rbind].
  rewrite (mask_select_aligned _ _ _ He). cbn [rbind].
  eexists. split; [reflexivity|]. cbn.
  repeat match goal with |- _ /\ _ => split end; try reflexivity.
  intros e. rewrite filter_In. unfold keep_edge.
  rewrite negb_true_iff, <- not_true_iff_false, existsb_exists.
  split; intros [Hin Hn]; (split; [exact Hin|]).
  - intros Hl. apply Hn. exists e. split; [exact Hl | now apply edge_eqb_eq].
  - intros (l & Hl & Heq). apply edge_eqb_eq in Heq. subst l. contradiction.
Qed.

(** The toy batch: the labelled edge (0, 1) goes, with its rating and its
    edge id. *)
Lemma remove_label_edges_toy :
  aligned (movie_ratedby_user Toy.toy_batch) /\
  exists b', Utils.remove_label_edges Toy.toy_batch = Ok b' /\
    edge_index (movie_ratedby_user b') = [(0, 0); (1, 0)] /\
    rating (movie_ratedby_user b') = [PyInt 5; PyInt 3] /\
    e_id (movie_ratedby_user b') = [PyInt 10; PyInt 12] /\
    other_stores b' = other_stores Toy.toy_batch.
Proof.
  assert (A : aligned (movie_ratedby_user Toy.toy_batch)).
  { unfold aligned. simpl. repeat split; intros ? H; discriminate H. }
  split; [exact A|].
  destruct (remove_label_edges_keeps_unlabelled Toy.toy_batch A)
    as (b' & E & Hei & _ & Hra & Hid & _ & _ & _ & _ & _ & Ho).
  exists b'. split; [exact E|].
  rewrite Hei, Hra, Hid, Ho. repeat split.
Defined.

(** An attribute that is not aligned with the edge index stops the
    function with an index error. *)
Lemma remove_label_edges_misaligned_rating (b : batch) :
  pos (movie_ratedby_user b) = None ->
  List.length (rating (movie_ratedby_user b))
    <> List.length (edge_index (movie_ratedby_user b)) ->
  Utils.remove_label_edges b = Raise IndexError.
Proof.
  intros Hp Hr. unfold Utils.remove_label_edges.
  rewrite keep_mask, mask_select_edges, Hp. cbn [Utils.mask_select_opt rbind].
  rewrite mask_select_misaligned by (now rewrite length_map). reflexivity.
Qed.

(** ** The world monad and the file system *)

Section Monad.
Context {blob : Type}.

Lemma mbind_ok_inv {A B} (c : M blob A) (k : A -> M blob B) w b w' :
  mbind c k w = (Ok b, w') ->
  exists a w1, c w = (Ok a, w1) /\ k a w1 = (Ok b, w').
Proof.
  unfold mbind. destruct (c w) as [[a|e] w1]; intros H; [eauto | discriminate].
Qed.

Lemma lift_ok_inv {A} (r : result A) (w : world blob) a w' :
  lift r w = (Ok a, w') -> r = Ok a /\ w' = w.
Proof. unfold lift. intros H. injection H as -> ->. auto. Qed.

Lemma mret_ok_inv {A} (x : A) (w : world blob) a w' :
  mret x w = (Ok a, w') -> a = x /\ w' = w.
Proof. unfold mret. intros H. injection H as -> ->. auto. Qed.

Lemma for_each_app {A S} (body : S -> A -> M blob S) (l1 l2 : list A) (s : S) w :
  for_each body (l1 ++ l2) s w =
  mbind (for_each body l1 s) (for_each body l2) w.
Proof.
  revert s w; induction l1 as [|a l1 IH]; intros s w.
  - reflexivity.
  - cbn [app for_each]. unfold mbind in *.
    destruct (body s a w) as [[s'|e] w']; [|reflexivity].
    apply IH.
Qed.

Lemma fs_lookup_write_same (fs : list (string * node blob)) path n :
  fs_lookup (fs_write fs path n) path = Some n.
Proof. unfold fs_write. simpl. now rewrite String.eqb_refl. Qed.

Lemma fs_lookup_write_other (fs : list (string * node blob)) path n other :
  path <> other ->
  fs_lookup (fs_write fs path n) other = fs_lookup fs other.
Proof.
  intros Hne. unfold fs_write. cbn [fs_lookup].
  destruct (String.eqb_spec path other) as [E|_]; [contradiction|].
  induction fs as [|[p m] fs IH]; [reflexivity|].
  cbn [filter fst]. destruct (String.eqb_spec p path) as [->|Hp]; cbn [negb].
  - cbn [fs_lookup]. destruct (String.eqb_spec path other) as [E|_];
      [contradiction | exact IH].
  - cbn [fs_lookup]. rewrite IH. reflexivity.
Qed.

End Monad.

(** ** Paths *)

Lemma append_cancel_l (pre a b : string) : (pre ++ a = pre ++ b)%string -> a = b.
Proof.
  induction pre as [|c pre IH]; simpl; intros H; [exact H|].
  injection H as H. apply IH, H.
Qed.

(** Joining a directory with two different relative names gives two
    different paths. *)
Lemma os_path_join_inj (d a b : string) :
  String.prefix "/" a = false -> String.prefix "/" b = false ->
  os_path_join d a = os_path_join d b -> a = b.
Proof.
  intros Ha Hb. unfold os_path_join. rewrite Ha, Hb.
  destruct (String.eqb d ""); [auto|].
  destruct (ends_with_slash d); intros H.
  - apply (append_cancel_l d), H.
  - apply (append_cancel_l "/"), (append_cancel_l d), H.
Qed.

Lemma last_is_not_best (d : string) :
  os_path_join d "last.pt" <> os_path_join d "best.pt".
Proof.
  intros H. apply os_path_join_inj in H; [discriminate | reflexivity | reflexivity].
Qed.

Lemma plot_is_not_last (d : string) :
  os_path_join d "loss_plot.png" <> os_path_join d "last.pt".
Proof.
  intros H. apply os_path_join_inj in H; [discriminate | reflexivity | reflexivity].
Qed.

Lemma plot_is_not_best (d : string) :
  os_path_join d "loss_plot.png" <> os_path_join d "best.pt".
Proof.
  intros H. apply os_path_join_inj in H; [discriminate | reflexivity | reflexivity].
Qed.

(** ** Directories *)

Lemma has_slash_prefix (name : string) :
  has_slash name = false -> String.prefix "/" name = false.
Proof.
  destruct name as [|c name]; [reflexivity|]. cbn [has_slash String.prefix].
  intros H. apply orb_false_iff in H. destruct H as (H & _).
  destruct (Ascii.ascii_dec "/" c) as [<-|_]; [discriminate H | reflexivity].
Qed.

Lemma rsplit_slash_none (p : string) :
  rsplit_slash p = None <-> has_slash p = false.
Proof.
  induction p as [|c p IH]; cbn; [tauto|].
  destruct (rsplit_slash p) as [[m o]|].
  - split; [discriminate|]. intros H. apply orb_false_iff in H.
    destruct H as (_ & H). apply IH in H. discriminate H.
  - destruct (Ascii.eqb c "/"); cbn; [split; discriminate|].
    split; [intros _; apply IH; reflexivity | reflexivity].
Qed.

Lemma rsplit_slash_some (p d name : string) :
  rsplit_slash p = Some (d, name) -> p = (d ++ "/" ++ name)%string.
Proof.
  revert d. induction p as [|c p IH]; intros d; cbn; [discriminate|].
  destruct (rsplit_slash p) as [[d' name']|] eqn:Er.
  - intros H. injection H as <- <-. rewrite (IH d' eq_refl) at 1. reflexivity.
  - destruct (Ascii.eqb_spec c "/"); [|discriminate].
    intros H. injection H as <- <-. subst c. reflexivity.
Qed.

Lemma rsplit_slash_join (d name : string) :
  has_slash name = false -> rsplit_slash (d ++ "/" ++ name) = Some (d, name).
Proof.
  intros Ho. induction d as [|c d IH]; cbn.
  - apply rsplit_slash_none in Ho. rewrite Ho. reflexivity.
  - cbn in IH. rewrite IH. reflexivity.
Qed.

Lemma ends_with_slash_inv (d : string) :
  ends_with_slash d = true -> exists d', d = (d' ++ "/")%string.
Proof.
  unfold ends_with_slash. induction d as [|c d IH]; [discriminate|].
  destruct d as [|c' d'].
  - cbn. destruct (Ascii.eqb_spec c "/") as [->|]; [|discriminate].
    intros _. exists ""%string. reflexivity.
  - intros H. destruct IH as (d0 & Hd0).
    + cbn [String.length Nat.sub String.get] in *.
      rewrite Nat.sub_0_r in *. destruct (String.length d'); exact H.
    + exists (String c d0). cbn. rewrite <- Hd0. reflexivity.
Qed.

Lemma append_assoc (a b c : string) : ((a ++ b) ++ c = a ++ b ++ c)%string.
Proof. induction a as [|x a IH]; cbn; [reflexivity | now rewrite IH]. Qed.

Lemma prefix_append (a b : string) : String.prefix a (a ++ b) = true.
Proof.
  induction a as [|c a IH]; cbn [String.append String.prefix]; [now destruct b|].
  destruct (Ascii.ascii_dec c c) as [_|N]; [exact IH | contradiction].
Qed.

Lemma prefix_refl (a : string) : String.prefix a a = true.
Proof.
  induction a as [|c a IH]; cbn [String.prefix]; [reflexivity|].
  destruct (Ascii.ascii_dec c c) as [_|N]; [exact IH | contradiction].
Qed.

Lemma prefix_shorter (a b p : string) :
  String.prefix (a ++ b) p = true -> String.prefix a p = true.
Proof.
  revert p. induction a as [|c a IH]; intros p; cbn [String.append String.prefix].
  - intros _. now destruct p.
  - destruct p as [|x p]; [discriminate|]. cbn [String.prefix].
    destruct (Ascii.ascii_dec c x); [apply IH | discriminate].
Qed.

(** The directory that holds a file of the log directory does not
    depend on the name of the file. *)
Lemma dirname_join (d a b : string) :
  has_slash a = false -> has_slash b = false ->
  dirname (os_path_join d a) = dirname (os_path_join d b).
Proof.
  intros Ha Hb. unfold os_path_join, dirname.
  rewrite (has_slash_prefix a Ha), (has_slash_prefix b Hb).
  destruct (String.eqb d "").
  - apply rsplit_slash_none in Ha, Hb. rewrite Ha, Hb. reflexivity.
  - destruct (ends_with_slash d) eqn:Hs.
    + destruct (ends_with_slash_inv d Hs) as (d' & ->).
      rewrite !append_assoc.
      rewrite (rsplit_slash_join d' a Ha), (rsplit_slash_join d' b Hb). reflexivity.
    + rewrite (rsplit_slash_join d a Ha), (rsplit_slash_join d b Hb). reflexivity.
Qed.

Section Directories.
Context {blob : Type}.

Lemma fs_lookup_in (fs : list (string * node blob)) (p : string) (n : node blob) :
  fs_lookup fs p = Some n -> In (p, n) fs.
Proof.
  induction fs as [|[q m] fs IH]; cbn; [discriminate|].
  destruct (String.eqb_spec q p) as [->|_].
  - intros H. injection H as ->. left. reflexivity.
  - intros H. right. apply IH, H.
Qed.

Lemma dir_exists_recorded (fs : list (string * node blob)) (d : string) :
  fs_lookup fs d = Some Dir -> dir_exists fs d = true.
Proof.
  intros H. unfold dir_exists. apply orb_true_iff. right.
  apply existsb_exists. exists (d, Dir). split; [apply fs_lookup_in, H|].
  cbn. rewrite String.eqb_refl. reflexivity.
Qed.

Lemma dir_exists_holds (fs : list (string * node blob)) (d p : string) (n : node blob) :
  In (p, n) fs -> String.prefix (d ++ "/") p = true -> dir_exists fs d = true.
Proof.
  intros Hin Hp. unfold dir_exists. apply orb_true_iff. right.
  apply existsb_exists. exists (p, n). split; [exact Hin|].
  cbn [fst snd]. rewrite Hp. apply orb_true_r.
Qed.

(** A file that exists lies in a directory that exists. *)
Lemma parent_exists_of_file (fs : list (string * node blob)) (p : string)
  (n : node blob) :
  fs_lookup fs p = Some n -> parent_exists fs p = true.
Proof.
  intros H. unfold parent_exists, dirname.
  destruct (rsplit_slash p) as [[d name]|] eqn:Hr; [|reflexivity].
  cbn [option_map fst]. apply (dir_exists_holds fs d p n); [apply fs_lookup_in, H|].
  rewrite (rsplit_slash_some p d name Hr), <- append_assoc. apply prefix_append.
Qed.

(** Once a file is written, its directory can take another file. *)
Lemma parent_exists_written (fs : list (string * node blob)) (p q : string)
  (n : node blob) :
  dirname p = dirname q -> parent_exists (fs_write fs p n) q = true.
Proof.
  intros H. unfold parent_exists. rewrite <- H.
  apply (parent_exists_of_file (fs_write fs p n) p n), fs_lookup_write_same.
Qed.

(** A file can be created inside a directory that exists. *)
Lemma parent_exists_join (fs : list (string * node blob)) (d name : string) :
  has_slash name = false -> dir_exists fs d = true ->
  parent_exists fs (os_path_join d name) = true.
Proof.
  intros Hn Hd. unfold parent_exists, dirname, os_path_join.
  rewrite (has_slash_prefix name Hn).
  destruct (String.eqb d "").
  - apply rsplit_slash_none in Hn. rewrite Hn. reflexivity.
  - destruct (ends_with_slash d) eqn:Hs.
    + destruct (ends_with_slash_inv d Hs) as (d' & ->).
      rewrite append_assoc, (rsplit_slash_join d' name Hn). cbn [option_map fst].
      unfold dir_exists in *. apply orb_true_iff in Hd. apply orb_true_iff.
      destruct Hd as [Hd|Hd].
      { apply String.eqb_eq in Hd. destruct d'; discriminate Hd. }
      right. apply existsb_exists in Hd. destruct Hd as ([p n] & Hin & Hd).
      apply existsb_exists. exists (p, n). split; [exact Hin|].
      cbn [fst snd] in *. apply orb_true_iff in Hd. apply orb_true_iff. right.
      destruct Hd as [Hd|Hd].
      * destruct n; try discriminate Hd. apply String.eqb_eq in Hd. subst p.
        apply prefix_refl.
      * exact (prefix_shorter _ _ _ Hd).
    + rewrite (rsplit_slash_join d name Hn). exact Hd.
Qed.

End Directories.

(** ** Checkpoints *)

Section Checkpoint.
Variable blob : Type.
Variable E : collab blob.

Lemma torch_save_spec (obj : pyval) (path : string) (w : world blob) :
  parent_exists (files w) path = true ->
  torch_save E obj path w =
  (Ok tt, World (fs_write (files w) path (PickleFile (pickle E obj)))
                (trace w ++ [EvTorchSave path obj])).
Proof. intros H. unfold torch_save. rewrite H. reflexivity. Qed.

Lemma torch_save_no_directory (obj : pyval) (path : string) (w : world blob) :
  parent_exists (files w) path = false ->
  torch_save E obj path w = (Raise RuntimeError, w).
Proof. intros H. unfold torch_save. rewrite H. reflexivity. Qed.


Lemma torch_load_spec (path : string) (w : world blob) :
  torch_load E path w =
  (match fs_lookup (files w) path with
   | Some (PickleFile data) => unpickle E data
   | Some _ => Raise UnpicklingError
   | None => Raise FileNotFoundError
   end,
   World (files w) (trace w ++ [EvTorchLoad path])).
Proof.
  unfold torch_load, mbind, emit. cbn [files trace].
  destruct (fs_lookup (files w) path) as [[| | |]|]; reflexivity.
Qed.

End Checkpoint.




(** ** Starting a run *)

(** One step of a successful computation that starts with a lifted
    result. *)
Ltac lift_step H a Ha :=
  let wa := fresh "wa" in
  apply mbind_ok_inv in H; destruct H as (a & wa & Ha & H);
  apply lift_ok_inv in Ha; destruct Ha as (Ha & ->).

(** One step of a successful computation. *)
Ltac bind_step H a w Ha :=
  apply mbind_ok_inv in H; destruct H as (a & w & Ha & H).

Section Setup.
Variable blob : Type.
Variable E : collab blob.

(** The path given to [init] does not reach [load_config]. *)
Lemma init_ignores_config_dir (config_dir : option string) (w : world blob) :
  Train.init blob E config_dir w = Train.init blob E None w.
Proof. reflexivity. Qed.

(** Started without a checkpoint, [train] behaves the same whatever
    [--config] names. *)
Lemma train_ignores_config_flag (config_path : string) (resume : bool)
  (w : world blob) :
  Train.train blob E (Train.Namespace config_path None resume) w =
  Train.train blob E (Train.Namespace "config.yaml" None resume) w.
Proof. reflexivity. Qed.

Lemma SummaryWriter_spec (log_dir : string) (w : world blob) (wr : summary_writer)
  (w' : world blob) :
  SummaryWriter log_dir w = (Ok wr, w') ->
  wr = Writer log_dir /\ trace w' = (trace w ++ [EvSummaryWriter log_dir])%list.
Proof.
  unfold SummaryWriter, os_makedirs, mbind, emit, mret.
  destruct (fs_lookup (files w) log_dir) as [[| | |]|];
    intros H; try discriminate; injection H as <- <-; auto.
Qed.

(** A writer that was opened has its directory. *)
Lemma SummaryWriter_dir (log_dir : string) (w : world blob) (wr : summary_writer)
  (w' : world blob) :
  SummaryWriter log_dir w = (Ok wr, w') -> fs_lookup (files w') log_dir = Some Dir.
Proof.
  unfold SummaryWriter, os_makedirs, mbind, emit, mret.
  destruct (fs_lookup (files w) log_dir) as [[| | |]|] eqn:Hl;
    intros H; try discriminate; injection H as <- <-; cbn [files].
  - exact Hl.
  - cbn [fs_lookup]. rewrite String.eqb_refl. reflexivity.
Qed.

Lemma init_ok_inv (config_dir : option string) (w w' : world blob) (r : Train.run) :
  Train.init blob E config_dir w = (Ok r, w') ->
  Train.epoch r = PyInt 0 /\
  Train.train_losses r = PyList [] /\ Train.val_losses r = PyList [].
Proof.
  unfold Train.init. intros H.
  bind_step H cfg w0 Hcfg. lift_step H dc Hdc. lift_step H ds Hds.
  lift_step H mc Hmc. lift_step H m Hm.
  bind_step H oss w1 Hoss. destruct oss as [[o s] sc].
  lift_step H ld Hld. bind_step H u w2 Hmk. bind_step H entries w3 Hls.
  bind_step H wr w4 Hwr. lift_step H ee Hee.
  apply mret_ok_inv in H. destruct H as (-> & _). auto.
Qed.

Lemma init_log_dir (config_dir : option string) (w w' : world blob) (r : Train.run) :
  Train.init blob E config_dir w = (Ok r, w') ->
  fs_lookup (files w') (log_dir (Train.writer r)) = Some Dir.
Proof.
  unfold Train.init. intros H.
  bind_step H cfg w0 Hcfg. lift_step H dc Hdc. lift_step H ds Hds.
  lift_step H mc Hmc. lift_step H m Hm.
  bind_step H oss w1 Hoss. destruct oss as [[o s] sc].
  lift_step H ld Hld. bind_step H u w2 Hmk. bind_step H entries w3 Hls.
  bind_step H wr w4 Hwr. lift_step H ee Hee.
  apply mret_ok_inv in H. destruct H as (-> & ->).
  pose proof (SummaryWriter_spec _ _ _ _ Hwr) as (-> & _).
  exact (SummaryWriter_dir _ _ _ _ Hwr).
Qed.

Lemma init_from_checkpoint_log_dir (path : string) (w w1 : world blob)
  (r : Train.run) :
  Train.init_from_checkpoint blob E path w = (Ok r, w1) ->
  fs_lookup (files w1) (log_dir (Train.writer r)) = Some Dir.
Proof.
  unfold Train.init_from_checkpoint. intros H.
  bind_step H ckpt w0 Hload.
  lift_step H cfg Hcfg. lift_step H ds Hds. lift_step H m Hm.
  lift_step H o Ho. lift_step H sc Hsc. lift_step H sl Hsl.
  lift_step H ld Hld.
  bind_step H wr w2 Hwr.
  lift_step H ep Hep. lift_step H ee Hee. lift_step H tlh Htl.
  lift_step H vlh Hvl.
  apply mret_ok_inv in H. destruct H as (-> & ->).
  pose proof (SummaryWriter_spec _ _ _ _ Hwr) as (-> & _).
  exact (SummaryWriter_dir _ _ _ _ Hwr).
Qed.

(** A run that [train] has set up has its log directory, and its loss
    histories are empty unless it was resumed. *)
Lemma train_setup_run (args : Train.namespace) (w w' : world blob) (start : Z)
  (r : Train.run) :
  Train.train_setup blob E args w = (Ok (start, r), w') ->
  fs_lookup (files w') (log_dir (Train.writer r)) = Some Dir /\
  (Train.args_resume args = false ->
   start = 0%Z /\ Train.train_losses r = PyList [] /\ Train.val_losses r = PyList []).
Proof.
  intros H. destruct args as [cfg ckpt resume].
  unfold Train.train_setup in H.
  cbn [Train.args_checkpoint Train.args_resume Train.args_config] in *.
  destruct ckpt as [path|].
  - bind_step H loaded w0 Hl. bind_step Hl r0 w0' Hinit.
    apply mret_ok_inv in Hl. destruct Hl as (-> & ->).
    bind_step H r1 w1 Hr. bind_step H st w2 Hst.
    apply mret_ok_inv in H. destruct H as (H & ->). injection H as -> ->.
    destruct resume; cbn [negb] in Hr.
    + apply mret_ok_inv in Hr. destruct Hr as (-> & ->).
      apply lift_ok_inv in Hst. destruct Hst as (_ & ->).
      split; [exact (init_from_checkpoint_log_dir _ _ _ _ Hinit) | discriminate].
    + apply mret_ok_inv in Hst. destruct Hst as (-> & ->).
      bind_step Hr oss w3 Hoss. destruct oss as [[o s] sc].
      lift_step Hr ld Hld. bind_step Hr entries w4 Hls.
      bind_step Hr wr w5 Hwr. lift_step Hr ee Hee.
      apply mret_ok_inv in Hr. destruct Hr as (-> & ->).
      pose proof (SummaryWriter_spec _ _ _ _ Hwr) as (-> & _).
      cbn [Train.writer Train.train_losses Train.val_losses log_dir].
      split; [exact (SummaryWriter_dir _ _ _ _ Hwr) | auto].
  - bind_step H loaded w0 Hl. apply mret_ok_inv in Hl. destruct Hl as (-> & ->).
    bind_step H r1 w1 Hr. bind_step H st w2 Hst.
    apply mret_ok_inv in H. destruct H as (H & ->). injection H as -> ->.
    destruct resume; [discriminate Hst|].
    apply mret_ok_inv in Hst. destruct Hst as (-> & ->).
    split; [exact (init_log_dir _ _ _ _ Hr)|]. intros _.
    destruct (init_ok_inv _ _ _ _ Hr) as (_ & Htl & Hvl). auto.
Qed.

(** What a successful [init_from_checkpoint] has done: it loaded the
    record at the path, took every object from it, and opened a writer on
    the recorded log directory. *)
Lemma init_from_checkpoint_inv (path : string) (w w1 : world blob) (r : Train.run) :
  Train.init_from_checkpoint blob E path w = (Ok r, w1) ->
  exists ckpt,
    fst (Utils.load_checkpoint blob E path w) = Ok ckpt /\
    getitem ckpt "config" = Ok (Train.config r) /\
    getitem ckpt "model" = Ok (model (Train.objs r)) /\
    getitem ckpt "optimizer" = Ok (optimizer (Train.objs r)) /\
    getitem ckpt "scheduler" = Ok (scheduler (Train.objs r)) /\
    getitem ckpt "scaler" = Ok (scaler (Train.objs r)) /\
    getitem ckpt "log_dir" = Ok (PyStr (log_dir (Train.writer r))) /\
    getitem ckpt "epoch" = Ok (Train.epoch r) /\
    getitem ckpt "end_epoch" = Ok (Train.end_epoch r) /\
    getitem ckpt "train_losses" = Ok (Train.train_losses r) /\
    getitem ckpt "val_losses" = Ok (Train.val_losses r) /\
    trace w1 = (trace w ++ [EvTorchLoad path;
                            EvSummaryWriter (log_dir (Train.writer r))])%list.
Proof.
  unfold Train.init_from_checkpoint. intros H.
  apply mbind_ok_inv in H. destruct H as (ckpt & w0 & Hload & H).
  unfold Utils.load_checkpoint in *. rewrite torch_load_spec in Hload.
  injection Hload as Hload Hw0.
  lift_step H cfg Hcfg. lift_step H ds Hds. lift_step H m Hm.
  lift_step H o Ho. lift_step H sc Hsc. lift_step H sl Hsl.
  lift_step H ld Hld.
  apply mbind_ok_inv in H. destruct H as (wr & w2 & Hwr & H).
  apply SummaryWriter_spec in Hwr. destruct Hwr as (-> & Htr).
  lift_step H ep Hep. lift_step H ee Hee. lift_step H tlh Htl.
  lift_step H vlh Hvl.
  apply mret_ok_inv in H. destruct H as (-> & ->).
  exists ckpt. rewrite torch_load_spec. cbn [fst Train.config Train.objs
    Train.writer Train.epoch Train.end_epoch Train.train_losses Train.val_losses
    model optimizer scheduler scaler log_dir].
  split; [exact Hload|].
  apply rbind_ok_inv in Hld. destruct Hld as (ldv & Hldv & Hstr).
  destruct ldv; try discriminate Hstr. injection Hstr as ->.
  rewrite Htr, <- Hw0. cbn [trace]. rewrite <- app_assoc.
  repeat split; assumption.
Qed.

End Setup.

(** C5 (where the code departs from it).  The run that
    [--config experiment.yaml] starts in the toy directory holds the content
    of [config.yaml] (one epoch), not the content of the file that was named
    (seven epochs): [init] receives the path and then reads the literal
    ["config.yaml"]. *)
Example config_flag_not_honoured :
  let args := Train.Namespace "experiment.yaml" None false in
  exists r w,
    Train.train_setup pyval Toy.toy_collab args Toy.toy_world = (Ok (0%Z, r), w) /\
    Train.config r = Toy.toy_config 1 /\
    fst (Utils.load_config pyval "experiment.yaml" Toy.toy_world)
      = Ok (Toy.toy_config 7) /\
    fst (Utils.load_config pyval "config.yaml" Toy.toy_world)
      = Ok (Toy.toy_config 1) /\
    Train.config r <> Toy.toy_config 7.
Proof.
  cbv zeta. eexists. eexists. split; [reflexivity|].
  cbn [Train.config]. repeat split.
  unfold Toy.toy_config. intros H. discriminate H.
Qed.

(** C7. When [train] is started with [--resume] and a checkpoint that
    loads, with an integer [epoch] in it, the set-up returns the run read
    from the checkpoint and the first epoch [epoch + 1]; the model, the
    optimizer, the scheduler and the scaler are the values stored in the
    checkpoint, and no optimizer, scheduler or scaler is constructed; the
    epoch loop then runs over [range(epoch + 1, end_epoch)] from these
    objects. *)
Theorem resume_continues_after_checkpoint_epoch (blob : Type) (E : collab blob)
  (config_path path : string) (w w1 : world blob) (r : Train.run) (n : Z) :
  Train.init_from_checkpoint blob E path w = (Ok r, w1) ->
  Train.epoch r = PyInt n ->
  let args := Train.Namespace config_path (Some path) true in
  Train.train_setup blob E args w = (Ok ((n + 1)%Z, r), w1) /\
  (exists ckpt,
     fst (Utils.load_checkpoint blob E path w) = Ok ckpt /\
     getitem ckpt "epoch" = Ok (PyInt n) /\
     getitem ckpt "model" = Ok (model (Train.objs r)) /\
     getitem ckpt "optimizer" = Ok (optimizer (Train.objs r)) /\
     getitem ckpt "scheduler" = Ok (scheduler (Train.objs r)) /\
     getitem ckpt "scaler" = Ok (scaler (Train.objs r))) /\
  constructed (trace w1) = constructed (trace w) /\
  Train.train blob E args w =
    (let (out, w2) := Train.train_loop blob E (n + 1) r w1 in
     (rbind out (fun _ => Ok tt), w2)) /\
  Train.train_loop blob E (n + 1) r =
    mbind (lift (Train.py_range (n + 1) (Train.end_epoch r)))
      (fun epochs =>
         for_each (Train.epoch_body blob E r) epochs
           (Train.LoopState (Train.objs r) (Train.train_losses r)
              (Train.val_losses r) (PyFloat PInf))) /\
  (forall stop, Train.end_epoch r = PyInt stop -> (n + 1 < stop)%Z ->
     exists rest, Train.py_range (n + 1) (Train.end_epoch r)
                  = Ok ((n + 1)%Z :: rest)).
Proof.
  intros Hinit Hepoch args.
  assert (Hsetup : Train.train_setup blob E args w = (Ok ((n + 1)%Z, r), w1)).
  { unfold Train.train_setup, args. cbn [Train.args_checkpoint Train.args_resume negb].
    unfold mbind at 1. unfold mbind at 1. unfold mbind at 1.
    rewrite Hinit. cbn. rewrite Hepoch. reflexivity. }
  destruct (init_from_checkpoint_inv blob E path w w1 r Hinit)
    as (ckpt & Hload & _ & Hm & Ho & Hs & Hsc & _ & He & _ & _ & _ & Htr).
  split; [exact Hsetup|]. split.
  { exists ckpt. rewrite <- Hepoch. repeat split; assumption. }
  split.
  { rewrite Htr. clear. induction (trace w) as [|ev evs IH]; [reflexivity|].
    destruct ev; cbn [app constructed]; rewrite ?IH; reflexivity. }
  split.
  { unfold Train.train. unfold mbind at 1. rewrite Hsetup.
    unfold mbind at 1. unfold mret.
    destruct (Train.train_loop blob E (n + 1) r w1) as [[s|e] w2]; reflexivity. }
  split; [reflexivity|].
  intros stop Hstop Hlt. rewrite Hstop. unfold Train.py_range.
  destruct (Z.to_nat (stop - (n + 1))) as [|k] eqn:Ek; [lia|].
  cbn [seq map]. eexists. f_equal. f_equal. lia.
Qed.

(** Resuming from the toy checkpoint of epoch 2: the loop starts at
    epoch 3. *)
Lemma resume_toy_checkpoint :
  (Train.init_from_checkpoint pyval Toy.toy_collab "runs/train_0/last.pt"
     (Toy.toy_world_with_checkpoint Toy.other_model)
   = (Ok (Toy.toy_run Toy.other_model),
      World (files (Toy.toy_world_with_checkpoint Toy.other_model))
            [EvTorchLoad "runs/train_0/last.pt"; EvSummaryWriter "runs/train_0"]) /\
   Train.epoch (Toy.toy_run Toy.other_model) = PyInt 2) /\
  fst (Train.train_setup pyval Toy.toy_collab
         (Train.Namespace "config.yaml" (Some "runs/train_0/last.pt"%string) true)
         (Toy.toy_world_with_checkpoint Toy.other_model))
  = Ok (3%Z, Toy.toy_run Toy.other_model).
Proof.
  assert (H1 : Train.init_from_checkpoint pyval Toy.toy_collab "runs/train_0/last.pt"
     (Toy.toy_world_with_checkpoint Toy.other_model)
   = (Ok (Toy.toy_run Toy.other_model),
      World (files (Toy.toy_world_with_checkpoint Toy.other_model))
            [EvTorchLoad "runs/train_0/last.pt"; EvSummaryWriter "runs/train_0"]))
    by reflexivity.
  assert (H2 : Train.epoch (Toy.toy_run Toy.other_model) = PyInt 2) by reflexivity.
  split; [split; assumption|].
  destruct (resume_continues_after_checkpoint_epoch pyval Toy.toy_collab
              "config.yaml" "runs/train_0/last.pt" _ _ _ 2%Z H1 H2) as (Hs & _).
  rewrite Hs. reflexivity.
Defined.

(** ** Order of the extended reals *)

Lemma flt_irrefl (a : fval) : flt a a = false.
Proof.
  destruct a; simpl; trivial. destruct (Rlt_dec r r); [lra | reflexivity].
Qed.

Lemma flt_trans (a b c : fval) : flt a b = true -> flt b c = true -> flt a c = true.
Proof.
  destruct a, b, c; simpl; trivial; try discriminate.
  destruct (Rlt_dec r r0), (Rlt_dec r0 r1), (Rlt_dec r r1);
    trivial; try discriminate; lra.
Qed.

Lemma flt_true_not_nan (a b : fval) : flt a b = true -> a <> NaN /\ b <> NaN.
Proof. destruct a, b; simpl; intros H; split; discriminate. Qed.

Lemma flt_true_below_inf (a b : fval) : flt a b = true -> flt a PInf = true.
Proof. destruct a, b; simpl; trivial; discriminate. Qed.

(** A value below [b] is below everything that is not below [b]. *)
Lemma flt_below_bound (v a b : fval) :
  flt v b = true -> flt a b = false -> a <> NaN -> flt v a = true.
Proof.
  destruct v, a, b; simpl; trivial; try discriminate; try contradiction.
  destruct (Rlt_dec r r1), (Rlt_dec r0 r1), (Rlt_dec r r0);
    trivial; try discriminate; lra.
Qed.

(** ** The epoch loop *)

Section Loop.
Variable blob : Type.
Variable E : collab blob.

Lemma quiet_refl path (w : world blob) : quiet path w w.
Proof. split; [exists []; now rewrite app_nil_r | reflexivity]. Qed.

Lemma saved_paths_app (a b : list event) :
  saved_paths (a ++ b) = (saved_paths a ++ saved_paths b)%list.
Proof.
  induction a as [|ev a IH]; [reflexivity|].
  destruct ev; cbn [app saved_paths]; rewrite IH; reflexivity.
Qed.

Lemma quiet_trans path (w1 w2 w3 : world blob) :
  quiet path w1 w2 -> quiet path w2 w3 -> quiet path w1 w3.
Proof.
  intros ((e1 & T1 & S1) & F1) ((e2 & T2 & S2) & F2). split.
  - exists (e1 ++ e2)%list. rewrite T2, T1, app_assoc. split; [reflexivity|].
    now rewrite saved_paths_app, S1, S2.
  - intros p Hp. rewrite F2, F1 by exact Hp. reflexivity.
Qed.

Lemma quiet_bind {A B} path (c : M blob A) (k : A -> M blob B) :
  quiet_code path c -> (forall a, quiet_code path (k a)) ->
  quiet_code path (mbind c k).
Proof.
  intros Hc Hk w. unfold mbind. specialize (Hc w).
  destruct (c w) as [[a|e] w1]; cbn [snd] in *; [|exact Hc].
  eapply quiet_trans; [exact Hc | apply Hk].
Qed.

Lemma quiet_lift {A} path (r : result A) : quiet_code path (@lift blob A r).
Proof. intros w. apply quiet_refl. Qed.

Lemma quiet_mret {A} path (a : A) : quiet_code path (@mret blob A a).
Proof. intros w. apply quiet_refl. Qed.

Lemma quiet_add_scalar path wr tag value step :
  quiet_code path (@add_scalar blob wr tag value step).
Proof.
  intros w. split; [|reflexivity].
  exists [EvAddScalar (log_dir wr) tag value step]. split; reflexivity.
Qed.

Lemma quiet_for_each {A S} path (body : S -> A -> M blob S) (l : list A) :
  (forall s a, quiet_code path (body s a)) ->
  forall s, quiet_code path (for_each body l s).
Proof.
  intros Hb. induction l as [|a l IH]; intros s.
  - apply quiet_mret.
  - cbn [for_each]. apply quiet_bind; [apply Hb | exact IH].
Qed.

Lemma quiet_save_loss_plot path tl vl :
  quiet_code path (Utils.save_loss_plot blob tl vl path).
Proof.
  intros w. unfold Utils.save_loss_plot.
  destruct tl; try apply quiet_refl. destruct vl; try apply quiet_refl.
  destruct (parent_exists (files w) path); [|apply quiet_refl].
  split.
  - exists [EvSavePlot path]. split; reflexivity.
  - intros p Hp. cbn. apply fs_lookup_write_other. congruence.
Qed.

Lemma quiet_epoch_report (r : Train.run) (s : Train.loop_state) (epoch : Z)
  (res : Train.epoch_results) :
  quiet_code (os_path_join (log_dir (Train.writer r)) "loss_plot.png")
             (Train.epoch_report blob r s epoch res).
Proof.
  unfold Train.epoch_report.
  apply quiet_bind; [apply quiet_save_loss_plot | intros _].
  repeat (apply quiet_bind; [apply quiet_add_scalar | intros _]).
  apply quiet_bind; [apply quiet_lift | intros f1].
  apply quiet_bind.
  - apply quiet_for_each. intros u kv. apply quiet_add_scalar.
  - intros _. apply quiet_bind; [apply quiet_lift | intros avg].
    apply quiet_add_scalar.
Qed.

(** The checkpoint stage, computed. *)
Lemma epoch_checkpoint_spec (r : Train.run) (s : Train.loop_state) (epoch : Z)
  (res : Train.epoch_results) (w : world blob) :
  let last := os_path_join (log_dir (Train.writer r)) "last.pt" in
  let best := os_path_join (log_dir (Train.writer r)) "best.pt" in
  let ckpt := epoch_record r s epoch res in
  let w_last := World (fs_write (files w) last (PickleFile (pickle E ckpt)))
                      (trace w ++ [EvTorchSave last ckpt]) in
  parent_exists (files w) last = true ->
  Train.epoch_checkpoint blob E r s epoch res w =
  match py_lt (Train.val_loss res) (Train.best_val_loss s) with
  | Ok true =>
      (Ok (with_best s (Train.val_loss res)),
       World (fs_write (files w_last) best (PickleFile (pickle E ckpt)))
             (trace w_last ++ [EvTorchSave best ckpt]))
  | Ok false => (Ok s, w_last)
  | Raise e => (Raise e, w_last)
  end.
Proof.
  cbv zeta. intros Hp.
  unfold Train.epoch_checkpoint, Train.save_epoch, Utils.save_checkpoint.
  unfold mbind at 1. rewrite (torch_save_spec blob E _ _ w Hp).
  unfold mbind at 1. unfold lift at 1.
  destruct (py_lt (Train.val_loss res) (Train.best_val_loss s)) as [[|]|e];
    try reflexivity.
  unfold mbind. rewrite torch_save_spec; [reflexivity|].
  cbn [files]. apply parent_exists_written, dirname_join; reflexivity.
Qed.

(** Without the directory of [last.pt] the checkpoint stage raises at its
    first save and leaves the world as it was. *)
Lemma epoch_checkpoint_no_directory (r : Train.run) (s : Train.loop_state)
  (epoch : Z) (res : Train.epoch_results) (w : world blob) :
  parent_exists (files w) (os_path_join (log_dir (Train.writer r)) "last.pt") = false ->
  Train.epoch_checkpoint blob E r s epoch res w = (Raise RuntimeError, w).
Proof.
  intros Hp.
  unfold Train.epoch_checkpoint, Train.save_epoch, Utils.save_checkpoint.
  unfold mbind at 1. rewrite (torch_save_no_directory blob E _ _ w Hp). reflexivity.
Qed.

Lemma quiet_report_then_return (r : Train.run) (s : Train.loop_state) (epoch : Z)
  (res : Train.epoch_results) :
  quiet_code (os_path_join (log_dir (Train.writer r)) "loss_plot.png")
    (mbind (Train.epoch_report blob r s epoch res) (fun _ => mret s)).
Proof.
  apply quiet_bind; [apply quiet_epoch_report | intros _; apply quiet_mret].
Qed.

(** The body of the loop, once its first stage has returned. *)
Lemma epoch_body_spec (r : Train.run) (s s2 : Train.loop_state) (epoch : Z)
  (res : Train.epoch_results) (w : world blob) :
  Train.epoch_compute blob E r s = Ok (res, s2) ->
  let last := os_path_join (log_dir (Train.writer r)) "last.pt" in
  let best := os_path_join (log_dir (Train.writer r)) "best.pt" in
  let ckpt := epoch_record r s2 epoch res in
  let w_last := World (fs_write (files w) last (PickleFile (pickle E ckpt)))
                      (trace w ++ [EvTorchSave last ckpt]) in
  let w_best := World (fs_write (files w_last) best (PickleFile (pickle E ckpt)))
                      (trace w_last ++ [EvTorchSave best ckpt]) in
  parent_exists (files w) last = true ->
  Train.epoch_body blob E r s epoch w =
  match py_lt (Train.val_loss res) (Train.best_val_loss s2) with
  | Ok true =>
      mbind (Train.epoch_report blob r (with_best s2 (Train.val_loss res)) epoch res)
            (fun _ => mret (with_best s2 (Train.val_loss res))) w_best
  | Ok false =>
      mbind (Train.epoch_report blob r s2 epoch res) (fun _ => mret s2) w_last
  | Raise e => (Raise e, w_last)
  end.
Proof.
  intros Hc. cbv zeta. intros Hp. unfold Train.epoch_body.
  unfold mbind at 1. unfold lift at 1. rewrite Hc.
  unfold mbind at 1. rewrite (epoch_checkpoint_spec r s2 epoch res w Hp).
  destruct (py_lt (Train.val_loss res) (Train.best_val_loss s2)) as [[|]|e];
    reflexivity.
Qed.

(** Without the directory of [last.pt] the epoch raises at its first save
    and leaves the world as it was. *)
Lemma epoch_body_no_directory (r : Train.run) (s s2 : Train.loop_state) (epoch : Z)
  (res : Train.epoch_results) (w : world blob) :
  Train.epoch_compute blob E r s = Ok (res, s2) ->
  parent_exists (files w) (os_path_join (log_dir (Train.writer r)) "last.pt") = false ->
  Train.epoch_body blob E r s epoch w = (Raise RuntimeError, w).
Proof.
  intros Hc Hp. unfold Train.epoch_body.
  unfold mbind at 1. unfold lift at 1. rewrite Hc.
  unfold mbind at 1.
  rewrite (epoch_checkpoint_no_directory r s2 epoch res w Hp). reflexivity.
Qed.

(** An epoch that returns has found the directory of its checkpoints. *)
Lemma epoch_body_ok_parent (r : Train.run) (s s' : Train.loop_state) (epoch : Z)
  (w w' : world blob) :
  Train.epoch_body blob E r s epoch w = (Ok s', w') ->
  parent_exists (files w) (os_path_join (log_dir (Train.writer r)) "last.pt") = true.
Proof.
  intros H.
  destruct (parent_exists (files w) (os_path_join (log_dir (Train.writer r)) "last.pt"))
    eqn:Hp; [reflexivity|].
  unfold Train.epoch_body in H. unfold mbind at 1 in H. unfold lift at 1 in H.
  destruct (Train.epoch_compute blob E r s) as [[res s2]|e]; [|discriminate H].
  unfold mbind at 1 in H.
  rewrite (epoch_checkpoint_no_directory r s2 epoch res w Hp) in H. discriminate H.
Qed.

(** What the body of the loop leaves behind once its first stage has
    returned: the writes of the checkpoint stage, and nothing else saved. *)
Lemma epoch_body_saves (r : Train.run) (s s2 : Train.loop_state) (epoch : Z)
  (res : Train.epoch_results) (w : world blob) :
  Train.epoch_compute blob E r s = Ok (res, s2) ->
  let last := os_path_join (log_dir (Train.writer r)) "last.pt" in
  let best := os_path_join (log_dir (Train.writer r)) "best.pt" in
  let ckpt := epoch_record r s2 epoch res in
  let w' := snd (Train.epoch_body blob E r s epoch w) in
  parent_exists (files w) last = true ->
  (exists evs, trace w' = (trace w ++ evs)%list /\
     saved_paths evs = last :: (if improves res s2 then [best] else [])) /\
  fs_lookup (files w') last = Some (PickleFile (pickle E ckpt)) /\
  fs_lookup (files w') best =
    (if improves res s2 then Some (PickleFile (pickle E ckpt))
     else fs_lookup (files w) best).
Proof.
  intros Hc. cbv zeta. intros Hp. rewrite (epoch_body_spec r s s2 epoch res w Hc Hp).
  unfold improves.
  pose proof (last_is_not_best (log_dir (Train.writer r))) as Hlb.
  pose proof (plot_is_not_last (log_dir (Train.writer r))) as Hpl.
  pose proof (plot_is_not_best (log_dir (Train.writer r))) as Hpb.
  destruct (py_lt (Train.val_loss res) (Train.best_val_loss s2)) as [[|]|e].
  - (* improved: both files are written, then the report runs *)
    match goal with
    | |- context [snd (mbind ?c ?k ?w1)] =>
        destruct (quiet_report_then_return r
                    (with_best s2 (Train.val_loss res)) epoch res w1)
          as ((evs & Ht & Hs) & Hf)
    end.
    split; [|split].
    + eexists. rewrite Ht. cbn [trace]. rewrite <- !app_assoc.
      split; [reflexivity|]. cbn [app saved_paths]. now rewrite Hs.
    + rewrite Hf by (apply not_eq_sym, Hpl). cbn [files].
      rewrite fs_lookup_write_other by (apply not_eq_sym, Hlb).
      apply fs_lookup_write_same.
    + rewrite Hf by (apply not_eq_sym, Hpb). cbn [files].
      apply fs_lookup_write_same.
  - (* not improved: only last.pt is written *)
    match goal with
    | |- context [snd (mbind ?c ?k ?w1)] =>
        destruct (quiet_report_then_return r s2 epoch res w1)
          as ((evs & Ht & Hs) & Hf)
    end.
    split; [|split].
    + eexists. rewrite Ht. cbn [trace]. rewrite <- !app_assoc.
      split; [reflexivity|]. cbn [app saved_paths]. now rewrite Hs.
    + rewrite Hf by (apply not_eq_sym, Hpl). cbn [files].
      apply fs_lookup_write_same.
    + rewrite Hf by (apply not_eq_sym, Hpb). cbn [files].
      apply fs_lookup_write_other. exact Hlb.
  - (* the comparison raised, after last.pt was written *)
    cbn [snd trace files]. split; [|split].
    + eexists. split; reflexivity.
    + apply fs_lookup_write_same.
    + apply fs_lookup_write_other. exact Hlb.
Qed.

Lemma epoch_compute_inv (r : Train.run) (s s2 : Train.loop_state)
  (res : Train.epoch_results) :
  Train.epoch_compute blob E r s = Ok (res, s2) ->
  exists items,
    Train.cur_val_losses s = PyList items /\
    Train.cur_val_losses s2 = PyList (items ++ [Train.val_loss res]) /\
    Train.best_val_loss s2 = Train.best_val_loss s.
Proof.
  unfold Train.epoch_compute. intros H.
  apply rbind_ok_inv in H. destruct H as ([tloss t] & _ & H).
  apply rbind_ok_inv in H. destruct H as (t' & _ & H).
  apply rbind_ok_inv in H. destruct H as ([[vloss vacc] vf1] & _ & H).
  apply rbind_ok_inv in H. destruct H as (tl & _ & H).
  apply rbind_ok_inv in H. destruct H as (tls & _ & H).
  apply rbind_ok_inv in H. destruct H as (vl & Hvl & H).
  apply rbind_ok_inv in H. destruct H as (vls & Hvls & H).
  injection H as <- <-. cbn [Train.val_loss Train.cur_val_losses Train.best_val_loss].
  destruct vloss; try discriminate Hvl. injection Hvl as <-.
  unfold Train.py_append in Hvls.
  destruct (Train.cur_val_losses s) as [| | | | | | |items| |]; try discriminate Hvls.
  injection Hvls as <-. exists items. auto.
Qed.

Lemma epoch_body_ok_inv (r : Train.run) (s s' : Train.loop_state) (epoch : Z)
  (w w' : world blob) :
  Train.epoch_body blob E r s epoch w = (Ok s', w') ->
  exists res s2 b,
    Train.epoch_compute blob E r s = Ok (res, s2) /\
    py_lt (Train.val_loss res) (Train.best_val_loss s2) = Ok b /\
    s' = if b then with_best s2 (Train.val_loss res) else s2.
Proof.
  intros H.
  destruct (Train.epoch_compute blob E r s) as [[res s2]|e] eqn:Hc.
  2:{ unfold Train.epoch_body, mbind, lift in H. rewrite Hc in H. discriminate H. }
  pose proof (epoch_body_ok_parent r s s' epoch w w' H) as Hp.
  rewrite (epoch_body_spec r s s2 epoch res w Hc Hp) in H.
  exists res, s2.
  destruct (py_lt (Train.val_loss res) (Train.best_val_loss s2)) as [[|]|e];
    try discriminate H.
  - exists true. repeat split.
    apply mbind_ok_inv in H. destruct H as (? & ? & _ & H).
    apply mret_ok_inv in H. destruct H as (-> & _). reflexivity.
  - exists false. repeat split.
    apply mbind_ok_inv in H. destruct H as (? & ? & _ & H).
    apply mret_ok_inv in H. destruct H as (-> & _). reflexivity.
Qed.

Lemma py_lt_ok_inv (a b : pyval) (c : bool) :
  py_lt a b = Ok c ->
  exists x y, as_scalar a = Ok x /\ as_scalar b = Ok y /\ c = flt x y.
Proof.
  unfold py_lt. intros H.
  apply rbind_ok_inv in H. destruct H as (x & Hx & H).
  apply rbind_ok_inv in H. destruct H as (y & Hy & H).
  injection H as <-. eauto.
Qed.

Lemma history_since_step (s0 s s2 : Train.loop_state) (items : list pyval) (x : pyval) :
  history_extends s0 s ->
  Train.cur_val_losses s = PyList items ->
  Train.cur_val_losses s2 = PyList (items ++ [x]) ->
  history_since s0 s2 = (history_since s0 s ++ [x])%list /\
  exists before more,
    Train.cur_val_losses s0 = PyList before /\
    Train.cur_val_losses s2 = PyList (before ++ more).
Proof.
  intros [->|(before & more & H0 & H1)] Hs Hs2; unfold history_since.
  - rewrite Hs, Hs2. split.
    + rewrite skipn_app, skipn_all, Nat.sub_diag. reflexivity.
    + exists items, [x]. auto.
  - rewrite H0, H1, Hs2. rewrite H1 in Hs. injection Hs as <-.
    rewrite <- app_assoc. split.
    + rewrite !skipn_app, !skipn_all, Nat.sub_diag. reflexivity.
    + exists before, (more ++ [x])%list. auto.
Qed.

(** One completed epoch keeps the best loss the least of the losses the
    loop has seen. *)
Lemma epoch_body_keeps_best (r : Train.run) (s0 s s' : Train.loop_state)
  (epoch : Z) (w w' : world blob) :
  Train.epoch_body blob E r s epoch w = (Ok s', w') ->
  history_extends s0 s -> best_is_running_min s0 s ->
  history_extends s0 s' /\ best_is_running_min s0 s'.
Proof.
  intros Hb Hext (bv & Hbv & Hnan & Hin & Hmin).
  destruct (epoch_body_ok_inv r s s' epoch w w' Hb) as (res & s2 & b & Hc & Hlt & ->).
  destruct (epoch_compute_inv r s s2 res Hc) as (items & Hs & Hs2 & Hbest).
  destruct (history_since_step s0 s s2 items _ Hext Hs Hs2) as (Hh & Hext2).
  destruct (py_lt_ok_inv _ _ _ Hlt) as (v & y & Hv & Hy & ->).
  rewrite Hbest, Hbv in Hy. injection Hy as <-.
  assert (Hhist : forall q, history_since s0 (with_best s2 q) = history_since s0 s2)
    by reflexivity.
  destruct (flt v bv) eqn:Hcmp.
  - split; [right; exact Hext2|].
    exists v. cbn [with_best Train.best_val_loss]. rewrite Hhist, Hh.
    split; [exact Hv|]. split; [apply (flt_true_not_nan _ _ Hcmp)|]. split.
    + right. exists (Train.val_loss res). split; [|exact Hv].
      apply in_or_app. right. left. reflexivity.
    + intros x v' Hx Hx'. apply in_app_or in Hx. destruct Hx as [Hx|[<-|[]]].
      * destruct (flt v' v) eqn:Hv'; [|reflexivity].
        rewrite <- (Hmin x v' Hx Hx'). symmetry. eapply flt_trans; eassumption.
      * rewrite Hv in Hx'. injection Hx' as <-. apply flt_irrefl.
  - split; [right; exact Hext2|].
    exists bv. rewrite Hbest, Hh.
    split; [exact Hbv|]. split; [exact Hnan|]. split.
    + destruct Hin as [->|(x & Hx & Hx')]; [left; reflexivity|].
      right. exists x. split; [apply in_or_app; left; exact Hx | exact Hx'].
    + intros x v' Hx Hx'. apply in_app_or in Hx. destruct Hx as [Hx|[<-|[]]].
      * exact (Hmin x v' Hx Hx').
      * rewrite Hv in Hx'. injection Hx' as <-. exact Hcmp.
Qed.

Lemma for_each_keeps_best (r : Train.run) (s0 : Train.loop_state) (es : list Z) :
  forall (s s1 : Train.loop_state) (w w1 : world blob),
  for_each (Train.epoch_body blob E r) es s w = (Ok s1, w1) ->
  history_extends s0 s -> best_is_running_min s0 s ->
  history_extends s0 s1 /\ best_is_running_min s0 s1.
Proof.
  induction es as [|e es IH]; intros s s1 w w1 H Hext Hmin.
  - apply mret_ok_inv in H. destruct H as (-> & _). auto.
  - cbn [for_each] in H. apply mbind_ok_inv in H.
    destruct H as (s' & w' & Hb & H).
    destruct (epoch_body_keeps_best r s0 s s' e w w' Hb Hext Hmin) as (Hext' & Hmin').
    exact (IH s' s1 w' w1 H Hext' Hmin').
Qed.

(** The directory of the checkpoints is still there after the epochs
    that have completed. *)
Lemma for_each_epoch_body_parent (r : Train.run) (es : list Z) :
  forall (s s1 : Train.loop_state) (w w1 : world blob),
  for_each (Train.epoch_body blob E r) es s w = (Ok s1, w1) ->
  parent_exists (files w) (os_path_join (log_dir (Train.writer r)) "last.pt") = true ->
  parent_exists (files w1) (os_path_join (log_dir (Train.writer r)) "last.pt") = true.
Proof.
  induction es as [|e es IH]; intros s s1 w w1 H Hp.
  - apply mret_ok_inv in H. destruct H as (_ & ->). exact Hp.
  - cbn [for_each] in H. apply mbind_ok_inv in H.
    destruct H as (s' & w' & Hb & H).
    apply (IH s' s1 w' w1 H).
    destruct (epoch_body_ok_inv r s s' e w w' Hb) as (res & s2 & b & Hc & _ & _).
    destruct (epoch_body_saves r s s2 e res w Hc Hp) as (_ & Hlast & _).
    rewrite Hb in Hlast. cbn [snd] in Hlast.
    exact (parent_exists_of_file _ _ _ Hlast).
Qed.

(** Each epoch that has completed added one loss to the history. *)
Lemma for_each_history_length (r : Train.run) (es : list Z) :
  forall (s s1 : Train.loop_state) (w w1 : world blob) (before : list pyval),
  for_each (Train.epoch_body blob E r) es s w = (Ok s1, w1) ->
  Train.cur_val_losses s = PyList before ->
  exists now, Train.cur_val_losses s1 = PyList now /\
    List.length now = List.length before + List.length es.
Proof.
  induction es as [|e es IH]; intros s s1 w w1 before H Hs.
  - apply mret_ok_inv in H. destruct H as (-> & _). exists before.
    split; [exact Hs | cbn; lia].
  - cbn [for_each] in H. apply mbind_ok_inv in H.
    destruct H as (s' & w' & Hb & H).
    destruct (epoch_body_ok_inv r s s' e w w' Hb) as (res & s2 & b & Hc & _ & ->).
    destruct (epoch_compute_inv r s s2 res Hc) as (items & Hi & Hi2 & _).
    rewrite Hs in Hi. injection Hi as <-.
    destruct (IH _ s1 w' w1 (before ++ [Train.val_loss res])%list H) as (now & Hn & Hl).
    { destruct b; exact Hi2. }
    exists now. split; [exact Hn|]. rewrite Hl, length_app. cbn. lia.
Qed.

Lemma best_starts_at_infinity (s0 : Train.loop_state) :
  Train.best_val_loss s0 = PyFloat PInf -> best_is_running_min s0 s0.
Proof.
  intros H. exists PInf. rewrite H. split; [reflexivity|].
  split; [discriminate|]. split; [left; reflexivity|].
  intros x v' Hx. unfold history_since in Hx.
  destruct (Train.cur_val_losses s0); try contradiction.
  rewrite skipn_all in Hx. contradiction.
Qed.

(** When the best loss is the least one seen, a loss is below it exactly
    when it is below infinity and below every loss seen that is a number. *)
Lemma below_best_iff (s0 s1 : Train.loop_state) (v bv : fval) :
  best_is_running_min s0 s1 ->
  as_scalar (Train.best_val_loss s1) = Ok bv ->
  (flt v bv = true <->
   flt v PInf = true /\
   forall x v', In x (history_since s0 s1) -> as_scalar x = Ok v' ->
                v' <> NaN -> flt v v' = true).
Proof.
  intros (bv' & Hbv & Hnan & Hin & Hmin) Hb.
  rewrite Hbv in Hb. injection Hb as <-. split.
  - intros Hlt. split; [eapply flt_true_below_inf, Hlt|].
    intros x v' Hx Hx' Hn.
    exact (flt_below_bound v v' bv' Hlt (Hmin x v' Hx Hx') Hn).
  - intros (Hinf & Hall). destruct Hin as [->|(x & Hx & Hx')]; [exact Hinf|].
    exact (Hall x bv' Hx Hx' Hnan).
Qed.

End Loop.

(** C8 (as the code has it).  Take a run that [train] has set up, the
    epochs of [range(start_epoch, end_epoch)] that have completed before
    epoch [e], and let the first stage of epoch [e] return: the training
    step, the scheduler step, the evaluation, and the two appends of the
    detached losses to the histories.  Then the loop runs its body on epoch
    [e]; the body saves the epoch's record to [last.pt] in the log directory
    of the run, and after it to [best.pt] exactly when the comparison of the
    validation loss with the best loss is true; nothing else is saved;
    [last.pt] holds the record of epoch [e], and [best.pt] holds it when it
    was saved and is untouched otherwise.  In a run started without
    [--resume] the history holds the validation losses of all the earlier
    epochs, and the comparison is true exactly when the validation loss is
    below infinity and below every one of them that is a number. *)
Theorem epoch_saves_last_and_improved_best (blob : Type) (E : collab blob)
  (args : Train.namespace) (w0 : world blob)
  (r : Train.run) (start_epoch : Z) (es : list Z) (e : Z) (rest : list Z)
  (w w1 : world blob) (s1 s2 : Train.loop_state) (res : Train.epoch_results) :
  let s0 := Train.LoopState (Train.objs r) (Train.train_losses r)
              (Train.val_losses r) (PyFloat PInf) in
  Train.train_setup blob E args w0 = (Ok (start_epoch, r), w) ->
  Train.py_range start_epoch (Train.end_epoch r) = Ok (es ++ e :: rest)%list ->
  for_each (Train.epoch_body blob E r) es s0 w = (Ok s1, w1) ->
  Train.epoch_compute blob E r s1 = Ok (res, s2) ->
  let last := os_path_join (log_dir (Train.writer r)) "last.pt" in
  let best := os_path_join (log_dir (Train.writer r)) "best.pt" in
  let ckpt := epoch_record r s2 e res in
  let w2 := snd (Train.epoch_body blob E r s1 e w1) in
  Train.train_loop blob E start_epoch r w =
    mbind (Train.epoch_body blob E r s1 e)
          (for_each (Train.epoch_body blob E r) rest) w1 /\
  last <> best /\
  (exists evs, trace w2 = (trace w1 ++ evs)%list /\
     saved_paths evs = last :: (if improves res s2 then [best] else [])) /\
  fs_lookup (files w2) last = Some (PickleFile (pickle E ckpt)) /\
  getitem ckpt "epoch" = Ok (PyInt e) /\
  fs_lookup (files w2) best =
    (if improves res s2 then Some (PickleFile (pickle E ckpt))
     else fs_lookup (files w1) best) /\
  (Train.args_resume args = false ->
   exists earlier,
     Train.cur_val_losses s1 = PyList earlier /\
     List.length earlier = List.length es /\
     forall v, as_scalar (Train.val_loss res) = Ok v ->
       (improves res s2 = true <->
        flt v PInf = true /\
        forall x v', In x earlier -> as_scalar x = Ok v' ->
                     v' <> NaN -> flt v v' = true)).
Proof.
  intros s0 Hsetup Hrange Hprefix Hcompute last best ckpt w2.
  destruct (train_setup_run blob E args w0 w start_epoch r Hsetup) as (Hdir & Hfresh).
  assert (Hp : parent_exists (files w1) last = true).
  { apply (for_each_epoch_body_parent blob E r es s0 s1 w w1 Hprefix).
    apply parent_exists_join; [reflexivity | apply dir_exists_recorded, Hdir]. }
  destruct (epoch_body_saves blob E r s1 s2 e res w1 Hcompute Hp)
    as (Hsaves & Hlast & Hbest).
  split.
  { unfold Train.train_loop, mbind at 1, lift. rewrite Hrange.
    fold s0. rewrite for_each_app. unfold mbind at 1. rewrite Hprefix.
    cbn [for_each]. reflexivity. }
  split; [apply last_is_not_best|].
  split; [exact Hsaves|]. split; [exact Hlast|]. split; [reflexivity|].
  split; [exact Hbest|].
  intros Hres. destruct (Hfresh Hres) as (_ & _ & Hvl0).
  destruct (for_each_keeps_best blob E r s0 es s0 s1 w w1 Hprefix)
    as (_ & Hmin).
  { left. reflexivity. }
  { apply best_starts_at_infinity. reflexivity. }
  destruct (for_each_history_length blob E r es s0 s1 w w1 [] Hprefix Hvl0)
    as (earlier & Hs1 & Hlen).
  exists earlier. split; [exact Hs1|]. split; [exact Hlen|].
  intros v Hv.
  destruct (epoch_compute_inv blob E r s1 s2 res Hcompute) as (_ & _ & _ & Hsame).
  destruct Hmin as (bv & Hbv & Hrest).
  assert (Him : improves res s2 = flt v bv).
  { unfold improves, py_lt. rewrite Hv, Hsame, Hbv. reflexivity. }
  rewrite Him.
  assert (Hh : history_since s0 s1 = earlier).
  { unfold history_since. cbn [Train.cur_val_losses s0]. rewrite Hvl0, Hs1.
    reflexivity. }
  rewrite <- Hh.
  apply (below_best_iff s0 s1 v bv); [exists bv; split; assumption | exact Hbv].
Qed.

(** The toy checkpoint started again without [--resume], with a model
    whose forward pass returns a pair: the run writes to [train_1].  Epoch
    0 completes and saves to both files, its loss of one quarter being
    below infinity.  In epoch 1 the loss is one quarter again, not below
    the one seen, and the checkpoint goes to [last.pt] only. *)
Lemma restarted_run_saves_last :
  let args := Train.Namespace "config.yaml" (Some "runs/train_0/last.pt"%string) false in
  let w0 := Toy.toy_world_with_checkpoint Toy.other_model in
  exists r w s1 w1 res s2,
    (Train.train_setup pyval Toy.toy_collab args w0 = (Ok (0%Z, r), w) /\
     Train.py_range 0 (Train.end_epoch r) = Ok ([0%Z] ++ 1%Z :: [2%Z; 3%Z; 4%Z])%list /\
     for_each (Train.epoch_body pyval Toy.toy_collab r) [0%Z]
       (Train.LoopState (Train.objs r) (Train.train_losses r)
          (Train.val_losses r) (PyFloat PInf)) w = (Ok s1, w1) /\
     Train.epoch_compute pyval Toy.toy_collab r s1 = Ok (res, s2)) /\
    saved_paths (trace w1) = ["runs/train_1/last.pt"; "runs/train_1/best.pt"]%string /\
    improves res s2 = false /\
    exists evs,
      trace (snd (Train.epoch_body pyval Toy.toy_collab r s1 1 w1))
        = (trace w1 ++ evs)%list /\
      saved_paths evs = ["runs/train_1/last.pt"%string].
Proof.
  intros args w0.
  eexists. eexists. eexists. eexists. eexists. eexists.
  match goal with
  | |- (?P0 /\ _) /\ _ => assert (H0 : P0) by (vm_compute; reflexivity)
  end.
  match goal with
  | |- (_ /\ ?P1 /\ _) /\ _ => assert (H1 : P1) by (vm_compute; reflexivity)
  end.
  match goal with
  | |- (_ /\ _ /\ ?P2 /\ ?P3) /\ _ =>
      assert (H2 : P2) by (vm_compute; reflexivity);
      assert (H3 : P3) by (vm_compute; reflexivity)
  end.
  split; [repeat split; assumption|].
  split; [vm_compute; reflexivity|].
  match goal with
  | |- ?P /\ _ => assert (Him : P)
  end.
  { unfold improves, py_lt. cbn.
    match goal with
    | |- context [Rlt_dec ?a ?b] => destruct (Rlt_dec a b) as [Hlt|_]
    end; [exfalso; exact (Rlt_irrefl _ Hlt) | reflexivity]. }
  split; [exact Him|].
  destruct (epoch_saves_last_and_improved_best pyval Toy.toy_collab args w0
              _ 0 [0%Z] 1 [2%Z; 3%Z; 4%Z] _ _ _ _ _ H0 H1 H2 H3)
    as (_ & _ & (evs & Ht & Hs) & _).
  exists evs. split; [exact Ht|]. rewrite Hs, Him. reflexivity.
Defined.

(** The run that [train] starts without a checkpoint in the toy
    directory: the model is the [HeteroLightGCN] that [init] builds, the
    loop has one epoch, its training step raises the type error, and the
    run ends with no checkpoint saved and no [last.pt] in its log
    directory. *)
Lemma fresh_run_saves_nothing :
  let args := Train.Namespace "config.yaml" None false in
  exists r w0 w',
    Train.train_setup pyval Toy.toy_collab args Toy.toy_world = (Ok (0%Z, r), w0) /\
    Train.py_range 0 (Train.end_epoch r) = Ok [0%Z] /\
    trainloader (Train.data r) = [Toy.toy_batch] /\
    Train.train pyval Toy.toy_collab args Toy.toy_world = (Raise TypeError, w') /\
    saved_paths (trace w') = [] /\
    fs_lookup (files w') (os_path_join (log_dir (Train.writer r)) "last.pt") = None.
Proof.
  cbv zeta. eexists. eexists. eexists.
  split; [vm_compute; reflexivity|]. split; [vm_compute; reflexivity|].
  split; [vm_compute; reflexivity|]. split; [vm_compute; reflexivity|].
  split; vm_compute; reflexivity.
Qed.

(** The run resumed from the toy checkpoint of epoch 2.  The history that
    the checkpoint restores holds a validation loss of one eighth.  Epoch 3
    has a validation loss of one quarter, which is not below it, and the
    loop saves it to [best.pt] all the same: the best loss of the loop
    starts at infinity, not at the least loss of the restored history. *)
Lemma resumed_run_overwrites_best :
  let args := Train.Namespace "config.yaml" (Some "runs/train_0/last.pt"%string) true in
  let w0 := Toy.toy_world_with_checkpoint Toy.other_model in
  exists r w s1 w1,
    Train.train_setup pyval Toy.toy_collab args w0 = (Ok (3%Z, r), w) /\
    Train.val_losses r =
      PyList [Toy.scalar_tensor 1; Toy.scalar_tensor (1 / 8); Toy.scalar_tensor (1 / 4)] /\
    for_each (Train.epoch_body pyval Toy.toy_collab r) [3%Z]
      (Train.LoopState (Train.objs r) (Train.train_losses r)
         (Train.val_losses r) (PyFloat PInf)) w = (Ok s1, w1) /\
    Train.cur_val_losses s1 =
      PyList [Toy.scalar_tensor 1; Toy.scalar_tensor (1 / 8); Toy.scalar_tensor (1 / 4);
              Toy.scalar_tensor (1 / 4)] /\
    flt (Fin (1 / 8)) (Fin (1 / 4)) = true /\
    saved_paths (trace w1) = ["runs/train_0/last.pt"; "runs/train_0/best.pt"]%string.
Proof.
  cbv zeta. eexists. eexists. eexists. eexists.
  split; [vm_compute; reflexivity|]. split; [reflexivity|].
  split; [vm_compute; reflexivity|]. split; [reflexivity|].
  split; [|vm_compute; reflexivity].
  unfold flt. destruct (Rlt_dec (1 / 8) (1 / 4)) as [_|N]; [reflexivity | exfalso; lra].
Qed.

(** An epoch whose first stage raises leaves the world as it found it:
    nothing is saved. *)
Lemma epoch_body_raises_unsaved (blob : Type) (E : collab blob) (r : Train.run)
  (s : Train.loop_state) (epoch : Z) (w : world blob) (e : exn) :
  Train.epoch_compute blob E r s = Raise e ->
  Train.epoch_body blob E r s epoch w = (Raise e, w).
Proof.
  intros H. unfold Train.epoch_body, mbind, lift. rewrite H. reflexivity.
Qed.

(** ** The helpers on concrete values *)

Example os_path_join_examples :
  os_path_join "runs" "train_0" = "runs/train_0"%string /\
  os_path_join "runs/" "train_0" = "runs/train_0"%string /\
  os_path_join "runs/train_0" "last.pt" = "runs/train_0/last.pt"%string /\
  os_path_join "runs" "/tmp/x" = "/tmp/x"%string /\
  os_path_join "" "last.pt" = "last.pt"%string.
Proof. repeat split. Qed.

Example child_name_examples :
  child_name "runs" "runs/train_0" = Some "train_0"%string /\
  child_name "runs" "runs/train_0/last.pt" = None /\
  child_name "runs" "runs" = None /\
  child_name "runs" "config.yaml" = None.
Proof. repeat split. Qed.

Example rsplit_dot_examples :
  Utils.rsplit_dot "torch.optim.Adam" = Some ("torch.optim"%string, "Adam"%string) /\
  Utils.rsplit_dot "Adam" = None.
Proof. repeat split. Qed.

Example py_range_examples :
  Train.py_range 3 (PyInt 5) = Ok [3%Z; 4%Z] /\
  Train.py_range 5 (PyInt 5) = Ok [] /\
  Train.py_range 0 (PyFloat (Fin 5)) = Raise TypeError.
Proof. repeat split. Qed.

Example unpack2_examples :
  unpack2 (PyTuple [PyInt 1; PyInt 2]) = Ok (PyInt 1, PyInt 2) /\
  unpack2 (PyTuple [PyInt 1]) = Raise ValueError /\
  unpack2 PyNone = Raise TypeError.
Proof. repeat split. Qed.

Example str_of_nat_examples :
  str_of_nat 0 = "0"%string /\ str_of_nat 12 = "12"%string.
Proof. repeat split. Qed.

(** The listing of the log directory numbers the runs: a second run
    started from a checkpoint without [--resume] builds a new optimizer and
    scheduler and writes to [train_1]. *)
Example restart_without_resume :
  let args := Train.Namespace "config.yaml" (Some "runs/train_0/last.pt"%string) false in
  exists r w,
    Train.train_setup pyval Toy.toy_collab args
      (Toy.toy_world_with_checkpoint Toy.other_model) = (Ok (0%Z, r), w) /\
    log_dir (Train.writer r) = "runs/train_1"%string /\
    model (Train.objs r) = Toy.other_model /\
    constructed (trace w) =
      ["torch.optim.Adam"; "torch.optim.lr_scheduler.StepLR"]%string /\
    Train.train_losses r = PyList [] /\
    Train.end_epoch r = PyInt 5.
Proof.
  cbv zeta. eexists. eexists.
  split; [vm_compute; reflexivity|]. repeat split.
Qed.

(** [--resume] without a checkpoint stops with the value error, after
    [init] has run. *)
Example resume_needs_checkpoint :
  let args := Train.Namespace "config.yaml" None true in
  exists w,
    Train.train pyval Toy.toy_collab args Toy.toy_world = (Raise ValueError, w) /\
    trace w = [EvConstruct "torch.optim.Adam";
               EvConstruct "torch.optim.lr_scheduler.StepLR";
               EvSummaryWriter "runs/train_0"].
Proof.
  cbv zeta. eexists. split; vm_compute; reflexivity.
Qed.

(* ===================================================================== *)
(** * Part III. Further properties of the code                            *)
(* ===================================================================== *)

(** ** The convolution: failure and isolated nodes *)

(** X1. [forward] returns exactly on the edge indices whose every column
    names a row of [x] and a row of [y]; the two outputs then have the row
    counts of [x] and [y] and the widths of [y] and [x].  On every other edge
    index it raises the runtime error of the degree count. *)
Theorem forward_returns_iff_edges_in_range (x y : matrix) (ei : edge_index_t) :
  (edges_in_range (size0 x) (size0 y) ei /\
   exists y2x x2y,
     BipartiteLightGCN.forward x y ei = Ok (y2x, x2y) /\
     size0 y2x = size0 x /\ width y2x = width y /\
     size0 x2y = size0 y /\ width x2y = width x) \/
  (~ edges_in_range (size0 x) (size0 y) ei /\
   BipartiteLightGCN.forward x y ei = Raise RuntimeError).
Proof.
  destruct (edge_norm_cases x y ei) as [[R _] | Hr].
  - left. split; [exact R|].
    destruct (forward_spec x y ei R) as (norm & x2y & y2x & _ & Ln & Px & Py & F).
    exists y2x, x2y. split; [exact F|].
    destruct (propagate_spec ei (size0 x) (size0 y) x norm eq_refl R Ln)
      as (o1 & E1 & W1 & S1 & _).
    assert (Ln' : List.length norm = List.length (flip0 ei))
      by (rewrite length_flip0; exact Ln).
    destruct (propagate_spec (flip0 ei) (size0 y) (size0 x) y norm eq_refl
                (edges_in_range_flip _ _ _ R) Ln')
      as (o2 & E2 & W2 & S2 & _).
    rewrite Px in E1. rewrite Py in E2.
    injection E1 as <-. injection E2 as <-. auto.
  - right. split.
    + intros R. destruct (edge_norm_spec x y ei R) as (norm & En & _).
      rewrite Hr in En. discriminate.
    + unfold BipartiteLightGCN.forward. rewrite Hr. reflexivity.
Qed.

Lemma neighbours_isolated (j : nat) (x_src : list vector) (ei : edge_index_t) :
  forall norm : vector,
  deg_count (map snd ei) j = 0 -> neighbours j ei norm x_src = [].
Proof.
  unfold deg_count. induction ei as [|[s t] ei IH]; intros norm H; [reflexivity|].
  simpl in H. destruct norm as [|w norm]; [reflexivity|].
  simpl. destruct (Nat.eq_dec t j) as [->|Hne]; [discriminate|].
  apply Nat.eqb_neq in Hne. rewrite Hne. apply IH. exact H.
Qed.

(** X2. A node that no edge touches receives the zero row: on an
    in-range edge index [forward] returns, row [j] of [x2y] is zero when no
    edge ends in [j], and row [i] of [y2x] is zero when no edge starts from
    [i].  In particular both outputs are zero when there is no edge. *)
Theorem forward_isolated_node_gets_zero_row (x y : matrix) (ei : edge_index_t) :
  edges_in_range (size0 x) (size0 y) ei ->
  exists y2x x2y,
    BipartiteLightGCN.forward x y ei = Ok (y2x, x2y) /\
    (forall j, j < size0 y -> deg_count (map snd ei) j = 0 ->
       nth_error (rows x2y) j = Some (zeros (width x))) /\
    (forall i, i < size0 x -> deg_count (map fst ei) i = 0 ->
       nth_error (rows y2x) i = Some (zeros (width y))).
Proof.
  intros R.
  destruct (forward_spec x y ei R) as (norm & x2y & y2x & _ & Ln & Px & Py & F).
  exists y2x, x2y. split; [exact F|].
  destruct (propagate_spec ei (size0 x) (size0 y) x norm eq_refl R Ln)
    as (o1 & E1 & _ & _ & R1).
  assert (Ln' : List.length norm = List.length (flip0 ei))
    by (rewrite length_flip0; exact Ln).
  destruct (propagate_spec (flip0 ei) (size0 y) (size0 x) y norm eq_refl
              (edges_in_range_flip _ _ _ R) Ln')
    as (o2 & E2 & _ & _ & R2).
  rewrite Px in E1. rewrite Py in E2. injection E1 as <-. injection E2 as <-.
  split.
  - intros j Hj Hd. rewrite (R1 j Hj), neighbours_isolated by exact Hd. reflexivity.
  - intros i Hi Hd. rewrite (R2 i Hi), neighbours_isolated; [reflexivity|].
    rewrite map_snd_flip0. exact Hd.
Qed.

(** A graph with an isolated node on each side: the second row of each
    output is zero. *)
Lemma forward_isolated_node_example :
  edges_in_range (size0 toy_x) (size0 toy_y) [(0, 0)] /\
  exists y2x x2y,
    BipartiteLightGCN.forward toy_x toy_y [(0, 0)] = Ok (y2x, x2y) /\
    nth_error (rows x2y) 1 = Some (zeros (width toy_x)) /\
    nth_error (rows y2x) 1 = Some (zeros (width toy_y)).
Proof.
  assert (R : edges_in_range (size0 toy_x) (size0 toy_y) [(0, 0)]).
  { unfold edges_in_range, size0. simpl. repeat constructor. }
  split; [exact R|].
  destruct (forward_isolated_node_gets_zero_row toy_x toy_y [(0, 0)] R)
    as (y2x & x2y & F & Hy & Hx).
  exists y2x, x2y. split; [exact F|]. split.
  - apply Hy; [unfold size0; simpl; lia | reflexivity].
  - apply Hx; [unfold size0; simpl; lia | reflexivity].
Defined.

(** ** Starting a run: the command line *)

(** X4. Started without [--resume], [train] begins at epoch 0 with empty
    loss histories, whatever the checkpoint holds.  When a checkpoint is
    given, the run keeps the checkpoint's configuration and model and the
    dataset built from it, while the optimizer, the scheduler and the scaler
    are the ones [create_optimizer_scheduler_scaler] builds anew from that
    configuration and model, the end epoch is the configuration's
    [train.epochs], and the writer is opened on a [train_<n>] directory of
    the configuration's [logdir] (after a first writer was opened on the
    checkpoint's own log directory). *)
Theorem start_without_resume_is_fresh (blob : Type) (E : collab blob)
  (args : Train.namespace) (w w' : world blob) (start : Z) (r : Train.run) :
  Train.args_resume args = false ->
  Train.train_setup blob E args w = (Ok (start, r), w') ->
  start = 0%Z /\
  Train.epoch r = PyInt 0 /\
  Train.train_losses r = PyList [] /\ Train.val_losses r = PyList [] /\
  forall path, Train.args_checkpoint args = Some path ->
    exists r0 w0 w1 logdir train_config n,
      Train.init_from_checkpoint blob E path w = (Ok r0, w0) /\
      Train.config r = Train.config r0 /\
      Train.data r = Train.data r0 /\
      model (Train.objs r) = model (Train.objs r0) /\
      Utils.create_optimizer_scheduler_scaler blob E (Train.config r0)
        (model (Train.objs r0)) w0
      = (Ok (optimizer (Train.objs r), scheduler (Train.objs r),
             scaler (Train.objs r)), w1) /\
      getitem (Train.config r0) "logdir" = Ok (PyStr logdir) /\
      log_dir (Train.writer r) = os_path_join logdir ("train_" ++ str_of_nat n) /\
      getitem (Train.config r0) "train" = Ok train_config /\
      getitem train_config "epochs" = Ok (Train.end_epoch r) /\
      exists evs,
        trace w' = (trace w ++ [EvTorchLoad path;
                                EvSummaryWriter (log_dir (Train.writer r0))]
                    ++ evs ++ [EvSummaryWriter (log_dir (Train.writer r))])%list.
Proof.
  intros Hres H. destruct args as [cfg ckpt resume]. cbn in Hres. subst resume.
  unfold Train.train_setup in H.
  cbn [Train.args_checkpoint Train.args_resume Train.args_config negb] in H.
  destruct ckpt as [path|].
  - bind_step H loaded w0 Hl. bind_step Hl r0 w0' Hinit.
    apply mret_ok_inv in Hl. destruct Hl as (-> & ->).
    bind_step H r1 w1 Hr. bind_step H st w2 Hst.
    apply mret_ok_inv in Hst. destruct Hst as (-> & ->).
    apply mret_ok_inv in H. destruct H as (H & ->). injection H as -> ->.
    bind_step Hr oss w3 Hoss. destruct oss as [[o s] sc].
    lift_step Hr ld Hld. bind_step Hr entries w4 Hls.
    bind_step Hr wr w5 Hwr. lift_step Hr ee Hee.
    apply mret_ok_inv in Hr. destruct Hr as (-> & ->).
    cbn [Train.epoch Train.train_losses Train.val_losses].
    split; [reflexivity|]. split; [reflexivity|]. split; [reflexivity|].
    split; [reflexivity|].
    intros p Hp. injection Hp as <-.
    apply rbind_ok_inv in Hld. destruct Hld as (ldv & Hldv & Hstr).
    destruct ldv; try discriminate Hstr. injection Hstr as ->.
    apply rbind_ok_inv in Hee. destruct Hee as (tc & Htc & Hep).
    pose proof (SummaryWriter_spec blob _ _ _ _ Hwr) as (-> & Htr5).
    destruct (init_from_checkpoint_inv blob E path w w0' r0 Hinit)
      as (_ & _ & _ & _ & _ & _ & _ & _ & _ & _ & _ & _ & Htr0).
    exists r0, w0', w3, ld, tc, (List.length entries).
    cbn [Train.config Train.data Train.objs Train.writer Train.end_epoch
         model optimizer scheduler scaler log_dir].
    split; [exact Hinit|]. split; [reflexivity|]. split; [reflexivity|].
    split; [reflexivity|]. split; [exact Hoss|]. split; [exact Hldv|].
    split; [reflexivity|]. split; [exact Htc|]. split; [exact Hep|].
    assert (Hext : exists evs, trace w3 = (trace w0' ++ evs)%list).
    { clear - Hoss. revert Hoss.
      unfold Utils.create_optimizer_scheduler_scaler. intros H.
      lift_step H a1 H1. lift_step H a2 H2. lift_step H a3 H3.
      lift_step H a4 H4. lift_step H a5 H5. lift_step H a6 H6.
      lift_step H a7 H7. bind_step H u1 wa1 He1.
      unfold emit in He1. injection He1 as _ <-.
      lift_step H hs Hhs.
      bind_step H sch wa2 Hsch. lift_step H ua Hua. lift_step H amp Hamp.
      bind_step H scl wa3 Hscl. apply mret_ok_inv in H. destruct H as (_ & ->).
      assert (Hs : exists e1, trace wa2 = (trace w0' ++ EvConstruct (Utils.path_text a3) :: e1)%list).
      { destruct hs.
        - lift_step Hsch b1 G1. lift_step Hsch b2 G2. lift_step Hsch b3 G3.
          lift_step Hsch b4 G4. lift_step Hsch b5 G5. lift_step Hsch b6 G6.
          bind_step Hsch u2 wb He2. unfold emit in He2. injection He2 as _ <-.
          apply mret_ok_inv in Hsch. destruct Hsch as (_ & ->).
          cbn [trace]. rewrite <- app_assoc. eexists. reflexivity.
        - apply mret_ok_inv in Hsch. destruct Hsch as (_ & ->).
          cbn [trace]. exists []. reflexivity. }
      destruct Hs as (e1 & Hs).
      destruct amp.
      - lift_step Hscl gsc K1. bind_step Hscl u3 wc He3.
        unfold emit in He3. injection He3 as _ <-.
        apply mret_ok_inv in Hscl. destruct Hscl as (_ & ->).
        cbn [trace]. rewrite Hs, <- app_assoc. eexists. reflexivity.
      - apply mret_ok_inv in Hscl. destruct Hscl as (_ & ->).
        rewrite Hs. eexists. reflexivity. }
    destruct Hext as (evs & Hext).
    assert (Hw4 : w4 = w3).
    { unfold os_listdir in Hls.
      destruct (fs_lookup (files w3) ld) as [[| | |]|]; try discriminate Hls;
        injection Hls as _ <-; reflexivity. }
    subst w4. exists evs. rewrite Htr5, Hext, Htr0.
    rewrite <- !app_assoc. reflexivity.
  - bind_step H loaded w0 Hl. apply mret_ok_inv in Hl. destruct Hl as (-> & ->).
    bind_step H r1 w1 Hr. bind_step H st w2 Hst.
    apply mret_ok_inv in Hst. destruct Hst as (-> & ->).
    apply mret_ok_inv in H. destruct H as (H & ->). injection H as -> ->.
    destruct (init_ok_inv blob E _ _ _ _ Hr) as (He & Htl & Hvl).
    split; [reflexivity|]. split; [exact He|]. split; [exact Htl|].
    split; [exact Hvl|]. intros p Hp. discriminate Hp.
Qed.

(** The toy checkpoint of epoch 2, started again without [--resume]. *)
Lemma start_without_resume_toy :
  let args := Train.Namespace "config.yaml" (Some "runs/train_0/last.pt"%string) false in
  exists r w',
    (Train.args_resume args = false /\
     Train.train_setup pyval Toy.toy_collab args
       (Toy.toy_world_with_checkpoint Toy.other_model) = (Ok (0%Z, r), w')) /\
    Train.epoch r = PyInt 0 /\ Train.train_losses r = PyList [] /\
    log_dir (Train.writer r) = "runs/train_1"%string.
Proof.
  cbv zeta. eexists. eexists.
  match goal with
  | |- (?P1 /\ ?P2) /\ _ =>
      assert (H1 : P1) by reflexivity;
      assert (H2 : P2) by (vm_compute; reflexivity)
  end.
  split; [split; assumption|].
  destruct (start_without_resume_is_fresh pyval Toy.toy_collab _ _ _ _ _ H1 H2)
    as (_ & He & Hl & _).
  split; [exact He|]. split; [exact Hl|]. reflexivity.
Defined.

(** X5. [--resume] without [--checkpoint] never trains: [train] runs the
    whole of [init] (reading the configuration, building the dataset, the
    model and the optimizer, and opening a new log directory) and then
    raises the value error, unless [init] itself raised. *)
Theorem resume_without_checkpoint_raises (blob : Type) (E : collab blob)
  (config_path : string) (w : world blob) :
  Train.train blob E (Train.Namespace config_path None true) w =
  (rbind (fst (Train.init blob E None w)) (fun _ => Raise ValueError),
   snd (Train.init blob E None w)).
Proof.
  unfold Train.train, Train.train_setup.
  cbn [Train.args_checkpoint Train.args_resume Train.args_config negb].
  unfold mbind, mret, mraise.
  change (Train.init blob E (Some config_path) w) with (Train.init blob E None w).
  destruct (Train.init blob E None w) as [[r|e] w0]; reflexivity.
Qed.

(** X6. A checkpoint path that names no file: [train] raises the
    file-not-found error at the load, whatever the other options; no writer
    is opened and no file is written. *)
Theorem train_missing_checkpoint_file (blob : Type) (E : collab blob)
  (config_path path : string) (resume : bool) (w : world blob) :
  fs_lookup (files w) path = None ->
  Train.train blob E (Train.Namespace config_path (Some path) resume) w =
  (Raise FileNotFoundError, World (files w) (trace w ++ [EvTorchLoad path])).
Proof.
  intros Hnone. unfold Train.train, Train.train_setup.
  cbn [Train.args_checkpoint].
  unfold Train.init_from_checkpoint, Utils.load_checkpoint.
  unfold mbind at 1. unfold mbind at 1. unfold mbind at 1. unfold mbind at 1.
  rewrite torch_load_spec, Hnone. reflexivity.
Qed.

Lemma train_missing_checkpoint_toy :
  fs_lookup (files Toy.toy_world) "runs/train_9/last.pt" = None /\
  Train.train pyval Toy.toy_collab
    (Train.Namespace "config.yaml" (Some "runs/train_9/last.pt"%string) true)
    Toy.toy_world =
  (Raise FileNotFoundError,
   World (files Toy.toy_world) [EvTorchLoad "runs/train_9/last.pt"]).
Proof.
  split; [reflexivity|].
  apply (train_missing_checkpoint_file pyval Toy.toy_collab "config.yaml"
           "runs/train_9/last.pt" true Toy.toy_world).
  reflexivity.
Defined.

(** X7. Resuming a run that had finished: when the checkpoint's epoch is
    the last one of its range ([epoch + 1 >= end_epoch]), [train] returns
    without running an epoch; it has only loaded the checkpoint and opened
    the writer, and saves nothing. *)
Theorem resume_finished_run_trains_nothing (blob : Type) (E : collab blob)
  (config_path path : string) (w w1 : world blob) (r : Train.run) (n stop : Z) :
  Train.init_from_checkpoint blob E path w = (Ok r, w1) ->
  Train.epoch r = PyInt n ->
  Train.end_epoch r = PyInt stop ->
  (stop <= n + 1)%Z ->
  Train.train blob E (Train.Namespace config_path (Some path) true) w = (Ok tt, w1) /\
  trace w1 = (trace w ++ [EvTorchLoad path;
                          EvSummaryWriter (log_dir (Train.writer r))])%list.
Proof.
  intros Hinit Hep Hend Hle.
  destruct (init_from_checkpoint_inv blob E path w w1 r Hinit)
    as (_ & _ & _ & _ & _ & _ & _ & _ & _ & _ & _ & _ & Htr).
  split; [|exact Htr].
  unfold Train.train, Train.train_setup.
  cbn [Train.args_checkpoint Train.args_resume negb].
  unfold mbind at 1. unfold mbind at 1. unfold mbind at 1. unfold mbind at 1.
  rewrite Hinit. cbn. rewrite Hep. cbn.
  unfold Train.train_loop, mbind, lift. rewrite Hend. unfold Train.py_range.
  replace (Z.to_nat (stop - (n + 1))) with 0 by lia. reflexivity.
Qed.

Lemma resume_finished_run_toy :
  exists r w1,
    (Train.init_from_checkpoint pyval Toy.toy_collab "runs/train_0/last.pt"
       Toy.toy_world_finished = (Ok r, w1) /\
     Train.epoch r = PyInt 4 /\ Train.end_epoch r = PyInt 5 /\ (5 <= 4 + 1)%Z) /\
    Train.train pyval Toy.toy_collab
      (Train.Namespace "config.yaml" (Some "runs/train_0/last.pt"%string) true)
      Toy.toy_world_finished = (Ok tt, w1) /\
    saved_paths (trace w1) = [].
Proof.
  eexists. eexists.
  match goal with
  | |- (?P1 /\ ?P2 /\ ?P3 /\ ?P4) /\ _ =>
      assert (H1 : P1) by (vm_compute; reflexivity);
      assert (H2 : P2) by reflexivity;
      assert (H3 : P3) by reflexivity;
      assert (H4 : P4) by lia
  end.
  split; [repeat split; assumption|].
  destruct (resume_finished_run_trains_nothing pyval Toy.toy_collab "config.yaml"
              _ _ _ _ _ _ H1 H2 H3 H4) as (Ht & Htr).
  split; [exact Ht|]. rewrite Htr. reflexivity.
Defined.

(** ** The optimizer, the scheduler and the scaler *)

(** X8. What [create_optimizer_scheduler_scaler] returns for the parts a
    configuration may leave out.  The optimizer class is called on the
    model; when the training section has a ["scheduler"] entry the scheduler
    class is called on that new optimizer, and otherwise the scheduler is
    [None]; the scaler is a new [GradScaler] when the ["amp"] entry is
    present and true, and [None] otherwise.  Only what is built is
    constructed, in this order, and the file system is left as it was. *)
Theorem optimizer_setup_optional_parts (blob : Type) (E : collab blob)
  (config_yaml model : pyval) (w w' : world blob) (o s sc : pyval) :
  Utils.create_optimizer_scheduler_scaler blob E config_yaml model w
    = (Ok (o, s, sc), w') ->
  exists training_config optimizer_class optimizer_params optimizer_type
         has_scheduler scheduler_type use_amp amp_on,
    getitem config_yaml "train" = Ok training_config /\
    py_call E optimizer_class [model] optimizer_params = Ok o /\
    contains "scheduler" training_config = Ok has_scheduler /\
    (if has_scheduler
     then exists scheduler_class scheduler_params,
            py_call E scheduler_class [o] scheduler_params = Ok s
     else s = PyNone) /\
    get training_config "amp" (PyBool false) = Ok use_amp /\
    truthy use_amp = Ok amp_on /\
    (if amp_on then GradScaler E = Ok sc else sc = PyNone) /\
    files w' = files w /\
    trace w' =
      (trace w ++ EvConstruct optimizer_type
         :: (if has_scheduler then [EvConstruct scheduler_type] else [])
         ++ (if amp_on then [EvConstruct "torch.amp.GradScaler"] else []))%list.
Proof.
  unfold Utils.create_optimizer_scheduler_scaler. intros H.
  lift_step H tc Htc. lift_step H oc Hoc. lift_step H ot Hot.
  lift_step H ocl Hocl. lift_step H oc' Hoc'. lift_step H op Hop.
  lift_step H opt Hopt. bind_step H u1 w1 He1.
  unfold emit in He1. injection He1 as _ <-.
  lift_step H hs Hhs. bind_step H sch w2 Hsch.
  lift_step H ua Hua. lift_step H amp Hamp.
  bind_step H scl w3 Hscl. apply mret_ok_inv in H. destruct H as (H & ->).
  injection H as <- <- <-.
  assert (Hs : exists st,
             (if hs then exists scls spar, py_call E scls [o] spar = Ok s
              else s = PyNone) /\
             files w2 = files w /\
             trace w2 = (trace w ++ EvConstruct (Utils.path_text ot)
                           :: (if hs then [EvConstruct st] else []))%list).
  { destruct hs.
    - lift_step Hsch b1 G1. lift_step Hsch b2 G2. lift_step Hsch b3 G3.
      lift_step Hsch b4 G4. lift_step Hsch b5 G5. lift_step Hsch b6 G6.
      bind_step Hsch u2 wb He2. unfold emit in He2. injection He2 as _ <-.
      apply mret_ok_inv in Hsch. destruct Hsch as (-> & ->).
      exists (Utils.path_text b2). cbn [trace files].
      split; [exists b3, b5; exact G6|]. split; [reflexivity|].
      rewrite <- app_assoc. reflexivity.
    - apply mret_ok_inv in Hsch. destruct Hsch as (-> & ->).
      exists EmptyString. cbn [trace files]. auto. }
  destruct Hs as (st & Hsv & Hf2 & Ht2).
  exists tc, ocl, op, (Utils.path_text ot), hs, st, ua, amp.
  split; [exact Htc|]. split; [exact Hopt|]. split; [exact Hhs|].
  split; [exact Hsv|]. split; [exact Hua|]. split; [exact Hamp|].
  destruct amp.
  - lift_step Hscl gsc K1. bind_step Hscl u3 wc He3.
    unfold emit in He3. injection He3 as _ <-.
    apply mret_ok_inv in Hscl. destruct Hscl as (-> & ->).
    cbn [trace files]. split; [exact K1|]. split; [exact Hf2|].
    rewrite Ht2, <- app_assoc. reflexivity.
  - apply mret_ok_inv in Hscl. destruct Hscl as (-> & ->).
    split; [reflexivity|]. split; [exact Hf2|].
    rewrite Ht2, app_nil_r. reflexivity.
Qed.

(** The toy configuration has a scheduler and no ["amp"] entry. *)
Lemma optimizer_setup_toy :
  exists o s w',
    Utils.create_optimizer_scheduler_scaler pyval Toy.toy_collab (Toy.toy_config 1)
      Toy.other_model Toy.toy_world = (Ok (o, s, PyNone), w') /\
    files w' = files Toy.toy_world /\
    exists optimizer_type scheduler_type,
      trace w' = [EvConstruct optimizer_type; EvConstruct scheduler_type].
Proof.
  eexists. eexists. eexists.
  match goal with
  | |- ?P1 /\ _ => assert (H1 : P1) by (vm_compute; reflexivity)
  end.
  split; [exact H1|].
  destruct (optimizer_setup_optional_parts pyval Toy.toy_collab _ _ _ _ _ _ _ H1)
    as (tc & ocl & op & ot & hs & st & ua & amp & Htc & _ & Hhs & _ & Hua & Hamp
        & _ & Hf & Ht).
  split; [exact Hf|].
  injection Htc as <-. injection Hhs as <-. injection Hua as <-.
  injection Hamp as <-.
  exists ot, st. exact Ht.
Defined.

(** X9. [train] needs a scheduler although the configuration may omit
    it: when the scheduler is [None] after the training step of the first
    epoch, [scheduler.step()] raises the attribute error, the loop stops
    there, and nothing has been evaluated, saved or logged. *)
Theorem train_loop_without_scheduler_raises (blob : Type) (E : collab blob)
  (r : Train.run) (start_epoch e : Z) (rest : list Z) (w : world blob)
  (tloss : pyval) (t : trainer) :
  Train.py_range start_epoch (Train.end_epoch r) = Ok (e :: rest) ->
  Train.train_step blob E (Train.objs r) (trainloader (Train.data r)) = Ok (tloss, t) ->
  scheduler t = PyNone ->
  Train.train_loop blob E start_epoch r w = (Raise AttributeError, w).
Proof.
  intros Hrange Hstep Hnone.
  unfold Train.train_loop, mbind, lift. rewrite Hrange. cbn [for_each].
  unfold mbind, Train.epoch_body, mbind, lift, Train.epoch_compute.
  cbn [Train.cur]. rewrite Hstep. cbn [rbind]. rewrite Hnone. reflexivity.
Qed.

Lemma train_loop_without_scheduler_toy :
  exists tloss t w,
    (Train.py_range 0 (Train.end_epoch Toy.toy_run_without_scheduler)
       = Ok [0; 1; 2; 3; 4]%Z /\
     Train.train_step pyval Toy.toy_collab
       (Train.objs Toy.toy_run_without_scheduler)
       (trainloader (Train.data Toy.toy_run_without_scheduler)) = Ok (tloss, t) /\
     scheduler t = PyNone) /\
    Train.train_loop pyval Toy.toy_collab 0 Toy.toy_run_without_scheduler w
      = (Raise AttributeError, w).
Proof.
  eexists. eexists. exists Toy.toy_world.
  match goal with
  | |- (?P1 /\ ?P2 /\ ?P3) /\ _ =>
      assert (H1 : P1) by reflexivity;
      assert (H2 : P2) by (vm_compute; reflexivity);
      assert (H3 : P3) by reflexivity
  end.
  split; [repeat split; assumption|].
  exact (train_loop_without_scheduler_raises pyval Toy.toy_collab _ _ _ _ _ _ _
           H1 H2 H3).
Defined.

(** ** The epoch loop: what the files hold *)

Section LoopMore.
Variable blob : Type.
Variable E : collab blob.

Lemma trainer_eta (t : trainer) :
  Trainer (model t) (optimizer t) (scheduler t) (scaler t) = t.
Proof. destruct t. reflexivity. Qed.

Lemma writer_eta (wr : summary_writer) : Writer (log_dir wr) = wr.
Proof. destruct wr. reflexivity. Qed.

Lemma epoch_record_fields (r : Train.run) (s : Train.loop_state) (e : Z)
  (res : Train.epoch_results) :
  let ckpt := epoch_record r s e res in
  getitem ckpt "config" = Ok (Train.config r) /\
  getitem ckpt "model" = Ok (model (Train.cur s)) /\
  getitem ckpt "optimizer" = Ok (optimizer (Train.cur s)) /\
  getitem ckpt "scheduler" = Ok (scheduler (Train.cur s)) /\
  getitem ckpt "scaler" = Ok (scaler (Train.cur s)) /\
  getitem ckpt "log_dir" = Ok (PyStr (log_dir (Train.writer r))) /\
  getitem ckpt "epoch" = Ok (PyInt e) /\
  getitem ckpt "end_epoch" = Ok (Train.end_epoch r) /\
  getitem ckpt "train_losses" = Ok (Train.cur_train_losses s) /\
  getitem ckpt "val_losses" = Ok (Train.cur_val_losses s) /\
  getitem ckpt "val_loss" = Ok (Train.val_loss res).
Proof. cbv zeta. repeat split. Qed.

(** One epoch either leaves [best.pt] and the best loss as they were, or
    writes the epoch's record to [best.pt] and takes its validation loss as
    the best one. *)
Lemma epoch_body_best_step (r : Train.run) (s s' : Train.loop_state) (e : Z)
  (w w' : world blob) :
  Train.epoch_body blob E r s e w = (Ok s', w') ->
  let best := os_path_join (log_dir (Train.writer r)) "best.pt" in
  (Train.best_val_loss s' = Train.best_val_loss s /\
   fs_lookup (files w') best = fs_lookup (files w) best) \/
  (exists res s2,
     fs_lookup (files w') best = Some (PickleFile (pickle E (epoch_record r s2 e res))) /\
     Train.best_val_loss s' = Train.val_loss res).
Proof.
  intros H best.
  destruct (epoch_body_ok_inv blob E r s s' e w w' H) as (res & s2 & b & Hc & Hlt & Hs').
  destruct (epoch_body_saves blob E r s s2 e res w Hc
              (epoch_body_ok_parent blob E r s s' e w w' H)) as (_ & _ & Hbest).
  rewrite H in Hbest. cbn [snd] in Hbest. unfold improves in Hbest.
  rewrite Hlt in Hbest.
  destruct (epoch_compute_inv blob E r s s2 res Hc) as (_ & _ & _ & Hsame).
  destruct b; subst s'.
  - right. exists res, s2. split; [exact Hbest|]. reflexivity.
  - left. split; [exact Hsame | exact Hbest].
Qed.

Lemma for_each_snoc_inv {A S} (body : S -> A -> M blob S) (l : list A) (a : A)
  (s s1 : S) (w w1 : world blob) :
  for_each body (l ++ [a]) s w = (Ok s1, w1) ->
  exists s' w', for_each body l s w = (Ok s', w') /\ body s' a w' = (Ok s1, w1).
Proof.
  rewrite for_each_app. intros H.
  apply mbind_ok_inv in H. destruct H as (s' & w' & Hl & H).
  exists s', w'. split; [exact Hl|].
  cbn [for_each] in H. apply mbind_ok_inv in H. destruct H as (s2 & w2 & Hb & H).
  apply mret_ok_inv in H. destruct H as (-> & ->). exact Hb.
Qed.

Lemma epoch_compute_histories (r : Train.run) (s s2 : Train.loop_state)
  (res : Train.epoch_results) :
  Train.epoch_compute blob E r s = Ok (res, s2) ->
  exists tl vl a b,
    Train.cur_train_losses s = PyList tl /\
    Train.cur_val_losses s = PyList vl /\
    Train.cur_train_losses s2 = PyList (tl ++ [a]) /\
    Train.cur_val_losses s2 = PyList (vl ++ [b]).
Proof.
  unfold Train.epoch_compute. intros H.
  apply rbind_ok_inv in H. destruct H as ([tloss t] & _ & H).
  apply rbind_ok_inv in H. destruct H as (t' & _ & H).
  apply rbind_ok_inv in H. destruct H as ([[vloss vacc] vf1] & _ & H).
  apply rbind_ok_inv in H. destruct H as (tl & _ & H).
  apply rbind_ok_inv in H. destruct H as (tls & Htls & H).
  apply rbind_ok_inv in H. destruct H as (vl & _ & H).
  apply rbind_ok_inv in H. destruct H as (vls & Hvls & H).
  injection H as <- <-. cbn [Train.cur_train_losses Train.cur_val_losses].
  unfold Train.py_append in Htls, Hvls.
  destruct (Train.cur_train_losses s) as [| | | | | | |ti| |]; try discriminate Htls.
  destruct (Train.cur_val_losses s) as [| | | | | | |vi| |]; try discriminate Hvls.
  injection Htls as <-. injection Hvls as <-.
  exists ti, vi, tl, vl. auto.
Qed.

Lemma epoch_body_histories (r : Train.run) (s s' : Train.loop_state) (e : Z)
  (w w' : world blob) :
  Train.epoch_body blob E r s e w = (Ok s', w') ->
  exists tl vl a b,
    Train.cur_train_losses s = PyList tl /\
    Train.cur_val_losses s = PyList vl /\
    Train.cur_train_losses s' = PyList (tl ++ [a]) /\
    Train.cur_val_losses s' = PyList (vl ++ [b]).
Proof.
  intros H.
  destruct (epoch_body_ok_inv blob E r s s' e w w' H) as (res & s2 & b & Hc & _ & Hs').
  destruct (epoch_compute_histories r s s2 res Hc) as (tl & vl & x & y & H1 & H2 & H3 & H4).
  exists tl, vl, x, y. destruct b; subst s'; auto.
Qed.

End LoopMore.

(** X10. What [best.pt] holds.  When the epoch loop has run the epochs
    [es] and returned, either no epoch improved on the best loss, and then
    the best loss and the file [best.pt] are as they were before the loop;
    or [best.pt] holds a checkpoint of one of these epochs whose validation
    loss is the best loss the loop ended with. *)
Theorem best_checkpoint_holds_best_loss (blob : Type) (E : collab blob)
  (r : Train.run) (es : list Z) (s0 s1 : Train.loop_state) (w w1 : world blob) :
  for_each (Train.epoch_body blob E r) es s0 w = (Ok s1, w1) ->
  let best := os_path_join (log_dir (Train.writer r)) "best.pt" in
  (Train.best_val_loss s1 = Train.best_val_loss s0 /\
   fs_lookup (files w1) best = fs_lookup (files w) best) \/
  (exists ckpt e,
     In e es /\
     fs_lookup (files w1) best = Some (PickleFile (pickle E ckpt)) /\
     getitem ckpt "epoch" = Ok (PyInt e) /\
     getitem ckpt "val_loss" = Ok (Train.best_val_loss s1)).
Proof.
  intros H best. revert s1 w1 H.
  induction es as [|e es IH] using rev_ind; intros s1 w1 H.
  - cbn [for_each] in H. apply mret_ok_inv in H. destruct H as (-> & ->).
    left. split; reflexivity.
  - apply for_each_snoc_inv in H. destruct H as (s' & w' & Hes & Hb).
    destruct (epoch_body_best_step blob E r s' s1 e w' w1 Hb)
      as [[Hsame Hfile] | (res & s2 & Hfile & Hval)].
    + destruct (IH s' w' Hes) as [[Hs Hf] | (ckpt & e0 & Hin & Hf & He & Hv)].
      * left. split; [rewrite Hsame; exact Hs | fold best in Hfile; rewrite Hfile; exact Hf].
      * right. exists ckpt, e0. split; [apply in_or_app; left; exact Hin|].
        split; [fold best in Hfile; rewrite Hfile; exact Hf|].
        split; [exact He|]. rewrite Hsame. exact Hv.
    + right. exists (epoch_record r s2 e res), e.
      split; [apply in_or_app; right; left; reflexivity|].
      split; [exact Hfile|]. split; [reflexivity|].
      rewrite Hval. reflexivity.
Qed.

(** X11. The two loss histories grow together, by one entry for each
    epoch: after a loop over the epochs [es] (at least one), both histories
    of the loop state are the lists the loop started with, each followed by
    as many new entries as there are epochs. *)
Theorem histories_grow_by_one_per_epoch (blob : Type) (E : collab blob)
  (r : Train.run) (e : Z) (es : list Z) (s0 s1 : Train.loop_state)
  (w w1 : world blob) :
  for_each (Train.epoch_body blob E r) (e :: es) s0 w = (Ok s1, w1) ->
  exists tl vl new_tl new_vl,
    Train.cur_train_losses s0 = PyList tl /\
    Train.cur_val_losses s0 = PyList vl /\
    Train.cur_train_losses s1 = PyList (tl ++ new_tl) /\
    Train.cur_val_losses s1 = PyList (vl ++ new_vl) /\
    List.length new_tl = S (List.length es) /\
    List.length new_vl = S (List.length es).
Proof.
  revert e s0 w. induction es as [|e' es IH]; intros e s0 w H.
  - cbn [for_each] in H. apply mbind_ok_inv in H. destruct H as (s' & w' & Hb & H).
    apply mret_ok_inv in H. destruct H as (<- & <-).
    destruct (epoch_body_histories blob E r s0 s1 e w w1 Hb)
      as (tl & vl & a & b & H1 & H2 & H3 & H4).
    exists tl, vl, [a], [b]. auto 10.
  - change (for_each (Train.epoch_body blob E r) (e :: e' :: es) s0 w)
      with (mbind (Train.epoch_body blob E r s0 e)
                  (for_each (Train.epoch_body blob E r) (e' :: es)) w) in H.
    apply mbind_ok_inv in H. destruct H as (s' & w' & Hb & H).
    destruct (epoch_body_histories blob E r s0 s' e w w' Hb)
      as (tl & vl & a & b & H1 & H2 & H3 & H4).
    destruct (IH e' s' w' H) as (tl' & vl' & nt & nv & G1 & G2 & G3 & G4 & L1 & L2).
    rewrite H3 in G1. injection G1 as <-. rewrite H4 in G2. injection G2 as <-.
    exists tl, vl, (a :: nt), (b :: nv).
    rewrite <- !app_assoc in G3, G4. cbn [app] in G3, G4.
    cbn [List.length]. auto 10.
Qed.

(** X12. A run can be resumed from the [last.pt] it has just written.
    When the loop has completed the epochs up to [e], the serialiser reads
    back what it wrote, the dataset can be built again from the
    configuration, and the log directory is there, [init_from_checkpoint] on
    [last.pt] returns the run as the loop left it: the same configuration,
    the four objects of the loop state, the same writer directory, epoch [e],
    the same end epoch and the two histories of the loop state.  [train] with
    [--resume] then starts at epoch [e + 1]. *)
Theorem resume_restores_loop_state (blob : Type) (E : collab blob)
  (r : Train.run) (es : list Z) (e : Z) (s0 s1 : Train.loop_state)
  (w w1 : world blob) (data_config : pyval) (ds : dataset) (config_path : string) :
  (forall v, unpickle E (pickle E v) = Ok v) ->
  for_each (Train.epoch_body blob E r) (es ++ [e]) s0 w = (Ok s1, w1) ->
  getitem (Train.config r) "data" = Ok data_config ->
  MyHeteroData E data_config = Ok ds ->
  fs_lookup (files w1) (log_dir (Train.writer r)) = Some Dir ->
  let last := os_path_join (log_dir (Train.writer r)) "last.pt" in
  let resumed := Train.Run (Train.config r) ds (Train.cur s1) (Train.writer r)
                   (PyInt e) (Train.end_epoch r)
                   (Train.cur_train_losses s1) (Train.cur_val_losses s1) in
  let w2 := World (files w1)
              (trace w1 ++ [EvTorchLoad last;
                            EvSummaryWriter (log_dir (Train.writer r))]) in
  Train.init_from_checkpoint blob E last w1 = (Ok resumed, w2) /\
  Train.train_setup blob E (Train.Namespace config_path (Some last) true) w1
    = (Ok ((e + 1)%Z, resumed), w2).
Proof.
  intros Hrt H Hdc Hds Hdir last resumed w2.
  apply for_each_snoc_inv in H. destruct H as (s' & w' & _ & Hb).
  destruct (epoch_body_ok_inv blob E r s' s1 e w' w1 Hb) as (res & s2 & b & Hc & _ & Hs1).
  destruct (epoch_body_saves blob E r s' s2 e res w' Hc
              (epoch_body_ok_parent blob E r s' s1 e w' w1 Hb)) as (_ & Hlast & _).
  rewrite Hb in Hlast. cbn [snd] in Hlast. fold last in Hlast.
  assert (Hcur : Train.cur s1 = Train.cur s2 /\
                 Train.cur_train_losses s1 = Train.cur_train_losses s2 /\
                 Train.cur_val_losses s1 = Train.cur_val_losses s2).
  { destruct b; subst s1; auto. }
  destruct Hcur as (Hcur & Htl & Hvl).
  assert (Hinit : Train.init_from_checkpoint blob E last w1 = (Ok resumed, w2)).
  { unfold Train.init_from_checkpoint, Utils.load_checkpoint.
    unfold mbind at 1. rewrite torch_load_spec, Hlast, Hrt.
    destruct (epoch_record_fields r s2 e res)
      as (F1 & F2 & F3 & F4 & F5 & F6 & F7 & F8 & F9 & F10 & _).
    unfold mbind, lift.
    rewrite F1, Hdc. cbn [rbind]. unfold Train.load_myheterodata. rewrite Hds.
    rewrite F2, F3, F4, F5, F6. cbn [rbind Train.as_str].
    unfold SummaryWriter, os_makedirs, mbind, emit, mret. cbn [files trace].
    rewrite Hdir. rewrite F7, F8, F9, F10.
    unfold resumed, w2. rewrite Hcur, Htl, Hvl.
    rewrite trainer_eta, writer_eta. cbn [files trace].
    rewrite <- app_assoc. reflexivity. }
  split; [exact Hinit|].
  unfold Train.train_setup. cbn [Train.args_checkpoint Train.args_resume negb].
  unfold mbind at 1. unfold mbind at 1. unfold mbind at 1.
  rewrite Hinit. reflexivity.
Qed.

(** The run resumed from the toy checkpoint completes epoch 3; the
    [last.pt] of that epoch resumes at epoch 4. *)
Lemma resume_restores_loop_state_toy :
  let r := Toy.toy_run Toy.other_model in
  let s0 := Train.LoopState (Train.objs r) (Train.train_losses r)
              (Train.val_losses r) (PyFloat PInf) in
  let w := Toy.toy_world_with_checkpoint Toy.other_model in
  exists s1 w1,
    ((forall v, unpickle Toy.toy_collab (pickle Toy.toy_collab v) = Ok v) /\
     for_each (Train.epoch_body pyval Toy.toy_collab r) ([] ++ [3%Z]) s0 w
       = (Ok s1, w1) /\
     getitem (Train.config r) "data" = Ok (PyDict []) /\
     MyHeteroData Toy.toy_collab (PyDict []) = Ok Toy.toy_dataset /\
     fs_lookup (files w1) (log_dir (Train.writer r)) = Some Dir) /\
    fst (Train.train_setup pyval Toy.toy_collab
           (Train.Namespace "config.yaml" (Some "runs/train_0/last.pt"%string) true) w1)
    = Ok (4%Z,
          Train.Run (Train.config r) Toy.toy_dataset (Train.cur s1) (Train.writer r)
            (PyInt 3) (Train.end_epoch r)
            (Train.cur_train_losses s1) (Train.cur_val_losses s1)).
Proof.
  intros r s0 w. eexists. eexists.
  match goal with
  | |- (?P1 /\ ?P2 /\ ?P3 /\ ?P4 /\ ?P5) /\ _ =>
      assert (H1 : P1) by (intros v; reflexivity);
      assert (H2 : P2) by (vm_compute; reflexivity);
      assert (H3 : P3) by reflexivity;
      assert (H4 : P4) by reflexivity;
      assert (H5 : P5) by reflexivity
  end.
  split; [repeat split; assumption|].
  destruct (resume_restores_loop_state pyval Toy.toy_collab r [] 3 s0 _ w _
              (PyDict []) Toy.toy_dataset "config.yaml" H1 H2 H3 H4 H5) as (_ & Hs).
  change (os_path_join (log_dir (Train.writer r)) "last.pt")
    with "runs/train_0/last.pt"%string in Hs.
  rewrite Hs. reflexivity.
Defined.

(** The epoch that follows the toy checkpoint improves on the best loss
    of the call, which starts at infinity: [best.pt] holds its checkpoint. *)
Lemma best_checkpoint_toy :
  let r := Toy.toy_run Toy.other_model in
  let s0 := Train.LoopState (Train.objs r) (Train.train_losses r)
              (Train.val_losses r) (PyFloat PInf) in
  let w := Toy.toy_world_with_checkpoint Toy.other_model in
  exists s1 w1,
    for_each (Train.epoch_body pyval Toy.toy_collab r) [3%Z] s0 w = (Ok s1, w1) /\
    ((Train.best_val_loss s1 = Train.best_val_loss s0 /\
      fs_lookup (files w1) "runs/train_0/best.pt" =
      fs_lookup (files w) "runs/train_0/best.pt") \/
     (exists ckpt e,
        In e [3%Z] /\
        fs_lookup (files w1) "runs/train_0/best.pt"
          = Some (PickleFile (pickle Toy.toy_collab ckpt)) /\
        getitem ckpt "epoch" = Ok (PyInt e) /\
        getitem ckpt "val_loss" = Ok (Train.best_val_loss s1))).
Proof.
  intros r s0 w. eexists. eexists.
  match goal with
  | |- ?P1 /\ _ => assert (H1 : P1) by (vm_compute; reflexivity)
  end.
  split; [exact H1|].
  exact (best_checkpoint_holds_best_loss pyval Toy.toy_collab r _ s0 _ w _ H1).
Defined.

Lemma histories_grow_toy :
  let r := Toy.toy_run Toy.other_model in
  let s0 := Train.LoopState (Train.objs r) (Train.train_losses r)
              (Train.val_losses r) (PyFloat PInf) in
  let w := Toy.toy_world_with_checkpoint Toy.other_model in
  exists s1 w1,
    for_each (Train.epoch_body pyval Toy.toy_collab r) [3%Z] s0 w = (Ok s1, w1) /\
    exists tl vl new_tl new_vl,
      Train.cur_train_losses s0 = PyList tl /\
      Train.cur_val_losses s0 = PyList vl /\
      Train.cur_train_losses s1 = PyList (tl ++ new_tl) /\
      Train.cur_val_losses s1 = PyList (vl ++ new_vl) /\
      List.length new_tl = 1 /\ List.length new_vl = 1.
Proof.
  intros r s0 w. eexists. eexists.
  match goal with
  | |- ?P1 /\ _ => assert (H1 : P1) by (vm_compute; reflexivity)
  end.
  split; [exact H1|].
  exact (histories_grow_by_one_per_epoch pyval Toy.toy_collab r 3 [] s0 _ w _ H1).
Defined.

Section Report.
Variable blob : Type.
Variable E : collab blob.

Lemma epoch_report_no_class (r : Train.run) (s : Train.loop_state) (e : Z)
  (res : Train.epoch_results) (tl vl : list pyval) (w : world blob) :
  Train.cur_train_losses s = PyList tl ->
  Train.cur_val_losses s = PyList vl ->
  Train.val_f1 res = PyDict [] ->
  parent_exists (files w)
    (os_path_join (log_dir (Train.writer r)) "loss_plot.png") = true ->
  fst (Train.epoch_report blob r s e res w) = Raise ZeroDivisionError.
Proof.
  intros Ht Hv Hf Hp. unfold Train.epoch_report, Utils.save_loss_plot.
  rewrite Ht, Hv, Hf. unfold mbind at 1. rewrite Hp.
  unfold mbind, write_file, emit, add_scalar, emit, lift. cbn. reflexivity.
Qed.

End Report.

(** X13. An evaluation that reports no class stops the run after the
    checkpoint is on disk: when the log directory exists and the F1
    dictionary of an epoch is empty, the epoch raises the division error at
    the average of the F1 scores, and by then [last.pt] holds the epoch's
    checkpoint (and [best.pt] too when the validation loss improved). *)
Theorem epoch_without_classes_fails_after_saving (blob : Type) (E : collab blob)
  (r : Train.run) (s s2 : Train.loop_state) (e : Z) (res : Train.epoch_results)
  (b : bool) (w : world blob) :
  Train.epoch_compute blob E r s = Ok (res, s2) ->
  Train.val_f1 res = PyDict [] ->
  py_lt (Train.val_loss res) (Train.best_val_loss s2) = Ok b ->
  fs_lookup (files w) (log_dir (Train.writer r)) = Some Dir ->
  let last := os_path_join (log_dir (Train.writer r)) "last.pt" in
  let best := os_path_join (log_dir (Train.writer r)) "best.pt" in
  exists w',
    Train.epoch_body blob E r s e w = (Raise ZeroDivisionError, w') /\
    fs_lookup (files w') last = Some (PickleFile (pickle E (epoch_record r s2 e res))) /\
    exists evs, trace w' = (trace w ++ evs)%list /\
                saved_paths evs = last :: (if b then [best] else []).
Proof.
  intros Hc Hf Hlt Hdir last best.
  assert (Hp : parent_exists (files w) last = true).
  { apply parent_exists_join; [reflexivity | apply dir_exists_recorded, Hdir]. }
  assert (Hplot : forall (fs : list (string * node blob)) n m,
            parent_exists (fs_write (fs_write fs last n) best m)
              (os_path_join (log_dir (Train.writer r)) "loss_plot.png") = true
            /\ parent_exists (fs_write fs last n)
                 (os_path_join (log_dir (Train.writer r)) "loss_plot.png") = true).
  { intros fs n m. split; apply parent_exists_written, dirname_join; reflexivity. }
  destruct (epoch_body_saves blob E r s s2 e res w Hc Hp) as (Hsaved & Hlast & _).
  unfold improves in Hsaved. rewrite Hlt in Hsaved.
  exists (snd (Train.epoch_body blob E r s e w)).
  split; [|split; [exact Hlast | exact Hsaved]].
  destruct (epoch_compute_histories blob E r s s2 res Hc)
    as (tl & vl & x & y & _ & _ & Ht & Hv).
  rewrite (epoch_body_spec blob E r s s2 e res w Hc Hp). rewrite Hlt.
  destruct b.
  - match goal with
    | |- mbind ?c ?k ?w1 = _ =>
        pose proof (epoch_report_no_class blob r (with_best s2 (Train.val_loss res))
                      e res _ _ w1 Ht Hv Hf (proj1 (Hplot _ _ _))) as Hr;
        unfold mbind;
        destruct (Train.epoch_report blob r (with_best s2 (Train.val_loss res)) e res w1)
          as [[u|ex] w3]
    end; cbn [fst] in Hr; [discriminate Hr|]. injection Hr as ->. reflexivity.
  - match goal with
    | |- mbind ?c ?k ?w1 = _ =>
        pose proof (epoch_report_no_class blob r s2 e res _ _ w1 Ht Hv Hf
                      (proj2 (Hplot _ _ (PickleFile (pickle E PyNone))))) as Hr;
        unfold mbind;
        destruct (Train.epoch_report blob r s2 e res w1) as [[u|ex] w3]
    end; cbn [fst] in Hr; [discriminate Hr|]. injection Hr as ->. reflexivity.
Qed.

Lemma epoch_without_classes_toy :
  let r := Toy.toy_run Toy.other_model in
  let s := Train.LoopState (Train.objs r) (Train.train_losses r)
             (Train.val_losses r) (PyFloat PInf) in
  exists res s2 w',
    (Train.epoch_compute pyval Toy.toy_collab_no_class r s = Ok (res, s2) /\
     Train.val_f1 res = PyDict [] /\
     py_lt (Train.val_loss res) (Train.best_val_loss s2) = Ok true /\
     fs_lookup (files (Toy.toy_world_with_checkpoint Toy.other_model))
       (log_dir (Train.writer r)) = Some Dir) /\
    Train.epoch_body pyval Toy.toy_collab_no_class r s 3
      (Toy.toy_world_with_checkpoint Toy.other_model)
    = (Raise ZeroDivisionError, w') /\
    exists evs,
      trace w' = (trace (Toy.toy_world_with_checkpoint Toy.other_model) ++ evs)%list /\
      saved_paths evs = ["runs/train_0/last.pt"; "runs/train_0/best.pt"]%string.
Proof.
  intros r s. eexists. eexists.
  match goal with
  | |- exists w', (?P1 /\ ?P2 /\ ?P3 /\ ?P4) /\ _ =>
      assert (H1 : P1) by (vm_compute; reflexivity);
      assert (H2 : P2) by reflexivity;
      assert (H3 : P3) by reflexivity;
      assert (H4 : P4) by reflexivity
  end.
  destruct (epoch_without_classes_fails_after_saving pyval Toy.toy_collab_no_class
              r s _ 3 _ true (Toy.toy_world_with_checkpoint Toy.other_model)
              H1 H2 H3 H4) as (w' & Hb & _ & Hs).
  exists w'. split; [repeat split; assumption|]. split; [exact Hb | exact Hs].
Defined.

(** ** Removing the labelled edges, once more *)

Lemma mask_select_ok_length {A} (mask : list bool) (t l : list A) :
  Utils.mask_select mask t = Ok l -> List.length t = List.length mask.
Proof.
  unfold Utils.mask_select.
  destruct (Nat.eqb_spec (List.length mask) (List.length t)) as [H|_];
    [auto | discriminate].
Qed.

Lemma mask_select_opt_ok_length {A} (mask : list bool) (t o : option (list A)) :
  Utils.mask_select_opt mask t = Ok o ->
  forall v, t = Some v -> List.length v = List.length mask.
Proof.
  intros H v ->. cbn in H. apply rbind_ok_inv in H. destruct H as (l & Hl & _).
  exact (mask_select_ok_length _ _ _ Hl).
Qed.

Lemma remove_label_edges_ok_aligned (b b' : batch) :
  Utils.remove_label_edges b = Ok b' -> aligned (movie_ratedby_user b).
Proof.
  unfold Utils.remove_label_edges. intros H.
  apply rbind_ok_inv in H. destruct H as (ei' & _ & H).
  apply rbind_ok_inv in H. destruct H as (pos' & Hp & H).
  apply rbind_ok_inv in H. destruct H as (ra' & Hr & H).
  apply rbind_ok_inv in H. destruct H as (we' & Hw & H).
  apply rbind_ok_inv in H. destruct H as (id' & Hi & _).
  apply mask_select_ok_length in Hr, Hi.
  pose proof (mask_select_opt_ok_length _ _ _ Hp) as Hp'.
  pose proof (mask_select_opt_ok_length _ _ _ Hw) as Hw'.
  rewrite length_map in *. unfold Utils.any_dim0 in *.
  rewrite length_map, length_seq in *.
  unfold aligned. auto.
Qed.

Lemma remove_label_edges_eq (b : batch) :
  aligned (movie_ratedby_user b) ->
  let s := movie_ratedby_user b in
  let labels := edge_label_index s in
  Utils.remove_label_edges b =
  Ok (Batch (EdgeStore (filter (keep_edge labels) (edge_index s)) labels
               (edge_label s)
               (option_map (keep_aligned labels (edge_index s)) (pos s))
               (keep_aligned labels (edge_index s) (rating s))
               (option_map (keep_aligned labels (edge_index s)) (weight s))
               (keep_aligned labels (edge_index s) (e_id s))
               (other_attrs s))
            (other_stores b)).
Proof.
  intros (Hr & He & Hp & Hw) s labels.
  unfold Utils.remove_label_edges. fold s. fold labels.
  rewrite keep_mask, mask_select_edges. cbn [rbind].
  rewrite (mask_select_opt_aligned _ _ _ Hp). cbn [rbind].
  rewrite (mask_select_aligned _ _ _ Hr). cbn [rbind].
  rewrite (mask_select_opt_aligned _ _ _ Hw). cbn [rbind].
  rewrite (mask_select_aligned _ _ _ He). cbn [rbind].
  reflexivity.
Qed.

Lemma length_keep_aligned {A} (labels ei : edge_index_t) (t : list A) :
  List.length t = List.length ei ->
  List.length (keep_aligned labels ei t) =
  List.length (filter (keep_edge labels) ei).
Proof.
  unfold keep_aligned. revert t.
  induction ei as [|e ei IH]; intros [|a t] H; try discriminate H; [reflexivity|].
  injection H as H. cbn [combine filter fst].
  destruct (keep_edge labels e); cbn [map List.length]; rewrite IH by exact H;
    reflexivity.
Qed.

Lemma keep_aligned_all_kept {A} (labels ei : edge_index_t) (t : list A) :
  Forall (fun e => keep_edge labels e = true) ei ->
  List.length t = List.length ei ->
  keep_aligned labels ei t = t.
Proof.
  unfold keep_aligned. intros F. revert t.
  induction F as [|e ei He _ IH]; intros [|a t] H; try discriminate H; [reflexivity|].
  injection H as H. cbn [combine filter fst]. rewrite He. cbn [map snd].
  rewrite IH by exact H. reflexivity.
Qed.

Lemma filter_all_kept {A} (p : A -> bool) (l : list A) :
  Forall (fun a => p a = true) l -> filter p l = l.
Proof.
  induction 1 as [|a l Ha _ IH]; [reflexivity|].
  cbn. rewrite Ha, IH. reflexivity.
Qed.

Lemma filter_kept {A} (p : A -> bool) (l : list A) :
  Forall (fun a => p a = true) (filter p l).
Proof.
  apply Forall_forall. intros a Ha. apply filter_In in Ha. apply Ha.
Qed.

(** X15. Applying [remove_label_edges] to its own result changes
    nothing.  When the function returns, the batch it returns has no edge
    left that is a labelled edge, its per-edge attributes are aligned with
    its edge index, it has no more edges than the batch it was given, and
    the function returns it unchanged when applied again. *)
Theorem remove_label_edges_idempotent (b b' : batch) :
  Utils.remove_label_edges b = Ok b' ->
  let s' := movie_ratedby_user b' in
  Utils.remove_label_edges b' = Ok b' /\
  aligned s' /\
  (forall e, In e (edge_index s') -> ~ In e (edge_label_index s')) /\
  List.length (edge_index s') <= List.length (edge_index (movie_ratedby_user b)).
Proof.
  intros H s'.
  pose proof (remove_label_edges_ok_aligned b b' H) as A.
  rewrite (remove_label_edges_eq b A) in H. injection H as H.
  destruct A as (Hr & He & Hp & Hw).
  set (s := movie_ratedby_user b) in *.
  set (labels := edge_label_index s) in *.
  assert (K : Forall (fun e => keep_edge labels e = true)
                     (filter (keep_edge labels) (edge_index s)))
    by apply filter_kept.
  assert (A' : aligned s').
  { unfold s'. rewrite <- H. unfold aligned.
    cbn [movie_ratedby_user rating e_id pos weight edge_index].
    split; [apply length_keep_aligned; exact Hr|].
    split; [apply length_keep_aligned; exact He|].
    split.
    - intros p Hp'. destruct (pos s) as [p0|]; [|discriminate Hp'].
      injection Hp' as <-. apply length_keep_aligned. apply Hp. reflexivity.
    - intros p Hw'. destruct (weight s) as [p0|]; [|discriminate Hw'].
      injection Hw' as <-. apply length_keep_aligned. apply Hw. reflexivity. }
  split; [|split; [exact A'|split]].
  - rewrite (remove_label_edges_eq b' A'). fold s'.
    destruct A' as (Hr' & He' & Hp' & Hw').
    assert (El : edge_label_index s' = labels) by (unfold s'; rewrite <- H; reflexivity).
    assert (Ei : edge_index s' = filter (keep_edge labels) (edge_index s))
      by (unfold s'; rewrite <- H; reflexivity).
    rewrite El. rewrite Ei in *.
    rewrite (filter_all_kept _ _ K).
    rewrite (keep_aligned_all_kept labels _ (rating s') K Hr').
    rewrite (keep_aligned_all_kept labels _ (e_id s') K He').
    assert (Po : option_map (keep_aligned labels (filter (keep_edge labels) (edge_index s)))
                   (pos s') = pos s').
    { destruct (pos s') as [p|] eqn:Ep; [|reflexivity]. cbn.
      rewrite (keep_aligned_all_kept labels _ p K (Hp' p eq_refl)). reflexivity. }
    assert (Wo : option_map (keep_aligned labels (filter (keep_edge labels) (edge_index s)))
                   (weight s') = weight s').
    { destruct (weight s') as [p|] eqn:Ep; [|reflexivity]. cbn.
      rewrite (keep_aligned_all_kept labels _ p K (Hw' p eq_refl)). reflexivity. }
    rewrite Po, Wo. rewrite <- Ei, <- El.
    unfold s'. destruct b' as [[] ?]. reflexivity.
  - unfold s'. rewrite <- H. cbn [movie_ratedby_user edge_index edge_label_index].
    intros e Hin Hl. apply filter_In in Hin. destruct Hin as (_ & Hk).
    unfold keep_edge in Hk. apply negb_true_iff in Hk.
    assert (Hex : existsb (Utils.edge_eqb e) labels = true).
    { apply existsb_exists. exists e. split; [exact Hl | now apply edge_eqb_eq]. }
    rewrite Hex in Hk. discriminate Hk.
  - unfold s'. rewrite <- H. cbn [movie_ratedby_user edge_index].
    apply filter_length_le.
Qed.

Lemma remove_label_edges_twice_toy :
  exists b',
    Utils.remove_label_edges Toy.toy_batch = Ok b' /\
    Utils.remove_label_edges b' = Ok b' /\
    edge_index (movie_ratedby_user b') = [(0, 0); (1, 0)].
Proof.
  eexists.
  match goal with
  | |- ?P1 /\ _ => assert (H1 : P1) by reflexivity
  end.
  split; [exact H1|].
  destruct (remove_label_edges_idempotent _ _ H1) as (H2 & _).
  split; [exact H2 | reflexivity].
Defined.

(** ** Scaling with equal bounds *)

(** X17. With equal bounds [min_max_scale] divides by zero, which raises
    nothing on a tensor: no entry of the result is a real number.  An entry
    equal to the bound becomes not-a-number, and every other real entry an
    infinity (of a sign that the sign of the zero decides). *)
Theorem min_max_scale_equal_bounds (x : vector) (m : R) :
  List.length (Utils.min_max_scale x (Fin m) (Fin m)) = List.length x /\
  Forall (fun s => ~ finite s) (Utils.min_max_scale x (Fin m) (Fin m)) /\
  (forall k, nth_error x k = Some (Fin m) ->
     nth_error (Utils.min_max_scale x (Fin m) (Fin m)) k = Some NaN) /\
  (forall k a, nth_error x k = Some (Fin a) -> a <> m ->
     exists s, nth_error (Utils.min_max_scale x (Fin m) (Fin m)) k = Some s /\
               (s = PInf \/ s = NInf)).
Proof.
  unfold Utils.min_max_scale.
  assert (Hz : fsub (Fin m) (Fin m) = Fin 0).
  { unfold fsub, fneg, fadd. f_equal. lra. }
  rewrite Hz.
  assert (Hdiv : forall a, fdiv (fsub (Fin a) (Fin m)) (Fin 0)
                           = scale_inf (a - m) PInf NInf).
  { intros a. unfold fsub, fneg, fadd, fdiv.
    destruct (Req_dec_T 0 0) as [_|n]; [|contradiction]. reflexivity. }
  split; [apply length_map|]. split.
  { apply Forall_forall. intros s Hs. apply in_map_iff in Hs.
    destruct Hs as (a & <- & _). destruct a; cbn.
    - destruct (Req_dec_T 0 0) as [_|n]; [|contradiction].
      unfold scale_inf. destruct (Rlt_dec 0 (r + - m)); [intros []|].
      destruct (Rlt_dec (r + - m) 0); intros [].
    - destruct (Rlt_dec 0 0); intros [].
    - destruct (Rlt_dec 0 0); intros [].
    - intros []. }
  split.
  - intros k Hk. rewrite nth_error_map, Hk. cbn [option_map]. rewrite Hdiv.
    unfold scale_inf.
    destruct (Rlt_dec 0 (m - m)); [lra|]. destruct (Rlt_dec (m - m) 0); [lra|].
    reflexivity.
  - intros k a Hk Hne. rewrite nth_error_map, Hk. cbn [option_map]. rewrite Hdiv.
    unfold scale_inf. eexists. split; [reflexivity|].
    destruct (Rlt_dec 0 (a - m)); [left; reflexivity|].
    destruct (Rlt_dec (a - m) 0); [right; reflexivity | exfalso; lra].
Qed.

(** ** Original node identifiers and the overlap of the splits *)

Lemma index_position_spec (n : nat) (i : Z) :
  match Utils.index_position n i with
  | Some p => (- Z.of_nat n <= i < Z.of_nat n)%Z /\ p < n /\
              Z.of_nat p = wrapped_index n i
  | None => ~ (- Z.of_nat n <= i < Z.of_nat n)%Z
  end.
Proof.
  unfold Utils.index_position, wrapped_index.
  destruct (0 <=? i)%Z eqn:H0; destruct (i <? Z.of_nat n)%Z eqn:H1; cbn [andb].
  - apply Z.leb_le in H0. apply Z.ltb_lt in H1.
    assert (Hneg : (i <? 0)%Z = false) by (apply Z.ltb_ge; lia). rewrite Hneg.
    repeat split; lia.
  - apply Z.leb_le in H0. apply Z.ltb_ge in H1.
    assert (Hneg : (i <? 0)%Z = false) by (apply Z.ltb_ge; lia). rewrite Hneg.
    rewrite andb_false_r. lia.
  - apply Z.leb_gt in H0. apply Z.ltb_lt in H1.
    assert (Hneg : (i <? 0)%Z = true) by (apply Z.ltb_lt; lia). rewrite Hneg.
    rewrite andb_true_r.
    destruct (- Z.of_nat n <=? i)%Z eqn:H2.
    + apply Z.leb_le in H2. repeat split; lia.
    + apply Z.leb_gt in H2. lia.
  - apply Z.leb_gt in H0. apply Z.ltb_ge in H1. lia.
Qed.

Lemma index_select_int_cases {A} (t : list A) (index : list Z) :
  let in_range (i : Z) := (- Z.of_nat (List.length t) <= i < Z.of_nat (List.length t))%Z in
  (Forall in_range index /\
   exists sel, Utils.index_select_int t index = Ok sel /\
     List.length sel = List.length index /\
     forall k i, nth_error index k = Some i ->
       exists p, Z.of_nat p = wrapped_index (List.length t) i /\
                 p < List.length t /\ nth_error sel k = nth_error t p) \/
  (~ Forall in_range index /\ Utils.index_select_int t index = Raise IndexError).
Proof.
  intros in_range. unfold Utils.index_select_int.
  induction index as [|i index IH].
  - left. split; [constructor|]. exists []. split; [reflexivity|].
    split; [reflexivity|]. intros [|k] i H; discriminate H.
  - cbn [rmapM]. pose proof (index_position_spec (List.length t) i) as Hi.
    destruct (Utils.index_position (List.length t) i) as [p|].
    2:{ right. split; [|reflexivity]. intros F. inversion F; subst. contradiction. }
    destruct Hi as (Hr & Hp & Hw).
    destruct (nth_error t p) as [a|] eqn:Ea; [|apply nth_error_None in Ea; lia].
    cbn [rbind].
    destruct IH as [(F & sel & Es & Hl & Hn) | (F & Es)].
    + left. split; [constructor; assumption|]. rewrite Es. cbn [rbind].
      exists (a :: sel). split; [reflexivity|]. split; [cbn; lia|].
      intros [|k] i' Hk; cbn in Hk.
      * injection Hk as <-. exists p. cbn. auto.
      * exact (Hn k i' Hk).
    + right. rewrite Es. split; [|reflexivity].
      intros F'. inversion F'; subst. contradiction.
Qed.

Lemma nth_error_combine {A B} (a : list A) (b : list B) (k : nat) :
  nth_error (combine a b) k =
  match nth_error a k, nth_error b k with
  | Some x, Some y => Some (x, y)
  | _, _ => None
  end.
Proof.
  revert b k. induction a as [|x a IH]; intros [|y b] [|k]; cbn; try reflexivity.
  - destruct (nth_error a k); reflexivity.
  - apply IH.
Qed.

(** X18. [map_edge_index_to_original_with_list] takes the entries of the
    edge index as positions in the two identifier lists, a negative entry
    counting from the end of its list.  It returns exactly when every column
    of the edge index names, in this way, an entry of the first list and an
    entry of the second; column [k] of the result is then the pair of the
    identifiers at the two positions that column [k] names.  When no
    identifier is repeated in either list, two columns of the result are
    equal only if the two columns of the edge index name the same
    positions.  On any other edge index it raises the index error. *)
Theorem map_edge_index_to_original_spec (edge_index : Utils.int_edge_index_t)
  (node_id1 node_id2 : list nat) :
  let n1 := List.length node_id1 in
  let n2 := List.length node_id2 in
  let in_range (e : Z * Z) :=
    (- Z.of_nat n1 <= fst e < Z.of_nat n1)%Z /\
    (- Z.of_nat n2 <= snd e < Z.of_nat n2)%Z in
  (Forall in_range edge_index /\
   exists mapped,
     Utils.map_edge_index_to_original_with_list edge_index node_id1 node_id2
       = Ok mapped /\
     List.length mapped = List.length edge_index /\
     (forall k i j, nth_error edge_index k = Some (i, j) ->
        exists p q a b,
          Z.of_nat p = wrapped_index n1 i /\ Z.of_nat q = wrapped_index n2 j /\
          nth_error node_id1 p = Some a /\ nth_error node_id2 q = Some b /\
          nth_error mapped k = Some (a, b)) /\
     (NoDup node_id1 -> NoDup node_id2 ->
      forall k k' i j, nth_error edge_index k = Some (i, j) ->
        nth_error mapped k = nth_error mapped k' ->
        exists i' j', nth_error edge_index k' = Some (i', j') /\
          wrapped_index n1 i = wrapped_index n1 i' /\
          wrapped_index n2 j = wrapped_index n2 j')) \/
  (~ Forall in_range edge_index /\
   Utils.map_edge_index_to_original_with_list edge_index node_id1 node_id2
     = Raise IndexError).
Proof.
  intros n1 n2 in_range.
  unfold Utils.map_edge_index_to_original_with_list.
  destruct (index_select_int_cases node_id1 (map fst edge_index))
    as [(F1 & s1 & E1 & L1 & N1) | (F1 & E1)].
  2:{ right. rewrite E1. split; [|reflexivity].
      intros R. apply F1. apply Forall_map.
      revert R. apply Forall_impl. intros e He. apply He. }
  destruct (index_select_int_cases node_id2 (map snd edge_index))
    as [(F2 & s2 & E2 & L2 & N2) | (F2 & E2)].
  2:{ right. rewrite E1, E2. split; [|reflexivity].
      intros R. apply F2. apply Forall_map.
      revert R. apply Forall_impl. intros e He. apply He. }
  left. rewrite length_map in L1, L2.
  split.
  { apply Forall_forall. intros e He. rewrite Forall_forall in F1, F2. split.
    - apply F1. apply in_map. exact He.
    - apply F2. apply in_map. exact He. }
  rewrite E1, E2. cbn [rbind].
  exists (combine s1 s2). split; [reflexivity|].
  assert (Hcol : forall k i j, nth_error edge_index k = Some (i, j) ->
            exists p q a b,
              Z.of_nat p = wrapped_index n1 i /\ Z.of_nat q = wrapped_index n2 j /\
              nth_error node_id1 p = Some a /\ nth_error node_id2 q = Some b /\
              nth_error (combine s1 s2) k = Some (a, b)).
  { intros k i j Hk.
    assert (H1 : nth_error (map fst edge_index) k = Some i)
      by (rewrite nth_error_map, Hk; reflexivity).
    assert (H2 : nth_error (map snd edge_index) k = Some j)
      by (rewrite nth_error_map, Hk; reflexivity).
    destruct (N1 k i H1) as (p & Hp & Hpl & Hsp).
    destruct (N2 k j H2) as (q & Hq & Hql & Hsq).
    rewrite nth_error_combine, Hsp, Hsq.
    destruct (nth_error node_id1 p) as [a|] eqn:Ea;
      [|apply nth_error_None in Ea; lia].
    destruct (nth_error node_id2 q) as [b|] eqn:Eb;
      [|apply nth_error_None in Eb; lia].
    exists p, q, a, b. auto. }
  split; [rewrite length_combine, L1, L2; apply Nat.min_id|].
  split; [exact Hcol|].
  intros D1 D2 k k' i j Ek Heq.
  destruct (Hcol k i j Ek) as (p & q & a & b & Hp & Hq & Ha & Hb & Hm).
  rewrite Hm in Heq. symmetry in Heq.
  destruct (nth_error edge_index k') as [[i' j']|] eqn:Ek'.
  - destruct (Hcol k' i' j' Ek') as (p' & q' & a' & b' & Hp' & Hq' & Ha' & Hb' & Hm').
    rewrite Hm' in Heq. injection Heq as -> ->.
    rewrite NoDup_nth_error in D1, D2.
    assert (p = p').
    { apply D1; [apply nth_error_Some; rewrite Ha; discriminate | congruence]. }
    assert (q = q').
    { apply D2; [apply nth_error_Some; rewrite Hb; discriminate | congruence]. }
    subst p' q'. exists i', j'. split; [reflexivity|]. split; congruence.
  - exfalso. apply nth_error_None in Ek'.
    assert (Hn : nth_error (combine s1 s2) k' = None).
    { apply nth_error_None. rewrite length_combine, L1, L2, Nat.min_id. exact Ek'. }
    rewrite Hn in Heq. discriminate Heq.
Qed.

(** The last movie of the list, named from the end. *)
Example map_edge_index_negative_index :
  Utils.map_edge_index_to_original_with_list [(-1, 0); (1, -1)]%Z [10; 11] [20; 21]
    = Ok [(11, 20); (11, 21)] /\
  Utils.map_edge_index_to_original_with_list [(-3, 0)]%Z [10; 11] [20; 21]
    = Raise IndexError /\
  Utils.map_edge_index_to_original_with_list [(2, 0)]%Z [10; 11] [20; 21]
    = Raise IndexError.
Proof. repeat split. Qed.

Lemma edge_eqb_refl (e : nat * nat) : Utils.edge_eqb e e = true.
Proof. apply edge_eqb_eq. reflexivity. Qed.

Lemma intersection_spec (a b : edge_index_t) (e : nat * nat) :
  In e (Utils.intersection a b) <-> In e a /\ In e b.
Proof.
  unfold Utils.intersection. rewrite filter_In, existsb_exists. split.
  - intros (Ha & x & Hx & Heq). apply edge_eqb_eq in Heq. subst x. auto.
  - intros (Ha & Hb). split; [exact Ha|]. exists e. split; [exact Hb|].
    apply edge_eqb_refl.
Qed.

(** X19. What [check_overlap] prints.  When the label edges of the three
    splits can be mapped to original identifiers, the function prints the
    number of edges that the training split shares with the validation
    split and with the test split, and after them each non-empty set of
    shared edges.  An edge is in the set for a split exactly when its pair
    of original identifiers occurs among the label edges of the training
    split and among those of that split; each shared edge is counted once. *)
Theorem check_overlap_reports_shared_edges (train_data val_data test_data : Utils.hetero_data)
  (train_edges val_edges test_edges : edge_index_t) :
  Utils.map_edge_index_to_original_with_list (Utils.label_index train_data)
    (Utils.movie_node_id train_data) (Utils.user_node_id train_data) = Ok train_edges ->
  Utils.map_edge_index_to_original_with_list (Utils.label_index val_data)
    (Utils.movie_node_id val_data) (Utils.user_node_id val_data) = Ok val_edges ->
  Utils.map_edge_index_to_original_with_list (Utils.label_index test_data)
    (Utils.movie_node_id test_data) (Utils.user_node_id test_data) = Ok test_edges ->
  let val_overlap :=
    Utils.intersection (Utils.edge_set train_edges) (Utils.edge_set val_edges) in
  let test_overlap :=
    Utils.intersection (Utils.edge_set train_edges) (Utils.edge_set test_edges) in
    Utils.check_overlap train_data val_data test_data =
    Ok ([Utils.NumberOfOverlapping "val" (List.length val_overlap);
         Utils.NumberOfOverlapping "test" (List.length test_overlap)]
        ++ (match val_overlap with
            | [] => []
            | _ => [Utils.OverlappingEdges "val" val_overlap]
            end)
        ++ (match test_overlap with
            | [] => []
            | _ => [Utils.OverlappingEdges "test" test_overlap]
            end)) /\
    NoDup val_overlap /\ NoDup test_overlap /\
    (forall e, In e val_overlap <-> In e train_edges /\ In e val_edges) /\
    (forall e, In e test_overlap <-> In e train_edges /\ In e test_edges).
Proof.
  intros Ht Hv Hs. unfold Utils.check_overlap. rewrite Ht, Hv, Hs. cbn [rbind].
  split; [reflexivity|].
  split; [apply NoDup_filter, NoDup_nodup|].
  split; [apply NoDup_filter, NoDup_nodup|].
  split; intros e; rewrite intersection_spec; unfold Utils.edge_set;
    rewrite !nodup_In; reflexivity.
Qed.

(** A training edge that is also a validation edge under another local
    numbering of the nodes: it is reported once, by its original
    identifiers. *)
Lemma check_overlap_example :
  let train_data := Utils.HeteroData [(0, 0); (1, 1); (1, 1)]%Z [10; 11] [20; 21] in
  let val_data := Utils.HeteroData [(0, 0)]%Z [11] [21] in
  let test_data := Utils.HeteroData [(0, 0)]%Z [12] [20] in
  (Utils.map_edge_index_to_original_with_list (Utils.label_index train_data)
     (Utils.movie_node_id train_data) (Utils.user_node_id train_data)
   = Ok [(10, 20); (11, 21); (11, 21)] /\
   Utils.map_edge_index_to_original_with_list (Utils.label_index val_data)
     (Utils.movie_node_id val_data) (Utils.user_node_id val_data)
   = Ok [(11, 21)] /\
   Utils.map_edge_index_to_original_with_list (Utils.label_index test_data)
     (Utils.movie_node_id test_data) (Utils.user_node_id test_data)
   = Ok [(12, 20)]) /\
  Utils.check_overlap train_data val_data test_data =
  Ok [Utils.NumberOfOverlapping "val" 1; Utils.NumberOfOverlapping "test" 0;
      Utils.OverlappingEdges "val" [(11, 21)]].
Proof.
  intros train_data val_data test_data.
  match goal with
  | |- (?P1 /\ ?P2 /\ ?P3) /\ _ =>
      assert (H1 : P1) by reflexivity;
      assert (H2 : P2) by reflexivity;
      assert (H3 : P3) by reflexivity
  end.
  split; [repeat split; assumption|].
  destruct (check_overlap_reports_shared_edges train_data val_data test_data
              _ _ _ H1 H2 H3) as (Hc & _).
  rewrite Hc. reflexivity.
Defined.

(** ** Importing a class by its dotted path *)

Lemma rsplit_dot_none (p : string) :
  Utils.rsplit_dot p = None <-> has_dot p = false.
Proof.
  induction p as [|c p IH]; cbn; [tauto|].
  destruct (Utils.rsplit_dot p) as [[m o]|].
  - split; [discriminate|]. intros H. apply orb_false_iff in H.
    destruct H as (_ & H). apply IH in H. discriminate H.
  - destruct (Ascii.eqb c "."); cbn; [split; discriminate|].
    split; [intros _; apply IH; reflexivity | reflexivity].
Qed.

Lemma rsplit_dot_some (p m o : string) :
  Utils.rsplit_dot p = Some (m, o) ->
  p = (m ++ "." ++ o)%string /\ has_dot o = false.
Proof.
  revert m. induction p as [|c p IH]; intros m; cbn; [discriminate|].
  destruct (Utils.rsplit_dot p) as [[m' o']|] eqn:Er.
  - intros H. injection H as <- <-. destruct (IH m' eq_refl) as (-> & Ho).
    split; [reflexivity | exact Ho].
  - destruct (Ascii.eqb_spec c "."); [|discriminate].
    intros H. injection H as <- <-. subst c.
    split; [reflexivity|]. apply rsplit_dot_none. exact Er.
Qed.

Lemma rsplit_dot_join (m o : string) :
  has_dot o = false -> Utils.rsplit_dot (m ++ "." ++ o) = Some (m, o).
Proof.
  intros Ho. induction m as [|c m IH]; cbn.
  - apply rsplit_dot_none in Ho. rewrite Ho. reflexivity.
  - cbn in IH. rewrite IH. reflexivity.
Qed.

(** X20. [import_object] splits its path at the last dot.  A path with a
    dot is the module path, a dot, and an object name that has no dot; the
    module of that path is imported and the attribute of that name is taken
    from it, and whatever either of them raises is raised.  A path without a
    dot raises the value error before anything is imported. *)
Theorem import_object_splits_at_last_dot (blob : Type) (E : collab blob) (path : string) :
  (if has_dot path
   then exists module_path obj_name,
          path = (module_path ++ "." ++ obj_name)%string /\
          has_dot obj_name = false /\
          Utils.import_object blob E (PyStr path) =
          rbind (import_module E module_path)
                (fun module => py_getattr E module obj_name)
   else Utils.import_object blob E (PyStr path) = Raise ValueError) /\
  (forall module_path obj_name,
     has_dot obj_name = false ->
     Utils.import_object blob E (PyStr (module_path ++ "." ++ obj_name)) =
     rbind (import_module E module_path)
           (fun module => py_getattr E module obj_name)).
Proof.
  split.
  - unfold Utils.import_object.
    destruct (Utils.rsplit_dot path) as [[m o]|] eqn:Er.
    + destruct (rsplit_dot_some path m o Er) as (Hp & Ho).
      destruct (has_dot path) eqn:Hd.
      * exists m, o. auto.
      * apply rsplit_dot_none in Hd. rewrite Hd in Er. discriminate Er.
    + apply rsplit_dot_none in Er. rewrite Er. reflexivity.
  - intros m o Ho. unfold Utils.import_object.
    rewrite (rsplit_dot_join m o Ho). reflexivity.
Qed.

(** ** Building the model *)










(** ** The second checkpoint format *)

(** X22. The record of [save_checkpoint2] carries the ranking metrics
    under ["rank@k"], ["val_f1@k"], ["precision@k"], ["recall@k"] and
    ["val_nDCG@k"], and has no ["val_acc"] and no ["val_f1"] entry; it has
    every entry that [init_from_checkpoint] reads.  So, provided that the
    directory of the checkpoint path exists, that the loader reads back the
    record the saver wrote, that the dataset can be built from the saved
    configuration, and that the recorded log directory exists and is not
    the checkpoint path, [save_checkpoint2] returns and
    [init_from_checkpoint] on the saved file returns the run made of the
    saved configuration, objects, epoch, end epoch and histories. *)
Theorem save_checkpoint2_can_be_resumed (blob : Type) (E : collab blob)
  (model optimizer scheduler scaler epoch end_epoch train_loss val_loss
   rank_k f1_k precision_k recall_k nDCG_k : pyval) (model_path : string)
  (config : pyval) (dir : string) (train_losses val_losses : pyval)
  (data_config : pyval) (ds : dataset) (w : world blob) :
  let record := Utils.checkpoint_record2 model optimizer scheduler scaler epoch
                  end_epoch train_loss val_loss rank_k f1_k precision_k recall_k
                  nDCG_k config (PyStr dir) train_losses val_losses in
  parent_exists (files w) model_path = true ->
  unpickle E (pickle E record) = Ok record ->
  getitem config "data" = Ok data_config ->
  MyHeteroData E data_config = Ok ds ->
  fs_lookup (files w) dir = Some Dir ->
  model_path <> dir ->
  let saved := Utils.save_checkpoint2 blob E model optimizer scheduler scaler
                 epoch end_epoch train_loss val_loss rank_k f1_k precision_k
                 recall_k nDCG_k model_path config (PyStr dir)
                 train_losses val_losses w in
  fst saved = Ok tt /\
  (exists ckpt,
     fst (Utils.load_checkpoint blob E model_path (snd saved)) = Ok ckpt /\
     getitem ckpt "rank@k" = Ok rank_k /\
     getitem ckpt "val_f1@k" = Ok f1_k /\
     getitem ckpt "precision@k" = Ok precision_k /\
     getitem ckpt "recall@k" = Ok recall_k /\
     getitem ckpt "val_nDCG@k" = Ok nDCG_k /\
     getitem ckpt "train_loss" = Ok train_loss /\
     getitem ckpt "val_loss" = Ok val_loss /\
     getitem ckpt "val_acc" = Raise KeyError /\
     getitem ckpt "val_f1" = Raise KeyError) /\
  fst (Train.init_from_checkpoint blob E model_path (snd saved)) =
  Ok (Train.Run config ds (Trainer model optimizer scheduler scaler) (Writer dir)
        epoch end_epoch train_losses val_losses).
Proof.
  intros ckpt Hp Hrt Hdc Hds Hdir Hne saved.
  unfold saved, Utils.save_checkpoint2. fold ckpt.
  rewrite (torch_save_spec blob E ckpt model_path w Hp). cbn [fst snd].
  split; [reflexivity|].
  assert (Hload : forall tr,
            fs_lookup (files (World (fs_write (files w) model_path
                                       (PickleFile (pickle E ckpt))) tr)) model_path
            = Some (PickleFile (pickle E ckpt))).
  { intros tr. cbn [files]. apply fs_lookup_write_same. }
  split.
  - exists ckpt. unfold Utils.load_checkpoint. rewrite torch_load_spec, Hload, Hrt.
    cbn [fst]. split; [reflexivity|]. repeat split.
  - unfold Train.init_from_checkpoint, Utils.load_checkpoint.
    unfold mbind at 1. rewrite torch_load_spec, Hload, Hrt.
    unfold mbind, lift.
    change (getitem ckpt "config") with (Ok config).
    cbn iota beta. rewrite Hdc. cbn [rbind]. unfold Train.load_myheterodata.
    rewrite Hds.
    change (getitem ckpt "model") with (Ok model).
    change (getitem ckpt "optimizer") with (Ok optimizer).
    change (getitem ckpt "scheduler") with (Ok scheduler).
    change (getitem ckpt "scaler") with (Ok scaler).
    change (getitem ckpt "log_dir") with (Ok (PyStr dir)).
    change (getitem ckpt "epoch") with (Ok epoch).
    change (getitem ckpt "end_epoch") with (Ok end_epoch).
    change (getitem ckpt "train_losses") with (Ok train_losses).
    change (getitem ckpt "val_losses") with (Ok val_losses).
    cbn [rbind Train.as_str].
    unfold SummaryWriter, os_makedirs, mbind, emit, mret. cbn [files trace].
    rewrite (fs_lookup_write_other _ _ _ _ Hne), Hdir. reflexivity.
Qed.

Lemma save_checkpoint2_toy :
  let record :=
    Utils.checkpoint_record2
      Toy.other_model (PyObject "Adam" []) (PyObject "StepLR" []) PyNone
      (PyInt 2) (PyInt 5) (Toy.scalar_tensor (1 / 2))
      (Toy.scalar_tensor (1 / 4)) (PyFloat (Fin 1)) (PyFloat (Fin 1))
      (PyFloat (Fin 1)) (PyFloat (Fin 1)) (PyFloat (Fin 1))
      (Toy.toy_config 5) (PyStr "runs/train_0") (PyList []) (PyList []) in
  (parent_exists (files (Toy.toy_world_with_checkpoint Toy.other_model))
     "runs/train_0/top.pt" = true /\
   unpickle Toy.toy_collab (pickle Toy.toy_collab record) = Ok record /\
   getitem (Toy.toy_config 5) "data" = Ok (PyDict []) /\
   MyHeteroData Toy.toy_collab (PyDict []) = Ok Toy.toy_dataset /\
   fs_lookup (files (Toy.toy_world_with_checkpoint Toy.other_model)) "runs/train_0"
     = Some Dir /\
   "runs/train_0/top.pt"%string <> "runs/train_0"%string) /\
  fst (Train.init_from_checkpoint pyval Toy.toy_collab "runs/train_0/top.pt"
         (snd (Utils.save_checkpoint2 pyval Toy.toy_collab
                 Toy.other_model (PyObject "Adam" []) (PyObject "StepLR" []) PyNone
                 (PyInt 2) (PyInt 5) (Toy.scalar_tensor (1 / 2))
                 (Toy.scalar_tensor (1 / 4)) (PyFloat (Fin 1)) (PyFloat (Fin 1))
                 (PyFloat (Fin 1)) (PyFloat (Fin 1)) (PyFloat (Fin 1))
                 "runs/train_0/top.pt" (Toy.toy_config 5) (PyStr "runs/train_0")
                 (PyList []) (PyList [])
                 (Toy.toy_world_with_checkpoint Toy.other_model))))
  = Ok (Train.Run (Toy.toy_config 5) Toy.toy_dataset
          (Trainer Toy.other_model (PyObject "Adam" []) (PyObject "StepLR" []) PyNone)
          (Writer "runs/train_0") (PyInt 2) (PyInt 5) (PyList []) (PyList [])).
Proof.
  cbv zeta.
  assert (H0 : parent_exists (files (Toy.toy_world_with_checkpoint Toy.other_model))
                 "runs/train_0/top.pt" = true) by reflexivity.
  assert (H2 : getitem (Toy.toy_config 5) "data" = Ok (PyDict [])) by reflexivity.
  assert (H3 : MyHeteroData Toy.toy_collab (PyDict []) = Ok Toy.toy_dataset)
    by reflexivity.
  assert (H4 : fs_lookup (files (Toy.toy_world_with_checkpoint Toy.other_model))
                 "runs/train_0" = Some Dir) by reflexivity.
  assert (H5 : "runs/train_0/top.pt"%string <> "runs/train_0"%string) by discriminate.
  split; [repeat split; assumption|].
  destruct (save_checkpoint2_can_be_resumed pyval Toy.toy_collab
              Toy.other_model (PyObject "Adam" []) (PyObject "StepLR" []) PyNone
              (PyInt 2) (PyInt 5) (Toy.scalar_tensor (1 / 2))
              (Toy.scalar_tensor (1 / 4)) (PyFloat (Fin 1)) (PyFloat (Fin 1))
              (PyFloat (Fin 1)) (PyFloat (Fin 1)) (PyFloat (Fin 1))
              "runs/train_0/top.pt" (Toy.toy_config 5) "runs/train_0"
              (PyList []) (PyList []) (PyDict []) Toy.toy_dataset
              (Toy.toy_world_with_checkpoint Toy.other_model) H0 eq_refl H2 H3 H4 H5)
    as (_ & _ & H).
  exact H.
Defined.

(** ** The report of an epoch *)

Section ReportMore.
Variable blob : Type.
Variable E : collab blob.

Lemma for_each_add_scalar_files (wr : summary_writer) (e : Z)
  (tag : string * pyval -> string) (l : list (string * pyval)) :
  forall (w w' : world blob) (u : unit),
  for_each (fun (_ : unit) (kv : string * pyval) => add_scalar wr (tag kv) (snd kv) e)
           l tt w = (Ok u, w') ->
  files w' = files w.
Proof.
  induction l as [|kv l IH]; intros w w' u H.
  - cbn in H. injection H as _ <-. reflexivity.
  - cbn [for_each] in H. apply mbind_ok_inv in H. destruct H as (u1 & w1 & H1 & H).
    unfold add_scalar, emit in H1. injection H1 as _ <-. destruct u1.
    rewrite (IH _ _ _ H). reflexivity.
Qed.

Lemma epoch_report_files (r : Train.run) (s : Train.loop_state) (e : Z)
  (res : Train.epoch_results) (w w' : world blob) (u : unit) :
  Train.epoch_report blob r s e res w = (Ok u, w') ->
  exists tl vl,
    Train.cur_train_losses s = PyList tl /\
    Train.cur_val_losses s = PyList vl /\
    files w' = fs_write (files w)
                 (os_path_join (log_dir (Train.writer r)) "loss_plot.png")
                 (PlotFile tl vl).
Proof.
  unfold Train.epoch_report. intros H.
  apply mbind_ok_inv in H. destruct H as (u0 & w0 & Hplot & H).
  unfold Utils.save_loss_plot in Hplot.
  destruct (Train.cur_train_losses s) as [| | | | | | |tl| |]; try discriminate Hplot.
  destruct (Train.cur_val_losses s) as [| | | | | | |vl| |]; try discriminate Hplot.
  destruct (parent_exists (files w) _); [|discriminate Hplot].
  unfold mbind, write_file, emit in Hplot. injection Hplot as _ <-.
  exists tl, vl. split; [reflexivity|]. split; [reflexivity|].
  apply mbind_ok_inv in H. destruct H as (u1 & w1 & H1 & H).
  unfold add_scalar, emit in H1. injection H1 as _ <-.
  apply mbind_ok_inv in H. destruct H as (u2 & w2 & H2 & H).
  unfold add_scalar, emit in H2. injection H2 as _ <-.
  apply mbind_ok_inv in H. destruct H as (u3 & w3 & H3 & H).
  unfold add_scalar, emit in H3. injection H3 as _ <-.
  apply mbind_ok_inv in H. destruct H as (f1 & w4 & H4 & H).
  apply lift_ok_inv in H4. destruct H4 as (_ & ->).
  apply mbind_ok_inv in H. destruct H as (u5 & w5 & H5 & H).
  apply for_each_add_scalar_files in H5.
  apply mbind_ok_inv in H. destruct H as (avg & w6 & H6 & H).
  apply lift_ok_inv in H6. destruct H6 as (_ & ->).
  unfold add_scalar, emit in H. injection H as _ <-.
  cbn [files] in *. exact H5.
Qed.

End ReportMore.

(** X23. The loss plot shows the whole history.  When the loop has
    completed the epochs up to [e], the file [loss_plot.png] of the log
    directory is the plot of the two histories of the loop state: the
    entries the run started with (those of the checkpoint when it was
    resumed) and one entry for each epoch since. *)
Theorem loss_plot_shows_whole_history (blob : Type) (E : collab blob)
  (r : Train.run) (es : list Z) (e : Z) (s0 s1 : Train.loop_state)
  (w w1 : world blob) :
  for_each (Train.epoch_body blob E r) (es ++ [e]) s0 w = (Ok s1, w1) ->
  exists tl vl,
    Train.cur_train_losses s1 = PyList tl /\
    Train.cur_val_losses s1 = PyList vl /\
    fs_lookup (files w1) (os_path_join (log_dir (Train.writer r)) "loss_plot.png")
      = Some (PlotFile tl vl).
Proof.
  intros H. apply for_each_snoc_inv in H. destruct H as (s' & w' & _ & Hb).
  unfold Train.epoch_body in Hb.
  apply mbind_ok_inv in Hb. destruct Hb as ([res s2] & wa & Hc & Hb).
  apply mbind_ok_inv in Hb. destruct Hb as (s3 & wb & Hck & Hb).
  apply mbind_ok_inv in Hb. destruct Hb as (u & wc & Hrep & Hb).
  apply mret_ok_inv in Hb. destruct Hb as (-> & ->).
  destruct (epoch_report_files blob r s3 e res wb wc u Hrep) as (tl & vl & Ht & Hv & Hf).
  exists tl, vl. split; [exact Ht|]. split; [exact Hv|].
  rewrite Hf. apply fs_lookup_write_same.
Qed.

Lemma loss_plot_toy :
  let r := Toy.toy_run Toy.other_model in
  let s0 := Train.LoopState (Train.objs r) (Train.train_losses r)
              (Train.val_losses r) (PyFloat PInf) in
  let w := Toy.toy_world_with_checkpoint Toy.other_model in
  exists s1 w1 tl vl,
    for_each (Train.epoch_body pyval Toy.toy_collab r) ([] ++ [3%Z]) s0 w
      = (Ok s1, w1) /\
    fs_lookup (files w1) "runs/train_0/loss_plot.png" = Some (PlotFile tl vl) /\
    List.length tl = 4 /\ List.length vl = 4.
Proof.
  intros r s0 w. eexists. eexists.
  match goal with
  | |- exists tl vl, ?P1 /\ _ => assert (H1 : P1) by (vm_compute; reflexivity)
  end.
  destruct (loss_plot_shows_whole_history pyval Toy.toy_collab r [] 3 s0 _ w _ H1)
    as (tl & vl & Ht & Hv & Hf).
  exists tl, vl. split; [exact H1|]. split; [exact Hf|].
  cbn in Ht, Hv. injection Ht as <-. injection Hv as <-. split; reflexivity.
Defined.

(** ** A whole run *)

Section Confined.
Variable blob : Type.
Variable E : collab blob.

Lemma confined_refl saves paths (w : world blob) : confined saves paths w w.
Proof.
  split; [exists []; rewrite app_nil_r; split; [reflexivity | constructor]|].
  reflexivity.
Qed.

Lemma confined_trans saves paths (w1 w2 w3 : world blob) :
  confined saves paths w1 w2 -> confined saves paths w2 w3 ->
  confined saves paths w1 w3.
Proof.
  intros ((e1 & T1 & S1) & F1) ((e2 & T2 & S2) & F2). split.
  - exists (e1 ++ e2)%list. rewrite T2, T1, app_assoc. split; [reflexivity|].
    rewrite saved_paths_app. apply Forall_app. auto.
  - intros p Hp. rewrite (F2 p Hp). apply F1. exact Hp.
Qed.

Lemma epoch_body_confined (r : Train.run) (s : Train.loop_state) (e : Z)
  (w : world blob) :
  let last := os_path_join (log_dir (Train.writer r)) "last.pt" in
  let best := os_path_join (log_dir (Train.writer r)) "best.pt" in
  let plot := os_path_join (log_dir (Train.writer r)) "loss_plot.png" in
  confined [last; best] [last; best; plot] w (snd (Train.epoch_body blob E r s e w)).
Proof.
  intros last best plot.
  destruct (Train.epoch_compute blob E r s) as [[res s2]|ex] eqn:Hc.
  2:{ rewrite (epoch_body_raises_unsaved blob E r s e w ex Hc). apply confined_refl. }
  destruct (parent_exists (files w) last) eqn:Hdir.
  2:{ rewrite (epoch_body_no_directory blob E r s s2 e res w Hc Hdir).
      apply confined_refl. }
  rewrite (epoch_body_spec blob E r s s2 e res w Hc Hdir).
  assert (Hout : forall p, ~ In p [last; best; plot] ->
                 p <> last /\ p <> best /\ p <> plot).
  { intros p Hp. repeat split; intros ->; apply Hp; cbn; auto. }
  destruct (py_lt (Train.val_loss res) (Train.best_val_loss s2)) as [[|]|ex].
  - match goal with
    | |- context [snd (mbind ?c ?k ?w1)] =>
        destruct (quiet_report_then_return blob r
                    (with_best s2 (Train.val_loss res)) e res w1)
          as ((evs & Ht & Hs) & Hf)
    end.
    split.
    + eexists. rewrite Ht. cbn [trace]. rewrite <- !app_assoc.
      split; [reflexivity|]. cbn [app saved_paths]. rewrite Hs.
      constructor; [left; reflexivity|].
      constructor; [right; left; reflexivity | constructor].
    + intros p Hp. destruct (Hout p Hp) as (H1 & H2 & H3).
      rewrite Hf by exact H3. cbn [files].
      rewrite fs_lookup_write_other by (apply not_eq_sym; exact H2).
      apply fs_lookup_write_other. apply not_eq_sym. exact H1.
  - match goal with
    | |- context [snd (mbind ?c ?k ?w1)] =>
        destruct (quiet_report_then_return blob r s2 e res w1)
          as ((evs & Ht & Hs) & Hf)
    end.
    split.
    + eexists. rewrite Ht. cbn [trace]. rewrite <- !app_assoc.
      split; [reflexivity|]. cbn [app saved_paths]. rewrite Hs.
      constructor; [left; reflexivity | constructor].
    + intros p Hp. destruct (Hout p Hp) as (H1 & H2 & H3).
      rewrite Hf by exact H3. cbn [files].
      apply fs_lookup_write_other. apply not_eq_sym. exact H1.
  - cbn [snd]. split.
    + eexists. cbn [trace]. split; [reflexivity|]. cbn [saved_paths].
      constructor; [left; reflexivity | constructor].
    + intros p Hp. destruct (Hout p Hp) as (H1 & _). cbn [files].
      apply fs_lookup_write_other. apply not_eq_sym. exact H1.
Qed.

Lemma for_each_epoch_body_confined (r : Train.run) (es : list Z) :
  forall (s : Train.loop_state) (w : world blob),
  let last := os_path_join (log_dir (Train.writer r)) "last.pt" in
  let best := os_path_join (log_dir (Train.writer r)) "best.pt" in
  let plot := os_path_join (log_dir (Train.writer r)) "loss_plot.png" in
  confined [last; best] [last; best; plot] w
    (snd (for_each (Train.epoch_body blob E r) es s w)).
Proof.
  induction es as [|e es IH]; intros s w last best plot.
  - cbn. apply confined_refl.
  - cbn [for_each]. unfold mbind.
    pose proof (epoch_body_confined r s e w) as Hb. cbv zeta in Hb.
    destruct (Train.epoch_body blob E r s e w) as [[s'|ex] w1]; cbn [snd] in *.
    + eapply confined_trans; [exact Hb | apply IH].
    + exact Hb.
Qed.

End Confined.

Lemma append_nil_r (a : string) : (a ++ "")%string = a.
Proof. induction a as [|c a IH]; cbn; [reflexivity | now rewrite IH]. Qed.

(** A file of the log directory has the path of the directory in front. *)
Lemma os_path_join_inside (d name : string) :
  String.prefix "/" name = false ->
  String.prefix (os_path_join d "") (os_path_join d name) = true.
Proof.
  intros Hn. unfold os_path_join. rewrite Hn. cbn [String.prefix].
  destruct (String.eqb d ""); [now destruct name|].
  destruct (ends_with_slash d).
  - rewrite append_nil_r. apply prefix_append.
  - rewrite <- (append_assoc d "/" name), <- (append_assoc d "/" "").
    rewrite append_nil_r. apply prefix_append.
Qed.

(** X25. The epoch loop writes nowhere but in the log directory of the
    run.  Whether [train_loop] returns or raises, every checkpoint it has
    saved went to [last.pt] or [best.pt] of that directory, and every file
    whose path does not begin with the path of the log directory is as it
    was before the loop; so the checkpoint a run was resumed from is never
    overwritten unless it lies in the log directory.  (The event files that
    the writer keeps inside the log directory are not part of the file
    system here.) *)
Theorem train_loop_writes_only_in_log_dir (blob : Type) (E : collab blob)
  (start_epoch : Z) (r : Train.run) (w : world blob) :
  let last := os_path_join (log_dir (Train.writer r)) "last.pt" in
  let best := os_path_join (log_dir (Train.writer r)) "best.pt" in
  let w' := snd (Train.train_loop blob E start_epoch r w) in
  (exists evs, trace w' = (trace w ++ evs)%list /\
     Forall (fun p => p = last \/ p = best) (saved_paths evs)) /\
  (forall p, String.prefix (os_path_join (log_dir (Train.writer r)) "") p = false ->
     fs_lookup (files w') p = fs_lookup (files w) p).
Proof.
  intros last best w'.
  set (plot := os_path_join (log_dir (Train.writer r)) "loss_plot.png").
  assert (C : confined [last; best] [last; best; plot] w w').
  { unfold w', Train.train_loop, mbind, lift.
    destruct (Train.py_range start_epoch (Train.end_epoch r)) as [es|ex].
    - apply for_each_epoch_body_confined.
    - apply confined_refl. }
  destruct C as ((evs & Ht & Hs) & Hf). split.
  - exists evs. split; [exact Ht|].
    eapply Forall_impl; [|exact Hs]. cbn. intros p [H|[H|[]]]; auto.
  - intros p Hout. apply Hf.
    intros [H|[H|[H|[]]]]; subst p; unfold last, best, plot in Hout;
      rewrite os_path_join_inside in Hout by reflexivity; discriminate Hout.
Qed.

(** X26. A run that completes leaves the checkpoint of its final epoch.
    When [train] returns and its range of epochs is not empty
    ([start_epoch < end_epoch]), the file [last.pt] of the log directory
    holds a checkpoint whose epoch is [end_epoch - 1]. *)
Theorem completed_run_leaves_final_checkpoint (blob : Type) (E : collab blob)
  (args : Train.namespace) (w w' : world blob) :
  Train.train blob E args w = (Ok tt, w') ->
  exists start_epoch r w0,
    Train.train_setup blob E args w = (Ok (start_epoch, r), w0) /\
    forall stop, Train.end_epoch r = PyInt stop -> (start_epoch < stop)%Z ->
      exists ckpt,
        fs_lookup (files w') (os_path_join (log_dir (Train.writer r)) "last.pt")
          = Some (PickleFile (pickle E ckpt)) /\
        getitem ckpt "epoch" = Ok (PyInt (stop - 1)) /\
        getitem ckpt "end_epoch" = Ok (PyInt stop).
Proof.
  unfold Train.train. intros H.
  apply mbind_ok_inv in H. destruct H as ([start r] & w0 & Hsetup & H).
  apply mbind_ok_inv in H. destruct H as (s1 & w1 & Hloop & H).
  apply mret_ok_inv in H. destruct H as (_ & ->).
  exists start, r, w0. split; [exact Hsetup|].
  intros stop Hstop Hlt.
  unfold Train.train_loop in Hloop.
  apply mbind_ok_inv in Hloop. destruct Hloop as (es & wa & Hr & Hloop).
  apply lift_ok_inv in Hr. destruct Hr as (Hr & ->).
  rewrite Hstop in Hr. cbn [Train.py_range] in Hr. injection Hr as <-.
  destruct (Z.to_nat (stop - start)) as [|k] eqn:Ek; [lia|].
  rewrite seq_S, map_app in Hloop. cbn [map Nat.add] in Hloop.
  replace (start + Z.of_nat k)%Z with (stop - 1)%Z in Hloop by lia.
  apply for_each_snoc_inv in Hloop. destruct Hloop as (s' & wb & _ & Hb).
  destruct (epoch_body_ok_inv blob E r s' s1 (stop - 1) wb w1 Hb)
    as (res & s2 & b & Hc & _ & _).
  destruct (epoch_body_saves blob E r s' s2 (stop - 1) res wb Hc
              (epoch_body_ok_parent blob E r s' s1 (stop - 1) wb w1 Hb))
    as (_ & Hlast & _).
  rewrite Hb in Hlast. cbn [snd] in Hlast.
  exists (epoch_record r s2 (stop - 1) res).
  split; [exact Hlast|]. split; [reflexivity|].
  rewrite <- Hstop. reflexivity.
Qed.

(** The run resumed from the toy checkpoint of epoch 3 of 5 runs epoch 4
    and returns. *)
Lemma completed_run_toy :
  let args := Train.Namespace "config.yaml" (Some "runs/train_0/last.pt"%string) true in
  exists w' ckpt,
    Train.train pyval Toy.toy_collab args Toy.toy_world_epoch3 = (Ok tt, w') /\
    fs_lookup (files w') "runs/train_0/last.pt"
      = Some (PickleFile (pickle Toy.toy_collab ckpt)) /\
    getitem ckpt "epoch" = Ok (PyInt 4).
Proof.
  intros args. eexists.
  match goal with
  | |- exists ckpt, ?P1 /\ _ => assert (H1 : P1) by (vm_compute; reflexivity)
  end.
  destruct (completed_run_leaves_final_checkpoint pyval Toy.toy_collab args _ _ H1)
    as (start & r & w0 & Hs & Hlast).
  assert (Hs' : Train.train_setup pyval Toy.toy_collab args Toy.toy_world_epoch3
                = (Ok (4%Z, Train.Run (Toy.toy_config 5) Toy.toy_dataset
                              (Toy.toy_trainer Toy.other_model) (Writer "runs/train_0")
                              (PyInt 3) (PyInt 5) (PyList [Toy.scalar_tensor 1])
                              (PyList [Toy.scalar_tensor 1])),
                   World (files Toy.toy_world_epoch3)
                     [EvTorchLoad "runs/train_0/last.pt";
                      EvSummaryWriter "runs/train_0"]))
    by reflexivity.
  rewrite Hs' in Hs. injection Hs as <- <- <-.
  destruct (Hlast 5%Z eq_refl ltac:(lia)) as (ckpt & Hf & He & _).
  exists ckpt. split; [exact H1|]. split; [exact Hf | exact He].
Defined.

(** X27. A dataset without training batches stops the run in its first
    epoch: [train_step] returns [None] as the loss, so the epoch raises
    before anything is saved, leaving the files and the log as they were;
    when the scheduler step and the evaluation return, the error is the
    attribute error of [train_loss.detach()]. *)
Theorem epoch_without_batches_raises (blob : Type) (E : collab blob)
  (r : Train.run) (s : Train.loop_state) (e : Z) (w : world blob) :
  trainloader (Train.data r) = [] ->
  exists ex,
    Train.epoch_body blob E r s e w = (Raise ex, w) /\
    (forall t v,
       scheduler (Train.cur s) <> PyNone ->
       scheduler_step E (Train.cur s) = Ok t ->
       train_eval E (model t) (valloader (Train.data r)) = Ok v ->
       ex = AttributeError).
Proof.
  intros Hempty.
  assert (Hc : exists ex,
             Train.epoch_compute blob E r s = Raise ex /\
             (forall t v,
                scheduler (Train.cur s) <> PyNone ->
                scheduler_step E (Train.cur s) = Ok t ->
                train_eval E (model t) (valloader (Train.data r)) = Ok v ->
                ex = AttributeError)).
  { unfold Train.epoch_compute, Train.train_step. rewrite Hempty.
    cbn [Train.enumerate_from Train.rfold rbind].
    destruct (scheduler (Train.cur s)) eqn:Hsch;
      try (exists AttributeError; split; [reflexivity|];
           intros t v Hn; exfalso; apply Hn; reflexivity);
      (destruct (scheduler_step E (Train.cur s)) as [t|ex] eqn:Hst; cbn [rbind];
       [ destruct (train_eval E (model t) (valloader (Train.data r)))
           as [[[vl va] vf]|ex] eqn:Hev; cbn [rbind];
         [ exists AttributeError; split; [reflexivity|]; reflexivity
         | exists ex; split; [reflexivity|];
           intros t' v _ Ht Hv; injection Ht as <-; rewrite Hev in Hv;
           discriminate Hv ]
       | exists ex; split; [reflexivity|];
         intros t' v _ Ht; discriminate Ht ]). }
  destruct Hc as (ex & Hc & Hex). exists ex.
  split; [exact (epoch_body_raises_unsaved blob E r s e w ex Hc) | exact Hex].
Qed.

Lemma epoch_without_batches_toy :
  let r := Toy.toy_run_without_batches in
  let s := Train.LoopState (Train.objs r) (Train.train_losses r)
             (Train.val_losses r) (PyFloat PInf) in
  trainloader (Train.data r) = [] /\
  Train.epoch_body pyval Toy.toy_collab r s 0 Toy.toy_world
    = (Raise AttributeError, Toy.toy_world).
Proof.
  intros r s. split; [reflexivity|].
  destruct (epoch_without_batches_raises pyval Toy.toy_collab r s 0 Toy.toy_world
              eq_refl) as (ex & Hb & Hex).
  rewrite Hb. f_equal. f_equal.
  apply (Hex (Train.cur s)
             (Toy.scalar_tensor (1 / 4), PyFloat (Fin (3 / 4)),
              PyDict [("0"%string, PyFloat (Fin (1 / 2)));
                      ("1"%string, PyFloat (Fin 1))]));
    [discriminate | reflexivity | reflexivity].
Defined.

(** X28. A fresh start needs the file [config.yaml] in the working
    directory, whatever [--config] names: without it [train] raises the
    file-not-found error before doing anything else, also when the file
    that [--config] names exists. *)
Theorem fresh_start_needs_config_yaml (blob : Type) (E : collab blob)
  (config_path : string) (resume : bool) (w : world blob) :
  fs_lookup (files w) "config.yaml" = None ->
  Train.train blob E (Train.Namespace config_path None resume) w =
  (Raise FileNotFoundError, w).
Proof.
  intros Hnone. unfold Train.train, Train.train_setup.
  cbn [Train.args_checkpoint Train.args_config].
  unfold mbind at 1. unfold mbind at 1. unfold mbind at 1. unfold mret at 1.
  unfold mbind at 1. unfold Train.init. unfold mbind at 1.
  unfold Utils.load_config. rewrite Hnone. reflexivity.
Qed.

Lemma fresh_start_other_config_toy :
  let w := World [("experiment.yaml"%string, YamlFile (Toy.toy_config 7))] [] in
  (fs_lookup (files w) "config.yaml" = None /\
   fst (Utils.load_config pyval "experiment.yaml" w) = Ok (Toy.toy_config 7)) /\
  Train.train pyval Toy.toy_collab (Train.Namespace "experiment.yaml" None false) w
  = (Raise FileNotFoundError, w).
Proof.
  intros w. split; [split; reflexivity|].
  apply (fresh_start_needs_config_yaml pyval Toy.toy_collab "experiment.yaml" false w).
  reflexivity.
Defined.
